(** * Gadi Dhundo: range query, notification fan-out and store constraints

    A shallow embedding of the SQL migrations (tables, constraints, row-level
    policies, triggers, the two range functions) and of the React components
    that submit and list reports.

    Conventions of the embedding:
    - [DOUBLE PRECISION] is read as a real number.  The one place where the
      rounding of the floating-point evaluation changes the outcome, not only
      the last digits, is the domain check of [acos] in the range query: the
      inputs on which it raises are given from outside, as
      [acos_out_of_range];
    - a [TIMESTAMP WITH TIME ZONE] and a JavaScript [Date] are milliseconds
      since the epoch;
    - SQL [NULL], JavaScript [null] and [undefined] are [None];
    - a table is the list of its rows, newest last. *)

From Stdlib Require Import Reals Lra Machin ZArith Lia String List Bool.
From Stdlib Require Import DecimalString.
From Stdlib Require Import Sorted Permutation Ascii.
Import ListNotations.

(* ================================================================== *)
(** ** SQL values *)

Module Pg.

Definition UUID := Z.
Definition text := string.
Definition timestamptz := Z.

(** Three-valued logic: [None] is the unknown truth value. *)
Definition sql_bool := option bool.

Definition sql_and (a b : sql_bool) : sql_bool :=
  match a, b with
  | Some false, _ => Some false
  | _, Some false => Some false
  | Some true, Some true => Some true
  | _, _ => None
  end.

(** A [WHERE] clause, a [USING] clause and a [WITH CHECK] clause keep a row
    only when the condition is true; unknown counts as false. *)
Definition sql_is_true (a : sql_bool) : bool :=
  match a with Some true => true | _ => false end.

Definition uuid_eq (a b : option UUID) : sql_bool :=
  match a, b with
  | Some x, Some y => Some (Z.eqb x y)
  | _, _ => None
  end.

Definition uuid_neq (a b : option UUID) : sql_bool :=
  option_map negb (uuid_eq a b).

Definition Rleb (x y : R) : bool := if Rle_dec x y then true else false.

Definition float8_le (a b : option R) : sql_bool :=
  match a, b with
  | Some x, Some y => Some (Rleb x y)
  | _, _ => None
  end.

(** [radians(x)] is [x * (pi / 180)]. *)
Definition radians (x : R) : R := (x * (PI / 180))%R.

(** [CAST(x AS INTEGER)] on a double rounds to the nearest integer, ties to
    the even one ([rint]).  The range check of the cast is left out: every
    value cast below is [6371000 * acos _], at most [6371000 * pi]. *)
Definition rint (x : R) : Z :=
  let f := Int_part x in
  match total_order_T (frac_part x) (1 / 2) with
  | inleft (left _) => f
  | inleft (right _) => if Z.even f then f else (f + 1)%Z
  | inright _ => (f + 1)%Z
  end.

(** A PostGIS point.  The casts [::geometry] and [::geography] keep the
    coordinates (longitude in [ST_X], latitude in [ST_Y]); coordinates are
    taken inside the geodetic range. *)
Record geography := mk_point { srid : Z; ST_X : R; ST_Y : R }.

Definition ST_MakePoint (x y : R) : geography :=
  {| srid := 0; ST_X := x; ST_Y := y |}.

Definition ST_SetSRID (g : geography) (s : Z) : geography :=
  {| srid := s; ST_X := ST_X g; ST_Y := ST_Y g |}.

(** [ST_SetSRID(ST_MakePoint(lon, lat), 4326)::geography] *)
Definition point (lon lat : R) : geography :=
  ST_SetSRID (ST_MakePoint lon lat) 4326.

(** The [supabase-js] error object, by the class of the SQLSTATE it carries:
    check and not-null violations (23514, 23502), a numeric value out of
    range (22003) and client-side schema failures are [ValidationError], a
    row-level policy violation (42501) is
    [AuthorizationError], a unique violation (23505) is [ConflictError], a
    foreign-key violation (23503) is [NotFoundError], and a request that never
    reached the store is [TransientStoreError]. *)
Inductive error :=
| ValidationError
| AuthorizationError
| ConflictError
| NotFoundError
| TransientStoreError.

Inductive result (A : Type) :=
| Ok (a : A)
| Err (e : error).
Arguments Ok {A} a.
Arguments Err {A} e.

Definition text_in (s : text) (l : list text) : bool :=
  existsb (String.eqb s) l.

End Pg.

Import Pg.

(* ================================================================== *)
(** ** Tables *)

Module Profiles.

Record row := mk {
  id : UUID;
  user_id : UUID;
  phone : option text;
  name : text;
  proof_url : option text;
  verified : bool;
  fcm_token : option text;
  location : option geography;
  created_at : timestamptz;
  updated_at : timestamptz
}.

(** [user_id UUID NOT NULL UNIQUE] *)
Definition user_id_unique (t : list row) : Prop := NoDup (map user_id t).

End Profiles.

(* ================================================================== *)
(** ** The range query, [get_users_in_range] *)

Module RangeQuery.

Record users_in_range := mk {
  user_id : UUID;
  distance_meters : option Z;
  fcm_token : option text
}.

(** [6371000 * acos(cos(radians(center_lat)) * cos(radians(ST_Y(loc))) *
    cos(radians(ST_X(loc)) - radians(center_lon)) + sin(radians(center_lat)) *
    sin(radians(ST_Y(loc))))]; null on a null location. *)
Definition great_circle (center_lat center_lon : R)
  (loc : option geography) : option R :=
  match loc with
  | None => None
  | Some g =>
      Some (6371000 *
            acos (cos (radians center_lat) *
                  cos (radians (ST_Y g)) *
                  cos (radians (ST_X g) - radians center_lon) +
                  sin (radians center_lat) *
                  sin (radians (ST_Y g))))%R
  end.

Definition is_not_null {A : Type} (x : option A) : sql_bool :=
  match x with Some _ => Some true | None => Some false end.

(** The [WHERE] clause; [auth_uid] is what [auth.uid()] returns for the
    request, null for an anonymous caller. *)
Definition in_range (auth_uid : option UUID) (center_lat center_lon : R)
  (radius_meters : Z) (p : Profiles.row) : sql_bool :=
  sql_and
    (sql_and (is_not_null (Profiles.location p))
             (uuid_neq (Some (Profiles.user_id p)) auth_uid))
    (float8_le (great_circle center_lat center_lon (Profiles.location p))
               (Some (IZR radius_meters))).

(** [acos] raises "input is out of range" (22003) when its argument lies
    outside [-1, 1].  The real sum never does, but the sum computed in double
    precision can exceed 1 in the last digit when the profile is on the
    centre or very near it, and the whole call then fails.  On which centre
    and point that happens is a fact of the floating-point evaluation, given
    here as [out_of_range].  [acos] is strict, so it is not evaluated on a
    null location.  A row is dropped at the first condition of the [WHERE]
    clause that is not true, and the planner orders the conditions: when the
    test on [user_id] comes before the test on the distance, [acos] is not
    evaluated on the caller's own profile; [own_row_too] says that it is.
    The [SELECT] list evaluates [acos] again, on rows that passed. *)
Definition acos_raises (out_of_range : R -> R -> geography -> bool)
  (own_row_too : bool) (auth_uid : option UUID)
  (profiles : list Profiles.row) (center_lat center_lon : R) : bool :=
  existsb (fun p =>
             match Profiles.location p with
             | Some g =>
                 (own_row_too ||
                  sql_is_true
                    (uuid_neq (Some (Profiles.user_id p)) auth_uid)) &&
                 out_of_range center_lat center_lon g
             | None => false
             end)
          profiles.

(** The [SELECT] list. *)
Definition select_row (center_lat center_lon : R) (p : Profiles.row)
  : users_in_range :=
  {| user_id := Profiles.user_id p;
     distance_meters :=
       option_map rint
         (great_circle center_lat center_lon (Profiles.location p));
     fcm_token := Profiles.fcm_token p |}.

Definition get_users_in_range (auth_uid : option UUID)
  (profiles : list Profiles.row) (center_lat center_lon : R)
  (radius_meters : Z) : list users_in_range :=
  map (select_row center_lat center_lon)
      (filter (fun p => sql_is_true
                 (in_range auth_uid center_lat center_lon radius_meters p))
              profiles).

Record users_in_radius := mk_radius {
  r_user_id : UUID;
  r_phone : option text;
  r_fcm_token : option text
}.

Section Radius.

(** [ST_DWithin] on two geographies is PostGIS's own geodesic test; it is
    taken as given. *)
Variable ST_DWithin : geography -> geography -> R -> bool.

Definition dwithin (a : option geography) (b : geography) (d : R)
  : sql_bool :=
  match a with
  | None => None
  | Some g => Some (ST_DWithin g b d)
  end.

Definition in_radius (report_lat report_lon : R) (radius_meters : Z)
  (p : Profiles.row) : sql_bool :=
  sql_and
    (sql_and (is_not_null (Profiles.location p))
             (Some (Bool.eqb (Profiles.verified p) true)))
    (dwithin (Profiles.location p) (point report_lon report_lat)
             (IZR radius_meters)).

Definition get_users_in_radius (profiles : list Profiles.row)
  (report_lat report_lon : R) (radius_meters : Z) : list users_in_radius :=
  map (fun p => {| r_user_id := Profiles.user_id p;
                   r_phone := Profiles.phone p;
                   r_fcm_token := Profiles.fcm_token p |})
      (filter (fun p => sql_is_true
                 (in_radius report_lat report_lon radius_meters p))
              profiles).

End Radius.

End RangeQuery.

(* ================================================================== *)
(** ** The [reports] table *)

Module Reports.

(** A tuple of the table.  [location] is nullable in the tuple type because
    the [NOT NULL] constraint is checked only after the [BEFORE] trigger. *)
Record row := mk {
  id : UUID;
  user_id : UUID;
  category : text;
  vehicle_no : text;
  description : option text;
  photo_url : option text;
  lat : R;
  lon : R;
  location : option geography;
  radius_m : Z;
  expiry_at : timestamptz;
  status : text;
  created_at : timestamptz;
  updated_at : timestamptz
}.

(** The object handed to [.insert(...)]: [None] in a column that has a
    default is a key left out of the object. *)
Record new_row := mk_new {
  n_user_id : UUID;
  n_category : option text;
  n_vehicle_no : text;
  n_description : option text;
  n_photo_url : option text;
  n_lat : R;
  n_lon : R;
  n_location : option geography;
  n_radius_m : option Z;
  n_expiry_at : option timestamptz;
  n_status : option text
}.

Definition hours (h : Z) : Z := (h * 60 * 60 * 1000)%Z.

Definition or_default {A : Type} (x : option A) (d : A) : A :=
  match x with Some v => v | None => d end.

(** Column defaults: [gen_random_uuid()], ['vehicle'], [1000],
    [now() + interval '2 hours'], ['pending'], [now()]. *)
Definition with_defaults (now : timestamptz) (fresh : UUID) (n : new_row)
  : row :=
  {| id := fresh;
     user_id := n_user_id n;
     category := or_default (n_category n) "vehicle"%string;
     vehicle_no := n_vehicle_no n;
     description := n_description n;
     photo_url := n_photo_url n;
     lat := n_lat n;
     lon := n_lon n;
     location := n_location n;
     radius_m := or_default (n_radius_m n) 1000%Z;
     expiry_at := or_default (n_expiry_at n) (now + hours 2)%Z;
     status := or_default (n_status n) "pending"%string;
     created_at := now;
     updated_at := now |}.

(** The trigger function: [NEW.location = ST_SetSRID(ST_MakePoint(NEW.lon,
    NEW.lat), 4326)::geography; RETURN NEW]. *)
Definition update_report_location (NEW : row) : row :=
  {| id := id NEW;
     user_id := user_id NEW;
     category := category NEW;
     vehicle_no := vehicle_no NEW;
     description := description NEW;
     photo_url := photo_url NEW;
     lat := lat NEW;
     lon := lon NEW;
     location := Some (point (lon NEW) (lat NEW));
     radius_m := radius_m NEW;
     expiry_at := expiry_at NEW;
     status := status NEW;
     created_at := created_at NEW;
     updated_at := updated_at NEW |}.

(** [CHECK (status IN ('pending', 'verified', 'false'))] *)
Definition status_check (r : row) : bool :=
  text_in (status r) ["pending"; "verified"; "false"]%string.

(** [location GEOGRAPHY(POINT, 4326) NOT NULL] *)
Definition location_not_null (r : row) : bool :=
  match location r with Some _ => true | None => false end.

Definition constraints (r : row) : bool :=
  location_not_null r && status_check r.

(** Policy "Users can view all active reports":
    [FOR SELECT USING (expiry_at > now())]. *)
Definition can_view (now : timestamptz) (r : row) : bool :=
  (now <? expiry_at r)%Z.

(** Policies "Users can create their own reports" and "Users can update
    their own reports": [auth.uid() = user_id]. *)
Definition is_own (auth_uid : option UUID) (r : row) : bool :=
  sql_is_true (uuid_eq auth_uid (Some (user_id r))).

Definition has_id (i : UUID) (t : list row) : bool :=
  existsb (fun r => Z.eqb (id r) i) t.

Definition mem_uuid (i : UUID) (l : list UUID) : bool :=
  existsb (Z.eqb i) l.

(** One [INSERT] of one row.  In the order the executor follows: defaults,
    the [BEFORE INSERT] trigger, the [WITH CHECK] policies (with the
    [SELECT] policy too when the statement has [RETURNING]), the [NOT NULL]
    and [CHECK] constraints, the primary key, the foreign key to
    [auth.users].  The result is the stored row and the new table. *)
Definition insert (auth_uid : option UUID) (now : timestamptz)
  (fresh : UUID) (auth_users : list UUID) (returning : bool)
  (t : list row) (n : new_row) : result (row * list row) :=
  let NEW := update_report_location (with_defaults now fresh n) in
  if negb (is_own auth_uid NEW) then Err AuthorizationError
  else if returning && negb (can_view now NEW) then Err AuthorizationError
  else if negb (constraints NEW) then Err ValidationError
  else if has_id (id NEW) t then Err ConflictError
  else if negb (mem_uuid (user_id NEW) auth_users) then Err NotFoundError
  else Ok (NEW, t ++ [NEW]).

(** Rows an [UPDATE ... WHERE cond] may touch: they satisfy [cond], the
    [UPDATE] policy and, since [cond] reads the row, the [SELECT] policy. *)
Definition targeted (auth_uid : option UUID) (now : timestamptz)
  (cond : row -> bool) (r : row) : bool :=
  cond r && is_own auth_uid r && can_view now r.

(** The new version of one targeted row: the [SET] clause, then the
    [BEFORE UPDATE] trigger. *)
Definition new_version (set : row -> row) (OLD : row) : row :=
  update_report_location (set OLD).

Definition apply_update (auth_uid : option UUID) (now : timestamptz)
  (cond : row -> bool) (set : row -> row) (t : list row) : list row :=
  map (fun r => if targeted auth_uid now cond r then new_version set r
                else r) t.

Fixpoint ids_unique (t : list row) : bool :=
  match t with
  | [] => true
  | r :: t' => negb (has_id (id r) t') && ids_unique t'
  end.

(** One [UPDATE] statement on a table with unique keys: every new version
    must pass the [UPDATE] policy (its [USING] clause doubles as
    [WITH CHECK]) and the [SELECT] policy, the constraints, the primary key
    and, when [user_id] changes, the foreign key, or the statement changes
    nothing. *)
Definition update (auth_uid : option UUID) (now : timestamptz)
  (auth_users : list UUID) (cond : row -> bool) (set : row -> row)
  (t : list row) : result (list row) :=
  let targets := filter (targeted auth_uid now cond) t in
  let changed := map (new_version set) targets in
  let t' := apply_update auth_uid now cond set t in
  if negb (forallb (fun r => is_own auth_uid r && can_view now r) changed)
  then Err AuthorizationError
  else if negb (forallb constraints changed) then Err ValidationError
  else if negb (ids_unique t') then Err ConflictError
  else if negb (forallb
                  (fun OLD =>
                     Z.eqb (user_id (new_version set OLD)) (user_id OLD) ||
                     mem_uuid (user_id (new_version set OLD)) auth_users)
                  targets)
  then Err NotFoundError
  else Ok t'.

(** [SET lat = la, lon = lo] *)
Definition set_lat_lon (la lo : R) (r : row) : row :=
  {| id := id r;
     user_id := user_id r;
     category := category r;
     vehicle_no := vehicle_no r;
     description := description r;
     photo_url := photo_url r;
     lat := la;
     lon := lo;
     location := location r;
     radius_m := radius_m r;
     expiry_at := expiry_at r;
     status := status r;
     created_at := created_at r;
     updated_at := updated_at r |}.

(** [SELECT * FROM reports] as a client sees it. *)
Definition select (now : timestamptz) (t : list row) : list row :=
  filter (can_view now) t.

Fixpoint insert_desc (r : row) (l : list row) : list row :=
  match l with
  | [] => [r]
  | x :: l' =>
      if (created_at x <=? created_at r)%Z then r :: l
      else x :: insert_desc r l'
  end.

(** [.order('created_at', { ascending: false })]; rows with the same
    [created_at] stay in table order. *)
Definition order_by_created_at_desc (l : list row) : list row :=
  fold_right insert_desc [] l.

End Reports.

(* ================================================================== *)
(** ** The [confirmations] table *)

Module Confirmations.

Record row := mk {
  id : UUID;
  report_id : UUID;
  user_id : UUID;
  type : text;
  created_at : timestamptz
}.

Record new_row := mk_new {
  n_report_id : UUID;
  n_user_id : UUID;
  n_type : text
}.

Definition with_defaults (now : timestamptz) (fresh : UUID) (n : new_row)
  : row :=
  {| id := fresh;
     report_id := n_report_id n;
     user_id := n_user_id n;
     type := n_type n;
     created_at := now |}.

(** [CHECK (type IN ('seen', 'false', 'call_police'))] *)
Definition type_check (r : row) : bool :=
  text_in (type r) ["seen"; "false"; "call_police"]%string.

Definition same_pair (report user : UUID) (r : row) : bool :=
  Z.eqb (report_id r) report && Z.eqb (user_id r) user.

(** [UNIQUE(report_id, user_id)] *)
Definition has_pair (report user : UUID) (t : list row) : bool :=
  existsb (same_pair report user) t.

Definition has_id (i : UUID) (t : list row) : bool :=
  existsb (fun r => Z.eqb (id r) i) t.

(** Policy "Users can create confirmations":
    [FOR INSERT WITH CHECK (auth.uid() = user_id)]. *)
Definition is_own (auth_uid : option UUID) (r : row) : bool :=
  sql_is_true (uuid_eq auth_uid (Some (user_id r))).

(** One [INSERT]: defaults, the policy, the [CHECK], the primary key and the
    [UNIQUE(report_id, user_id)] index, then the two foreign keys. *)
Definition insert (auth_uid : option UUID) (now : timestamptz)
  (fresh : UUID) (auth_users : list UUID) (reports : list Reports.row)
  (t : list row) (n : new_row) : result (list row) :=
  let NEW := with_defaults now fresh n in
  if negb (is_own auth_uid NEW) then Err AuthorizationError
  else if negb (type_check NEW) then Err ValidationError
  else if has_id (id NEW) t then Err ConflictError
  else if has_pair (report_id NEW) (user_id NEW) t then Err ConflictError
  else if negb (Reports.has_id (report_id NEW) reports) then Err NotFoundError
  else if negb (Reports.mem_uuid (user_id NEW) auth_users)
  then Err NotFoundError
  else Ok (t ++ [NEW]).

Definition count_pair (report user : UUID) (t : list row) : nat :=
  length (filter (same_pair report user) t).

End Confirmations.

(* ================================================================== *)
(** ** The [notification_alerts] table *)

Module Alerts.

(** A tuple; the two columns a client can send null in are nullable in the
    tuple type and checked by [not_null]. *)
Record row := mk {
  id : UUID;
  report_id : UUID;
  recipient_user_id : UUID;
  sender_user_id : option UUID;
  message : text;
  alert_type : text;
  distance_meters : option Z;
  status : text;
  read_at : option timestamptz;
  created_at : timestamptz;
  updated_at : timestamptz
}.

Record new_row := mk_new {
  n_report_id : UUID;
  n_recipient_user_id : UUID;
  n_sender_user_id : option UUID;
  n_message : text;
  n_distance_meters : option Z
}.

(** Defaults: [gen_random_uuid()], ['theft_alert'], ['sent'], [now()]. *)
Definition with_defaults (now : timestamptz) (fresh : UUID) (n : new_row)
  : row :=
  {| id := fresh;
     report_id := n_report_id n;
     recipient_user_id := n_recipient_user_id n;
     sender_user_id := n_sender_user_id n;
     message := n_message n;
     alert_type := "theft_alert"%string;
     distance_meters := n_distance_meters n;
     status := "sent"%string;
     read_at := None;
     created_at := now;
     updated_at := now |}.

(** Policy "Users can create alerts for their reports":
    [FOR INSERT WITH CHECK (auth.uid() = sender_user_id)]. *)
Definition is_sender (auth_uid : option UUID) (r : row) : bool :=
  sql_is_true (uuid_eq auth_uid (sender_user_id r)).

Definition not_null (r : row) : bool :=
  match sender_user_id r, distance_meters r with
  | Some _, Some _ => true
  | _, _ => false
  end.

Definition has_id (i : UUID) (t : list row) : bool :=
  existsb (fun r => Z.eqb (id r) i) t.

Definition insert_row (auth_uid : option UUID) (now : timestamptz)
  (fresh : UUID) (t : list row) (n : new_row) : result (list row) :=
  let NEW := with_defaults now fresh n in
  if negb (is_sender auth_uid NEW) then Err AuthorizationError
  else if negb (not_null NEW) then Err ValidationError
  else if has_id (id NEW) t then Err ConflictError
  else Ok (t ++ [NEW]).

(** The rows of one multi-row [INSERT], in order; the [k]-th row takes the
    [k]-th identifier drawn by [gen_random_uuid()].  The first error ends
    the statement. *)
Fixpoint insert_rows (auth_uid : option UUID) (now : timestamptz)
  (fresh : nat -> UUID) (k : nat) (t : list row) (ns : list new_row)
  : result (list row) :=
  match ns with
  | [] => Ok t
  | n :: ns' =>
      match insert_row auth_uid now (fresh k) t n with
      | Ok t' => insert_rows auth_uid now fresh (S k) t' ns'
      | Err e => Err e
      end
  end.

(** The rows such a statement stores when no row is refused. *)
Fixpoint stored (now : timestamptz) (fresh : nat -> UUID) (k : nat)
  (ns : list new_row) : list row :=
  match ns with
  | [] => []
  | n :: ns' => with_defaults now (fresh k) n :: stored now fresh (S k) ns'
  end.

(** [.insert(alerts)]: one statement, so all rows or none. *)
Definition insert (auth_uid : option UUID) (now : timestamptz)
  (fresh : nat -> UUID) (t : list row) (ns : list new_row)
  : result (list row) :=
  insert_rows auth_uid now fresh 0 t ns.

(** The recipients of the alerts of one report, in table order. *)
Definition recipients_of (report : UUID) (t : list row) : list UUID :=
  map recipient_user_id (filter (fun a => Z.eqb (report_id a) report) t).

End Alerts.

(* ================================================================== *)
(** ** The store *)

Record store := mk_store {
  auth_users : list UUID;
  profiles : list Profiles.row;
  reports : list Reports.row;
  confirmations : list Confirmations.row;
  notification_alerts : list Alerts.row
}.

Definition set_reports (s : store) (t : list Reports.row) : store :=
  {| auth_users := auth_users s;
     profiles := profiles s;
     reports := t;
     confirmations := confirmations s;
     notification_alerts := notification_alerts s |}.

Definition set_confirmations (s : store) (t : list Confirmations.row)
  : store :=
  {| auth_users := auth_users s;
     profiles := profiles s;
     reports := reports s;
     confirmations := t;
     notification_alerts := notification_alerts s |}.

Definition set_notification_alerts (s : store) (t : list Alerts.row)
  : store :=
  {| auth_users := auth_users s;
     profiles := profiles s;
     reports := reports s;
     confirmations := confirmations s;
     notification_alerts := t |}.

(** What one interaction meets outside the component: the identity the
    store sees for the session, the store's clock at the first statement
    and at the alert insert that may follow, the browser's clock, the
    identifiers [gen_random_uuid()] draws, the requests that never
    reach the store (a request that fails this way has no effect), the
    centres and points on which the double-precision argument of [acos]
    leaves [-1, 1], and whether the range query evaluates [acos] on the
    caller's own profile. *)
Record world := mk_world {
  auth_uid : option UUID;
  now : timestamptz;
  now_alerts : timestamptz;
  Date_now : timestamptz;
  report_uuid : UUID;
  alert_uuid : nat -> UUID;
  insert_report_lost : bool;
  rpc_lost : bool;
  insert_alerts_lost : bool;
  select_lost : bool;
  acos_out_of_range : R -> R -> geography -> bool;
  acos_on_own_row : bool
}.

(** [!x] on a JavaScript number that may be null: null and 0 are falsy. *)
Definition falsy_number (x : option R) : bool :=
  match x with
  | None => true
  | Some v => if Req_dec_T v 0 then true else false
  end.

(** [a || b] on strings: the empty string is falsy. *)
Definition or_string (a b : string) : string :=
  match a with EmptyString => b | _ => a end.

(** [s.length] of a JavaScript string is its number of UTF-16 code units.
    A [text] holds the UTF-8 bytes: the first byte of a character of one to
    three bytes stands for one unit, the first byte of a four-byte character
    for two (a surrogate pair), a continuation byte ([10xxxxxx]) for none. *)
Definition utf16_units (c : ascii) : nat :=
  let n := nat_of_ascii c in
  if (n <? 128)%nat then 1%nat
  else if (n <? 192)%nat then 0%nat
  else if (n <? 240)%nat then 1%nat
  else 2%nat.

Fixpoint js_length (s : string) : nat :=
  match s with
  | EmptyString => 0%nat
  | String c s' => (utf16_units c + js_length s')%nat
  end.

(** The requests a component sends through [supabase]. *)
Module Supabase.

Definition insert_report (w : world) (returning : bool) (s : store)
  (n : Reports.new_row) : result (Reports.row * store) :=
  if insert_report_lost w then Err TransientStoreError
  else
    match Reports.insert (auth_uid w) (now w) (report_uuid w)
            (auth_users s) returning (reports s) n with
    | Ok (r, t) => Ok (r, set_reports s t)
    | Err e => Err e
    end.

Definition rpc_get_users_in_range (w : world) (s : store)
  (center_lat center_lon : R) (radius_meters : Z)
  : result (list RangeQuery.users_in_range) :=
  if rpc_lost w then Err TransientStoreError
  else if RangeQuery.acos_raises (acos_out_of_range w) (acos_on_own_row w)
            (auth_uid w) (profiles s) center_lat center_lon
  then Err ValidationError
  else Ok (RangeQuery.get_users_in_range (auth_uid w) (profiles s)
             center_lat center_lon radius_meters).

Definition insert_alerts (w : world) (s : store)
  (alerts : list Alerts.new_row) : result store :=
  if insert_alerts_lost w then Err TransientStoreError
  else
    match Alerts.insert (auth_uid w) (now_alerts w) (alert_uuid w)
            (notification_alerts s) alerts with
    | Ok t => Ok (set_notification_alerts s t)
    | Err e => Err e
    end.

Definition select_reports (w : world) (s : store)
  : result (list Reports.row) :=
  if select_lost w then Err TransientStoreError
  else Ok (Reports.select (now w) (reports s)).

End Supabase.

(* ================================================================== *)
(** ** [TheftReportDialog]: submit a report, then fan out the alerts *)

Module TheftReportDialog.

(** The values the two callbacks close over: [user?.id], the browser's
    location, the form fields, the slider and what [uploadPhoto] returned
    (null without a photo). *)
Record closure := mk {
  user : option UUID;
  latitude : option R;
  longitude : option R;
  vehicleNo : text;
  description : text;
  message : text;
  alertRadius : Z;
  photoUrl : option text
}.

Definition default_message (vehicleNo : text) : text :=
  ("🚨 THEFT ALERT: " ++ vehicleNo ++
   " stolen near your location. Check the live map for details.")%string.

Definition alert_of (c : closure) (reportId : UUID)
  (userInRange : RangeQuery.users_in_range) : Alerts.new_row :=
  {| Alerts.n_report_id := reportId;
     Alerts.n_recipient_user_id := RangeQuery.user_id userInRange;
     Alerts.n_sender_user_id := user c;
     Alerts.n_message := or_string (message c) (default_message (vehicleNo c));
     Alerts.n_distance_meters := RangeQuery.distance_meters userInRange |}.

(** Returns [None] for the bare [return], else the count; every error is
    caught and turned into the count 0. *)
Definition sendAlertsToUsers (c : closure) (w : world) (reportId : UUID)
  (s : store) : option nat * store :=
  if falsy_number (latitude c) || falsy_number (longitude c) then (None, s)
  else
    match latitude c, longitude c with
    | Some lat, Some lon =>
        match Supabase.rpc_get_users_in_range w s lat lon (alertRadius c) with
        | Err _ => (Some 0%nat, s)
        | Ok usersInRange =>
            let alerts := map (alert_of c reportId) usersInRange in
            if (0 <? length alerts)%nat then
              match Supabase.insert_alerts w s alerts with
              | Err _ => (Some 0%nat, s)
              | Ok s' => (Some (length alerts), s')
              end
            else (Some (length alerts), s)
        end
    | _, _ => (None, s)
    end.

Inductive toast :=
| Submitted (alertsSent : option nat)
| SubmitError.

Definition report_of (c : closure) (uid : UUID) (lat lon : R)
  : Reports.new_row :=
  {| Reports.n_user_id := uid;
     Reports.n_category := Some "vehicle"%string;
     Reports.n_vehicle_no := vehicleNo c;
     Reports.n_description := Some (description c);
     Reports.n_photo_url := photoUrl c;
     Reports.n_lat := lat;
     Reports.n_lon := lon;
     Reports.n_location := Some (point lon lat);
     Reports.n_radius_m := Some (alertRadius c);
     Reports.n_expiry_at := None;
     Reports.n_status := None |}.

(** Returns the toast shown ([None] for the bare [return]) and the store
    left behind. *)
Definition handleSubmit (c : closure) (w : world) (s : store)
  : option toast * store :=
  match user c with
  | None => (None, s)
  | Some uid =>
      if falsy_number (latitude c) || falsy_number (longitude c)
      then (None, s)
      else
        match latitude c, longitude c with
        | Some lat, Some lon =>
            match Supabase.insert_report w true s (report_of c uid lat lon)
            with
            | Err _ => (Some SubmitError, s)
            | Ok (report, s1) =>
                let (alertsSent, s2) :=
                  sendAlertsToUsers c w (Reports.id report) s1 in
                (Some (Submitted alertsSent), s2)
            end
        | _, _ => (None, s)
        end
  end.

End TheftReportDialog.

(* ================================================================== *)
(** ** [TheftReportForm]: the validated report form *)

Module TheftReportForm.

Record ReportFormData := mk_data {
  vehicleNo : text;
  description : text;
  radius : Z;
  expiryHours : Z
}.

(** The [zod] schema: [vehicleNo] of length at least 1, [description] of
    length at least 10, [radius] in 500..5000, [expiryHours] in 1..24;
    [min(n)] on a string compares its [length]. *)
Definition reportSchema (d : ReportFormData) : bool :=
  (1 <=? js_length (vehicleNo d))%nat &&
  (10 <=? js_length (description d))%nat &&
  (500 <=? radius d)%Z && (radius d <=? 5000)%Z &&
  (1 <=? expiryHours d)%Z && (expiryHours d <=? 24)%Z.

Record closure := mk {
  user : option UUID;
  latitude : option R;
  longitude : option R;
  photoUrl : option text
}.

Inductive outcome :=
| Success
| LocationRequired
| Failed (e : error).

Definition report_of (w : world) (uid : UUID) (lat lon : R)
  (data : ReportFormData) (photoUrl : option text) : Reports.new_row :=
  {| Reports.n_user_id := uid;
     Reports.n_category := None;
     Reports.n_vehicle_no := vehicleNo data;
     Reports.n_description := Some (description data);
     Reports.n_photo_url := photoUrl;
     Reports.n_lat := lat;
     Reports.n_lon := lon;
     Reports.n_location := Some (point lon lat);
     Reports.n_radius_m := Some (radius data);
     Reports.n_expiry_at :=
       Some (Date_now w + expiryHours data * 60 * 60 * 1000)%Z;
     Reports.n_status := None |}.

Definition onSubmit (c : closure) (w : world) (data : ReportFormData)
  (s : store) : outcome * store :=
  match user c, latitude c, longitude c with
  | Some uid, Some lat, Some lon =>
      if falsy_number (latitude c) || falsy_number (longitude c)
      then (LocationRequired, s)
      else
        match Supabase.insert_report w false s
                (report_of w uid lat lon data (photoUrl c)) with
        | Err e => (Failed e, s)
        | Ok (_, s') => (Success, s')
        end
  | _, _, _ => (LocationRequired, s)
  end.

(** [form.handleSubmit(onSubmit)]: the resolver runs the schema first and
    calls [onSubmit] only on data that pass it. *)
Definition handleSubmit (c : closure) (w : world) (data : ReportFormData)
  (s : store) : outcome * store :=
  if reportSchema data then onSubmit c w data s
  else (Failed ValidationError, s).

End TheftReportForm.

(* ================================================================== *)
(** ** [ReportStolenVehicle]: the stolen-vehicle form *)

Module ReportStolenVehicle.

Record ReportFormData := mk_data {
  vehicleNumber : text;
  vehicleColor : text;
  vehicleType : text;
  theftTime : text;
  additionalDetails : text;
  uniqueMarks : text;
  location_manual : text
}.

Definition reportSchema (d : ReportFormData) : bool :=
  (1 <=? js_length (vehicleNumber d))%nat &&
  (1 <=? js_length (vehicleColor d))%nat &&
  (1 <=? js_length (vehicleType d))%nat &&
  (1 <=? js_length (theftTime d))%nat.

(** [evidenceUrls] holds what the uploads returned, failures dropped. *)
Record closure := mk {
  user : option UUID;
  latitude : option R;
  longitude : option R;
  useManualLocation : bool;
  evidenceUrls : list text
}.

Inductive outcome :=
| Success
| AuthenticationRequired
| LocationRequired
| Failed (e : error).

Definition number_to_string (n : nat) : string :=
  NilZero.string_of_uint (Nat.to_uint n).

Definition description_of (data : ReportFormData) (files : nat) : text :=
  (vehicleColor data ++ " " ++ vehicleType data ++ ". Theft time: " ++
   theftTime data ++ ". Additional details: " ++
   or_string (additionalDetails data) "None" ++ ". Unique marks: " ++
   or_string (uniqueMarks data) "None" ++ ". Evidence: " ++
   number_to_string files ++ " files uploaded.")%string.

(** [evidenceUrls[0] || null] *)
Definition first_url (urls : list text) : option text :=
  match urls with
  | [] => None
  | EmptyString :: _ => None
  | u :: _ => Some u
  end.

Definition reportData (c : closure) (w : world) (uid : UUID) (lat lon : R)
  (data : ReportFormData) : Reports.new_row :=
  {| Reports.n_user_id := uid;
     Reports.n_category := Some "vehicle"%string;
     Reports.n_vehicle_no := vehicleNumber data;
     Reports.n_description :=
       Some (description_of data (length (evidenceUrls c)));
     Reports.n_photo_url := first_url (evidenceUrls c);
     Reports.n_lat := if useManualLocation c then 0%R else lat;
     Reports.n_lon := if useManualLocation c then 0%R else lon;
     Reports.n_location :=
       Some (if useManualLocation c then point 0 0 else point lon lat);
     Reports.n_radius_m := Some 5000%Z;
     Reports.n_expiry_at := Some (Date_now w + 7 * 24 * 60 * 60 * 1000)%Z;
     Reports.n_status := Some "active"%string |}.

(** With a manual location the browser's coordinates are not read; [0]
    stands for them below. *)
Definition onSubmit (c : closure) (w : world) (data : ReportFormData)
  (s : store) : outcome * store :=
  match user c with
  | None => (AuthenticationRequired, s)
  | Some uid =>
      if negb (useManualLocation c) &&
         (falsy_number (latitude c) || falsy_number (longitude c))
      then (LocationRequired, s)
      else
        let lat := Reports.or_default (latitude c) 0%R in
        let lon := Reports.or_default (longitude c) 0%R in
        match Supabase.insert_report w false s
                (reportData c w uid lat lon data) with
        | Err e => (Failed e, s)
        | Ok (_, s') => (Success, s')
        end
  end.

Definition handleSubmit (c : closure) (w : world) (data : ReportFormData)
  (s : store) : outcome * store :=
  if reportSchema data then onSubmit c w data s
  else (Failed ValidationError, s).

End ReportStolenVehicle.

(* ================================================================== *)
(** ** The listings of active reports *)

Module LiveTheftMap.

(** [.eq('category', 'vehicle').gte('expiry_at', new Date().toISOString())
    .order('created_at', { ascending: false })]; an error leaves the list
    on screen as it was. *)
Definition loadReports (w : world) (s : store) : option (list Reports.row) :=
  match Supabase.select_reports w s with
  | Err _ => None
  | Ok rows =>
      Some (Reports.order_by_created_at_desc
              (filter (fun r =>
                         String.eqb (Reports.category r) "vehicle" &&
                         (Date_now w <=? Reports.expiry_at r)%Z)
                      rows))
  end.

End LiveTheftMap.

Module Index.

(** [.gte('expiry_at', new Date().toISOString())
    .order('created_at', { ascending: false })] *)
Definition loadReports (w : world) (s : store) : option (list Reports.row) :=
  match Supabase.select_reports w s with
  | Err _ => None
  | Ok rows =>
      Some (Reports.order_by_created_at_desc
              (filter (fun r => (Date_now w <=? Reports.expiry_at r)%Z)
                      rows))
  end.

End Index.

(* ================================================================== *)
(** ** Invariants of the store and a small scenario *)


(** No user is the recipient of two alert rows of one report. *)
Definition one_alert_per_recipient (s : store) : Prop :=
  forall report,
    NoDup (Alerts.recipients_of report (notification_alerts s)).



(** The point of every report row is the point of its [lon] and [lat]. *)
Definition location_derived (t : list Reports.row) : Prop :=
  forall r, In r t ->
            Reports.location r = Some (point (Reports.lon r) (Reports.lat r)).

(** Every report row has one of the three statuses of the [CHECK]. *)
Definition status_valid (t : list Reports.row) : Prop :=
  forall r, In r t ->
            Reports.status r = "pending"%string \/
            Reports.status r = "verified"%string \/
            Reports.status r = "false"%string.

Module Scenario.

Definition alice : UUID := 1%Z.
Definition bob : UUID := 2%Z.
Definition carol : UUID := 3%Z.

Definition profile_of (uid : UUID) (loc : option geography) : Profiles.row :=
  {| Profiles.id := (uid + 100)%Z;
     Profiles.user_id := uid;
     Profiles.phone := None;
     Profiles.name := "user"%string;
     Profiles.proof_url := None;
     Profiles.verified := true;
     Profiles.fcm_token := None;
     Profiles.location := loc;
     Profiles.created_at := 0%Z;
     Profiles.updated_at := 0%Z |}.

(** Bob stands 0.009 degrees east of the origin, on the equator; Carol has
    not shared a location. *)
Definition bob_profile : Profiles.row :=
  profile_of bob (Some (point 0.009 0)).

Definition carol_profile : Profiles.row := profile_of carol None.

Definition empty_store : store :=
  {| auth_users := [alice; bob; carol];
     profiles := [bob_profile; carol_profile];
     reports := [];
     confirmations := [];
     notification_alerts := [] |}.

Definition quiet_world : world :=
  {| auth_uid := Some alice;
     now := 1000%Z;
     now_alerts := 1005%Z;
     Date_now := 1000%Z;
     report_uuid := 50%Z;
     alert_uuid := fun k => (60 + Z.of_nat k)%Z;
     insert_report_lost := false;
     rpc_lost := false;
     insert_alerts_lost := false;
     select_lost := false;
     acos_out_of_range := fun _ _ _ => false;
     acos_on_own_row := false |}.

Definition dialog : TheftReportDialog.closure :=
  {| TheftReportDialog.user := Some alice;
     TheftReportDialog.latitude := Some 12.9%R;
     TheftReportDialog.longitude := Some 77.6%R;
     TheftReportDialog.vehicleNo := "MH 12 AB 1234"%string;
     TheftReportDialog.description := "red scooter"%string;
     TheftReportDialog.message := ""%string;
     TheftReportDialog.alertRadius := 1000%Z;
     TheftReportDialog.photoUrl := None |}.

(** Alice's report at (12.9, 77.6); the point her client sends along is
    not the point of these coordinates. *)
Definition scooter : Reports.new_row :=
  {| Reports.n_user_id := alice;
     Reports.n_category := None;
     Reports.n_vehicle_no := "MH 12 AB 1234"%string;
     Reports.n_description := Some "red scooter"%string;
     Reports.n_photo_url := None;
     Reports.n_lat := 12.9%R;
     Reports.n_lon := 77.6%R;
     Reports.n_location := Some (point 0 0);
     Reports.n_radius_m := Some 1000%Z;
     Reports.n_expiry_at := None;
     Reports.n_status := None |}.

Definition scooter_row : Reports.row :=
  Reports.update_report_location
    (Reports.with_defaults 1000%Z 50%Z scooter).


Definition is_scooter (r : Reports.row) : bool :=
  Z.eqb (Reports.id r) 50%Z.

Definition scooter_moved : Reports.row :=
  Reports.new_version (Reports.set_lat_lon 13 77.7) scooter_row.

(** Bob has seen the scooter. *)
Definition seen_by_bob : Confirmations.new_row :=
  {| Confirmations.n_report_id := 50%Z;
     Confirmations.n_user_id := bob;
     Confirmations.n_type := "seen"%string |}.

Definition seen_by_bob_row : Confirmations.row :=
  Confirmations.with_defaults 1100%Z 70%Z seen_by_bob.


Definition two_hours : TheftReportForm.ReportFormData :=
  {| TheftReportForm.vehicleNo := "MH 12 AB 1234"%string;
     TheftReportForm.description := "red scooter, taken at noon"%string;
     TheftReportForm.radius := 1000%Z;
     TheftReportForm.expiryHours := 2%Z |}.

Definition form : TheftReportForm.closure :=
  {| TheftReportForm.user := Some alice;
     TheftReportForm.latitude := Some 12.9%R;
     TheftReportForm.longitude := Some 77.6%R;
     TheftReportForm.photoUrl := None |}.

Definition store_with_scooter : store :=
  {| auth_users := [alice; bob; carol];
     profiles := [bob_profile; carol_profile];
     reports := [scooter_row];
     confirmations := [];
     notification_alerts := [] |}.

(** The same session one hour and three hours after the report. *)
Definition one_hour_later : world :=
  {| auth_uid := Some bob;
     now := (1000 + Reports.hours 1)%Z;
     now_alerts := (1000 + Reports.hours 1)%Z;
     Date_now := (1000 + Reports.hours 1)%Z;
     report_uuid := 51%Z;
     alert_uuid := fun k => (80 + Z.of_nat k)%Z;
     insert_report_lost := false;
     rpc_lost := false;
     insert_alerts_lost := false;
     select_lost := false;
     acos_out_of_range := fun _ _ _ => false;
     acos_on_own_row := false |}.

Definition three_hours_later : world :=
  {| auth_uid := Some bob;
     now := (1000 + Reports.hours 3)%Z;
     now_alerts := (1000 + Reports.hours 3)%Z;
     Date_now := (1000 + Reports.hours 3)%Z;
     report_uuid := 52%Z;
     alert_uuid := fun k => (90 + Z.of_nat k)%Z;
     insert_report_lost := false;
     rpc_lost := false;
     insert_alerts_lost := false;
     select_lost := false;
     acos_out_of_range := fun _ _ _ => false;
     acos_on_own_row := false |}.

(** A session whose range query never reaches the store. *)
Definition lossy_world : world :=
  {| auth_uid := Some alice;
     now := 1000%Z;
     now_alerts := 1005%Z;
     Date_now := 1000%Z;
     report_uuid := 50%Z;
     alert_uuid := fun k => (60 + Z.of_nat k)%Z;
     insert_report_lost := false;
     rpc_lost := true;
     insert_alerts_lost := false;
     select_lost := false;
     acos_out_of_range := fun _ _ _ => false;
     acos_on_own_row := false |}.

(** The row Alice's dialog stores in [quiet_world] and [lossy_world]. *)
Definition dialog_row : Reports.row :=
  Reports.update_report_location
    (Reports.with_defaults 1000%Z 50%Z
       (TheftReportDialog.report_of dialog alice 12.9 77.6)).

(** The end-to-end scenario: Alice at (12.90, 77.60) reports with a radius
    of 2000 m; Bob is at (12.91, 77.60); Carol has no location. *)
Definition alice_profile : Profiles.row :=
  profile_of alice (Some (point 77.6 12.9)).

Definition bob_north : Profiles.row :=
  profile_of bob (Some (point 77.6 12.91)).

Definition town : store :=
  {| auth_users := [alice; bob; carol];
     profiles := [alice_profile; bob_north; carol_profile];
     reports := [];
     confirmations := [];
     notification_alerts := [] |}.

Definition dialog_2km : TheftReportDialog.closure :=
  {| TheftReportDialog.user := Some alice;
     TheftReportDialog.latitude := Some 12.9%R;
     TheftReportDialog.longitude := Some 77.6%R;
     TheftReportDialog.vehicleNo := "MH 12 AB 1234"%string;
     TheftReportDialog.description := "red scooter"%string;
     TheftReportDialog.message := ""%string;
     TheftReportDialog.alertRadius := 2000%Z;
     TheftReportDialog.photoUrl := None |}.

Definition report_2km : Reports.row :=
  Reports.update_report_location
    (Reports.with_defaults 1000%Z 50%Z
       (TheftReportDialog.report_of dialog_2km alice 12.9 77.6)).

Definition alert_for_bob : Alerts.row :=
  {| Alerts.id := 60%Z;
     Alerts.report_id := 50%Z;
     Alerts.recipient_user_id := bob;
     Alerts.sender_user_id := Some alice;
     Alerts.message :=
       TheftReportDialog.default_message "MH 12 AB 1234"%string;
     Alerts.alert_type := "theft_alert"%string;
     Alerts.distance_meters := Some 1112%Z;
     Alerts.status := "sent"%string;
     Alerts.read_at := None;
     Alerts.created_at := 1005%Z;
     Alerts.updated_at := 1005%Z |}.

Definition town_after : store :=
  {| auth_users := [alice; bob; carol];
     profiles := [alice_profile; bob_north; carol_profile];
     reports := [report_2km];
     confirmations := [];
     notification_alerts := [alert_for_bob] |}.

End Scenario.

(* ================================================================== *)
(** ** Listings ordered by a timestamp *)

Module Listing.

Section By.

Context {A : Type} (key : A -> Z).

Fixpoint insert_desc (r : A) (l : list A) : list A :=
  match l with
  | [] => [r]
  | x :: l' =>
      if (key x <=? key r)%Z then r :: l
      else x :: insert_desc r l'
  end.

(** [.order(key, { ascending: false })]; rows with the same key stay in
    table order. *)
Definition order_desc (l : list A) : list A :=
  fold_right insert_desc [] l.

(** Newest first: no row is followed by a row with a later timestamp. *)
Definition newest_first (l : list A) : Prop :=
  StronglySorted (fun a b => (key b <= key a)%Z) l.

End By.

End Listing.

(* ================================================================== *)
(** ** [TheftReportDialog]: the count shown on the submit button *)

Module TheftReportDialogPreview.

(** [calculateUsersInRange]: [None] is the state left as it was (the bare
    [return] and the caught error), [Some n] is [setUsersInRange(n)]. *)
Definition calculateUsersInRange (c : TheftReportDialog.closure) (w : world)
  (s : store) : option nat :=
  if falsy_number (TheftReportDialog.latitude c) ||
     falsy_number (TheftReportDialog.longitude c)
  then None
  else
    match TheftReportDialog.latitude c, TheftReportDialog.longitude c with
    | Some lat, Some lon =>
        match Supabase.rpc_get_users_in_range w s lat lon
                (TheftReportDialog.alertRadius c) with
        | Err _ => None
        | Ok data => Some (length data)
        end
    | _, _ => None
    end.

End TheftReportDialogPreview.

(* ================================================================== *)
(** ** [StatusTracker]: the time labels of a report card *)

Module StatusTracker.

(** [`${n}`] on an integer. *)
Definition number_to_string (n : Z) : string :=
  NilZero.string_of_int (Z.to_int n).

(** [n > 1 ? 's' : ''] *)
Definition plural (n : Z) : string :=
  if (1 <? n)%Z then "s"%string else ""%string.

Definition hour_ms : Z := (1000 * 60 * 60)%Z.

(** [date] is [new Date(dateString).getTime()], [now] is
    [new Date().getTime()]; [Math.floor(a / b)] on integers is [a / b]. *)
Definition getTimeAgo (date now : Z) : string :=
  let diffMs := (now - date)%Z in
  let diffHours := (diffMs / hour_ms)%Z in
  let diffDays := (diffHours / 24)%Z in
  if (0 <? diffDays)%Z then
    (number_to_string diffDays ++ " day" ++ plural diffDays ++ " ago")%string
  else if (0 <? diffHours)%Z then
    (number_to_string diffHours ++ " hour" ++ plural diffHours ++ " ago")
      %string
  else "Just now"%string.

Definition getRemainingTime (expiry now : Z) : string :=
  let diffMs := (expiry - now)%Z in
  if (diffMs <=? 0)%Z then "Expired"%string
  else
    let diffHours := (diffMs / hour_ms)%Z in
    let diffDays := (diffHours / 24)%Z in
    if (0 <? diffDays)%Z then
      (number_to_string diffDays ++ " day" ++ plural diffDays ++
       " remaining")%string
    else
      (number_to_string diffHours ++ " hour" ++ plural diffHours ++
       " remaining")%string.

(** [Math.min(100, Math.max(0, (elapsed / total) * 100))].  [None] is NaN,
    the value of [0 / 0], which [Math.max] and [Math.min] pass on; a
    non-zero [elapsed] over a zero [total] is an infinity, which the two
    clamp to 100 or 0. *)
Definition getProgressPercentage (created expiry now : Z) : option R :=
  let total := (expiry - created)%Z in
  let elapsed := (now - created)%Z in
  if (total =? 0)%Z then
    if (elapsed =? 0)%Z then None
    else if (0 <? elapsed)%Z then Some 100%R
    else Some 0%R
  else Some (Rmin 100 (Rmax 0 (IZR elapsed / IZR total * 100)))%R.

(** [new Date(report.expiry_at) < new Date()] *)
Definition isExpired (expiry now : Z) : bool := (expiry <? now)%Z.

Definition currentStatus (r : Reports.row) (now : Z) : string :=
  if isExpired (Reports.expiry_at r) now then "expired"%string
  else Reports.status r.

Definition getStatusColor (status : string) : string :=
  if String.eqb status "active" then
    "bg-destructive text-destructive-foreground"%string
  else if String.eqb status "recovered" then
    "bg-green-500 text-white"%string
  else if String.eqb status "expired" then
    "bg-muted text-muted-foreground"%string
  else "bg-secondary text-secondary-foreground"%string.

(** The three counters of "Community Response". *)
Definition sightings (l : list Confirmations.row) : nat :=
  length (filter (fun c => String.eqb (Confirmations.type c) "seen") l).

Definition found_reports (l : list Confirmations.row) : nat :=
  length (filter (fun c => String.eqb (Confirmations.type c) "found") l).

Definition total_alerts (l : list Confirmations.row) : nat := length l.

End StatusTracker.

(* ================================================================== *)
(** ** [LiveTheftMap]: badges and counters *)

Module LiveTheftMapView.

Definition getStatusColor (status : string) : string :=
  if String.eqb status "active" then "destructive"%string
  else if String.eqb status "found" then "default"%string
  else if String.eqb status "resolved" then "secondary"%string
  else "outline"%string.

Definition activeReports (reports : list Reports.row) : list Reports.row :=
  filter (fun r => String.eqb (Reports.status r) "active") reports.

Definition foundReports (reports : list Reports.row) : list Reports.row :=
  filter (fun r => String.eqb (Reports.status r) "found") reports.

End LiveTheftMapView.


(* ================================================================== *)
(** ** Requests of the other components *)

(** One request as the store sees it: the identity of the session, the
    store's clock, the identifier [gen_random_uuid()] would draw, and
    whether the request is lost on the way (it then has no effect). *)
Record request := mk_request {
  req_uid : option UUID;
  req_now : timestamptz;
  req_uuid : UUID;
  req_lost : bool
}.

Definition set_profiles (s : store) (t : list Profiles.row) : store :=
  {| auth_users := auth_users s;
     profiles := t;
     reports := reports s;
     confirmations := confirmations s;
     notification_alerts := notification_alerts s |}.

(* ================================================================== *)
(** ** Reading and updating [notification_alerts] *)

Module AlertsAccess.

(** Policies "Users can view alerts sent to them" and "Users can update
    their received alerts": [auth.uid() = recipient_user_id]. *)
Definition is_recipient (auth_uid : option UUID) (a : Alerts.row) : bool :=
  sql_is_true (uuid_eq auth_uid (Some (Alerts.recipient_user_id a))).

(** [SELECT * FROM notification_alerts] as a client sees it. *)
Definition select (auth_uid : option UUID) (t : list Alerts.row)
  : list Alerts.row :=
  filter (is_recipient auth_uid) t.

(** The trigger function [update_updated_at_column]:
    [NEW.updated_at = now(); RETURN NEW]. *)
Definition update_updated_at_column (now : timestamptz) (NEW : Alerts.row)
  : Alerts.row :=
  {| Alerts.id := Alerts.id NEW;
     Alerts.report_id := Alerts.report_id NEW;
     Alerts.recipient_user_id := Alerts.recipient_user_id NEW;
     Alerts.sender_user_id := Alerts.sender_user_id NEW;
     Alerts.message := Alerts.message NEW;
     Alerts.alert_type := Alerts.alert_type NEW;
     Alerts.distance_meters := Alerts.distance_meters NEW;
     Alerts.status := Alerts.status NEW;
     Alerts.read_at := Alerts.read_at NEW;
     Alerts.created_at := Alerts.created_at NEW;
     Alerts.updated_at := now |}.

(** [SET read_at = v] *)
Definition set_read_at (v : option timestamptz) (a : Alerts.row)
  : Alerts.row :=
  {| Alerts.id := Alerts.id a;
     Alerts.report_id := Alerts.report_id a;
     Alerts.recipient_user_id := Alerts.recipient_user_id a;
     Alerts.sender_user_id := Alerts.sender_user_id a;
     Alerts.message := Alerts.message a;
     Alerts.alert_type := Alerts.alert_type a;
     Alerts.distance_meters := Alerts.distance_meters a;
     Alerts.status := Alerts.status a;
     Alerts.read_at := v;
     Alerts.created_at := Alerts.created_at a;
     Alerts.updated_at := Alerts.updated_at a |}.

(** Rows an [UPDATE ... WHERE cond] may touch: the [UPDATE] policy and the
    [SELECT] policy are the same condition here. *)
Definition targeted (auth_uid : option UUID) (cond : Alerts.row -> bool)
  (a : Alerts.row) : bool :=
  cond a && is_recipient auth_uid a.

(** The [SET] clause, then the [BEFORE UPDATE] trigger. *)
Definition new_version (now : timestamptz) (set : Alerts.row -> Alerts.row)
  (OLD : Alerts.row) : Alerts.row :=
  update_updated_at_column now (set OLD).

Definition apply_update (auth_uid : option UUID) (now : timestamptz)
  (cond : Alerts.row -> bool) (set : Alerts.row -> Alerts.row)
  (t : list Alerts.row) : list Alerts.row :=
  map (fun a => if targeted auth_uid cond a then new_version now set a
                else a) t.

Fixpoint ids_unique (t : list Alerts.row) : bool :=
  match t with
  | [] => true
  | a :: t' => negb (Alerts.has_id (Alerts.id a) t') && ids_unique t'
  end.

(** One [UPDATE] statement on a table with unique keys: every new version
    must pass the policy, the [NOT NULL] constraints and the primary key,
    or the statement changes nothing. *)
Definition update (auth_uid : option UUID) (now : timestamptz)
  (cond : Alerts.row -> bool) (set : Alerts.row -> Alerts.row)
  (t : list Alerts.row) : result (list Alerts.row) :=
  let changed := map (new_version now set) (filter (targeted auth_uid cond) t)
  in
  let t' := apply_update auth_uid now cond set t in
  if negb (forallb (is_recipient auth_uid) changed)
  then Err AuthorizationError
  else if negb (forallb Alerts.not_null changed) then Err ValidationError
  else if negb (ids_unique t') then Err ConflictError
  else Ok t'.

End AlertsAccess.

(* ================================================================== *)
(** ** [LiveNotifications]: the alerts of the signed-in user *)

Module LiveNotifications.

(** The columns [id, vehicle_no, lat, lon, status] of a report. *)
Record Report := mk_report {
  id : UUID;
  vehicle_no : text;
  lat : R;
  lon : R;
  status : text
}.

Definition project (r : Reports.row) : Report :=
  {| id := Reports.id r;
     vehicle_no := Reports.vehicle_no r;
     lat := Reports.lat r;
     lon := Reports.lon r;
     status := Reports.status r |}.

(** [reportMap[report.id] = report] *)
Definition assign (m : UUID -> option Report) (report : Report)
  : UUID -> option Report :=
  fun k => if Z.eqb k (id report) then Some report else m k.

(** [reportData.forEach(...)] on the empty object. *)
Definition reportMap (reportData : list Report) : UUID -> option Report :=
  fold_left assign reportData (fun _ => None).

(** What one call sets: [None] is a state left as it was. *)
Record loaded := mk_loaded {
  notifications : option (list Alerts.row);
  reports_by_id : option (UUID -> option Report)
}.

(** [q1] carries the select on [notification_alerts], [q2] the select on
    [reports]. *)
Definition loadNotifications (user : option UUID) (q1 q2 : request)
  (s : store) : loaded :=
  match user with
  | None => {| notifications := None; reports_by_id := None |}
  | Some uid =>
      if req_lost q1
      then {| notifications := None; reports_by_id := None |}
      else
        let notificationData :=
          firstn 10
            (Listing.order_desc Alerts.created_at
               (filter (fun a => Z.eqb (Alerts.recipient_user_id a) uid)
                  (AlertsAccess.select (req_uid q1)
                     (notification_alerts s)))) in
        if (0 <? length notificationData)%nat then
          if req_lost q2
          then {| notifications := Some notificationData;
                  reports_by_id := None |}
          else
            let reportIds := map Alerts.report_id notificationData in
            let reportData :=
              map project
                (filter (fun r => Reports.mem_uuid (Reports.id r) reportIds)
                   (Reports.select (req_now q2) (reports s))) in
            {| notifications := Some notificationData;
               reports_by_id := Some (reportMap reportData) |}
        else {| notifications := Some notificationData;
                reports_by_id := None |}
  end.

(** [markAsRead]: the update, then, when it returned no error, the local
    list with [read_at] set on the rows of that [id].  [date1] and [date2]
    are the two readings of the browser's clock. *)
Definition markAsRead (notificationId : UUID) (q : request)
  (date1 date2 : timestamptz) (prev : list Alerts.row) (s : store)
  : list Alerts.row * store :=
  if req_lost q then (prev, s)
  else
    match AlertsAccess.update (req_uid q) (req_now q)
            (fun a => Z.eqb (Alerts.id a) notificationId)
            (AlertsAccess.set_read_at (Some date1))
            (notification_alerts s) with
    | Err _ => (prev, s)
    | Ok t =>
        (map (fun notif =>
                if Z.eqb (Alerts.id notif) notificationId
                then AlertsAccess.set_read_at (Some date2) notif
                else notif) prev,
         set_notification_alerts s t)
    end.

(** [notifications.filter(n => !n.read_at).length] *)
Definition unreadCount (notifications : list Alerts.row) : nat :=
  length (filter (fun n => match Alerts.read_at n with
                           | None => true
                           | Some _ => false
                           end) notifications).

End LiveNotifications.


(* ================================================================== *)
(** ** Reading and writing [profiles] *)

Module ProfilesAccess.

Record new_row := mk_new {
  n_user_id : UUID;
  n_name : text;
  n_phone : option text;
  n_verified : bool;
  n_proof_url : option text;
  n_location : option geography
}.

(** Defaults: [gen_random_uuid()] for [id], null for [fcm_token],
    [now()] for the two timestamps. *)
Definition with_defaults (now : timestamptz) (fresh : UUID) (n : new_row)
  : Profiles.row :=
  {| Profiles.id := fresh;
     Profiles.user_id := n_user_id n;
     Profiles.phone := n_phone n;
     Profiles.name := n_name n;
     Profiles.proof_url := n_proof_url n;
     Profiles.verified := n_verified n;
     Profiles.fcm_token := None;
     Profiles.location := n_location n;
     Profiles.created_at := now;
     Profiles.updated_at := now |}.

(** The three policies of [profiles], for [SELECT], [UPDATE] and [INSERT]:
    [auth.uid() = user_id]. *)
Definition is_own (auth_uid : option UUID) (p : Profiles.row) : bool :=
  sql_is_true (uuid_eq auth_uid (Some (Profiles.user_id p))).

Definition has_id (i : UUID) (t : list Profiles.row) : bool :=
  existsb (fun p => Z.eqb (Profiles.id p) i) t.

Definition has_user (u : UUID) (t : list Profiles.row) : bool :=
  existsb (fun p => Z.eqb (Profiles.user_id p) u) t.

(** [SELECT * FROM profiles] as a client sees it. *)
Definition select (auth_uid : option UUID) (t : list Profiles.row)
  : list Profiles.row :=
  filter (is_own auth_uid) t.

(** One [INSERT]: defaults, the policy, the primary key, the [UNIQUE] on
    [user_id], the foreign key to [auth.users]. *)
Definition insert (auth_uid : option UUID) (now : timestamptz)
  (fresh : UUID) (auth_users : list UUID) (t : list Profiles.row)
  (n : new_row) : result (Profiles.row * list Profiles.row) :=
  let NEW := with_defaults now fresh n in
  if negb (is_own auth_uid NEW) then Err AuthorizationError
  else if has_id (Profiles.id NEW) t then Err ConflictError
  else if has_user (Profiles.user_id NEW) t then Err ConflictError
  else if negb (Reports.mem_uuid (Profiles.user_id NEW) auth_users)
  then Err NotFoundError
  else Ok (NEW, t ++ [NEW]).

(** The trigger function [update_profile_location]:
    [NEW.updated_at = now(); RETURN NEW]. *)
Definition update_profile_location (now : timestamptz) (NEW : Profiles.row)
  : Profiles.row :=
  {| Profiles.id := Profiles.id NEW;
     Profiles.user_id := Profiles.user_id NEW;
     Profiles.phone := Profiles.phone NEW;
     Profiles.name := Profiles.name NEW;
     Profiles.proof_url := Profiles.proof_url NEW;
     Profiles.verified := Profiles.verified NEW;
     Profiles.fcm_token := Profiles.fcm_token NEW;
     Profiles.location := Profiles.location NEW;
     Profiles.created_at := Profiles.created_at NEW;
     Profiles.updated_at := now |}.

(** [SET location = loc] *)
Definition set_location (loc : option geography) (p : Profiles.row)
  : Profiles.row :=
  {| Profiles.id := Profiles.id p;
     Profiles.user_id := Profiles.user_id p;
     Profiles.phone := Profiles.phone p;
     Profiles.name := Profiles.name p;
     Profiles.proof_url := Profiles.proof_url p;
     Profiles.verified := Profiles.verified p;
     Profiles.fcm_token := Profiles.fcm_token p;
     Profiles.location := loc;
     Profiles.created_at := Profiles.created_at p;
     Profiles.updated_at := Profiles.updated_at p |}.

(** [SET name = nm, updated_at = now] *)
Definition set_name (nm : text) (now : timestamptz) (p : Profiles.row)
  : Profiles.row :=
  {| Profiles.id := Profiles.id p;
     Profiles.user_id := Profiles.user_id p;
     Profiles.phone := Profiles.phone p;
     Profiles.name := nm;
     Profiles.proof_url := Profiles.proof_url p;
     Profiles.verified := Profiles.verified p;
     Profiles.fcm_token := Profiles.fcm_token p;
     Profiles.location := Profiles.location p;
     Profiles.created_at := Profiles.created_at p;
     Profiles.updated_at := now |}.

Definition targeted (auth_uid : option UUID) (cond : Profiles.row -> bool)
  (p : Profiles.row) : bool :=
  cond p && is_own auth_uid p.

Definition new_version (now : timestamptz)
  (set : Profiles.row -> Profiles.row) (OLD : Profiles.row) : Profiles.row :=
  update_profile_location now (set OLD).

Definition apply_update (auth_uid : option UUID) (now : timestamptz)
  (cond : Profiles.row -> bool) (set : Profiles.row -> Profiles.row)
  (t : list Profiles.row) : list Profiles.row :=
  map (fun p => if targeted auth_uid cond p then new_version now set p
                else p) t.

Fixpoint keys_unique (t : list Profiles.row) : bool :=
  match t with
  | [] => true
  | p :: t' =>
      negb (has_id (Profiles.id p) t') &&
      negb (has_user (Profiles.user_id p) t') && keys_unique t'
  end.

(** One [UPDATE] statement on a table with unique keys: every new version
    must pass the policy, the two unique indexes and, when [user_id]
    changes, the foreign key, or the statement changes nothing. *)
Definition update (auth_uid : option UUID) (now : timestamptz)
  (auth_users : list UUID) (cond : Profiles.row -> bool)
  (set : Profiles.row -> Profiles.row) (t : list Profiles.row)
  : result (list Profiles.row) :=
  let targets := filter (targeted auth_uid cond) t in
  let changed := map (new_version now set) targets in
  let t' := apply_update auth_uid now cond set t in
  if negb (forallb (is_own auth_uid) changed) then Err AuthorizationError
  else if negb (keys_unique t') then Err ConflictError
  else if negb (forallb
                  (fun OLD =>
                     Z.eqb (Profiles.user_id (new_version now set OLD))
                           (Profiles.user_id OLD) ||
                     Reports.mem_uuid
                       (Profiles.user_id (new_version now set OLD))
                       auth_users)
                  targets)
  then Err NotFoundError
  else Ok t'.

End ProfilesAccess.

(* ================================================================== *)
(** ** The trigger on [auth.users], [handle_user_profile] *)

Module AuthTrigger.

(** [COALESCE(a, b)] *)
Definition coalesce {A : Type} (a b : option A) : option A :=
  match a with Some _ => a | None => b end.

(** [INSERT INTO profiles (user_id, name, created_at, updated_at) VALUES
    (NEW.id, COALESCE(NEW.raw_user_meta_data ->> 'name', NEW.email), now(),
    now()) ON CONFLICT (user_id) DO UPDATE SET updated_at = now(), name =
    COALESCE(EXCLUDED.name, profiles.name)].  The function is
    [SECURITY DEFINER], so no policy applies; [name] is [NOT NULL] and the
    proposed row is checked before the conflict is looked for; the updated
    row goes through the [BEFORE UPDATE] trigger of [profiles]. *)
Definition handle_user_profile (now : timestamptz) (fresh : UUID)
  (NEW_id : UUID) (meta_name email : option text) (t : list Profiles.row)
  : result (list Profiles.row) :=
  match coalesce meta_name email with
  | None => Err ValidationError
  | Some nm =>
      if ProfilesAccess.has_user NEW_id t then
        Ok (map (fun p =>
                   if Z.eqb (Profiles.user_id p) NEW_id
                   then ProfilesAccess.update_profile_location now
                          (ProfilesAccess.set_name nm now p)
                   else p) t)
      else if ProfilesAccess.has_id fresh t then Err ConflictError
      else
        Ok (t ++ [ProfilesAccess.with_defaults now fresh
                    {| ProfilesAccess.n_user_id := NEW_id;
                       ProfilesAccess.n_name := nm;
                       ProfilesAccess.n_phone := None;
                       ProfilesAccess.n_verified := false;
                       ProfilesAccess.n_proof_url := None;
                       ProfilesAccess.n_location := None |}])
  end.

End AuthTrigger.

(* ================================================================== *)
(** ** [ProfileSection]: the profile of the signed-in user *)

Module ProfileSection.

(** The section is shown to a signed-in user: [uid] is [user.id],
    [metadata_name] is [user.user_metadata?.name], [email] is
    [user.email]. *)
Record closure := mk {
  uid : UUID;
  metadata_name : option text;
  email : option text;
  latitude : option R;
  longitude : option R
}.

Record ProfileData := mk_data {
  name : text;
  phone : option text;
  verified : bool;
  proof_url : option text
}.

Definition project (p : Profiles.row) : ProfileData :=
  {| name := Profiles.name p;
     phone := Profiles.phone p;
     verified := Profiles.verified p;
     proof_url := Profiles.proof_url p |}.

(** [s.split('@')[0]] *)
Fixpoint before_at (s : string) : string :=
  match s with
  | EmptyString => EmptyString
  | String c s' =>
      if Ascii.eqb c "@"%char then EmptyString else String c (before_at s')
  end.

Definition or_empty (x : option string) : string :=
  match x with Some v => v | None => EmptyString end.

(** [user?.user_metadata?.name || user?.email?.split('@')[0] || 'User'] *)
Definition userName (c : closure) : text :=
  or_string (or_empty (metadata_name c))
    (or_string (or_empty (option_map before_at (email c))) "User"%string).

(** [location.latitude && location.longitude ? `POINT(lon lat)` : null] *)
Definition location_of (c : closure) : option geography :=
  if falsy_number (latitude c) || falsy_number (longitude c) then None
  else
    match latitude c, longitude c with
    | Some lat, Some lon => Some (point lon lat)
    | _, _ => None
    end.

(** [fetchProfile]: [.single()] gives the row when there is exactly one and
    the error PGRST116 otherwise, on which the profile is created.  Returns
    the profile set ([None]: state left as it was) and the store. *)
Definition fetchProfile (c : closure) (q1 q2 : request) (s : store)
  : option ProfileData * store :=
  if req_lost q1 then (None, s)
  else
    match filter (fun p => Z.eqb (Profiles.user_id p) (uid c))
            (ProfilesAccess.select (req_uid q1) (profiles s)) with
    | [p] => (Some (project p), s)
    | _ =>
        if req_lost q2 then (None, s)
        else
          match ProfilesAccess.insert (req_uid q2) (req_now q2)
                  (req_uuid q2) (auth_users s) (profiles s)
                  {| ProfilesAccess.n_user_id := uid c;
                     ProfilesAccess.n_name := userName c;
                     ProfilesAccess.n_phone := None;
                     ProfilesAccess.n_verified := false;
                     ProfilesAccess.n_proof_url := None;
                     ProfilesAccess.n_location := location_of c |} with
          | Err _ => (None, s)
          | Ok (p, t) => (Some (project p), set_profiles s t)
          end
    end.

Inductive toast :=
| LocationError
| UpdateError
| UpdateSuccess.

(** [updateLocation]: [.update({ location }).eq('user_id', user?.id)]. *)
Definition updateLocation (c : closure) (q : request) (s : store)
  : toast * store :=
  if falsy_number (latitude c) || falsy_number (longitude c)
  then (LocationError, s)
  else
    match latitude c, longitude c with
    | Some lat, Some lon =>
        if req_lost q then (UpdateError, s)
        else
          match ProfilesAccess.update (req_uid q) (req_now q)
                  (auth_users s)
                  (fun p => Z.eqb (Profiles.user_id p) (uid c))
                  (ProfilesAccess.set_location (Some (point lon lat)))
                  (profiles s) with
          | Err _ => (UpdateError, s)
          | Ok t => (UpdateSuccess, set_profiles s t)
          end
    | _, _ => (LocationError, s)
    end.

End ProfileSection.


(* ================================================================== *)
(** ** Reading [confirmations]; the reports of the signed-in user *)

Module ConfirmationsAccess.

(** Policy "Users can view confirmations for active reports":
    [USING (EXISTS (SELECT 1 FROM public.reports WHERE id = report_id AND
    expiry_at > now()))]; the inner select goes through the policy of
    [reports] as well. *)
Definition can_view (now : timestamptz) (reports : list Reports.row)
  (c : Confirmations.row) : bool :=
  existsb (fun r => Z.eqb (Reports.id r) (Confirmations.report_id c) &&
                    (now <? Reports.expiry_at r)%Z)
          (Reports.select now reports).

Definition select (now : timestamptz) (reports : list Reports.row)
  (t : list Confirmations.row) : list Confirmations.row :=
  filter (can_view now reports) t.

End ConfirmationsAccess.

Module UserReports.

Record loaded := mk_loaded {
  reports_shown : option (list Reports.row);
  confirmations_by_report : option (UUID -> list Confirmations.row)
}.

(** [loadUserReports] of [StatusTracker]; the one of [UserReports] is its
    first half.  [q1] carries the select on [reports], [q2] the select on
    [confirmations].  The grouping object maps a report to its confirmations
    in the order received; a missing key reads as the empty list. *)
Definition loadUserReports (user : option UUID) (q1 q2 : request)
  (s : store) : loaded :=
  match user with
  | None => {| reports_shown := None; confirmations_by_report := None |}
  | Some uid =>
      if req_lost q1
      then {| reports_shown := None; confirmations_by_report := None |}
      else
        let reportsData :=
          Listing.order_desc Reports.created_at
            (filter (fun r => Z.eqb (Reports.user_id r) uid)
               (Reports.select (req_now q1) (reports s))) in
        if (0 <? length reportsData)%nat then
          if req_lost q2
          then {| reports_shown := Some reportsData;
                  confirmations_by_report := None |}
          else
            let reportIds := map Reports.id reportsData in
            let confirmationsData :=
              Listing.order_desc Confirmations.created_at
                (filter (fun c => Reports.mem_uuid
                                    (Confirmations.report_id c) reportIds)
                   (ConfirmationsAccess.select (req_now q2) (reports s)
                      (confirmations s))) in
            {| reports_shown := Some reportsData;
               confirmations_by_report :=
                 Some (fun report =>
                         filter (fun c => Z.eqb (Confirmations.report_id c)
                                                report)
                                confirmationsData) |}
        else {| reports_shown := Some reportsData;
                confirmations_by_report := None |}
  end.

End UserReports.


(* ================================================================== *)
(** ** More of the scenario *)

Module MoreScenario.

(** Bob's session, after Alice's report of the end-to-end scenario. *)
Definition bob_request : request :=
  {| req_uid := Some Scenario.bob;
     req_now := 2000%Z;
     req_uuid := 70%Z;
     req_lost := false |}.

Definition alert_read_by_bob : Alerts.row :=
  AlertsAccess.update_updated_at_column 2000%Z
    (AlertsAccess.set_read_at (Some 2100%Z) Scenario.alert_for_bob).

(** Alice's session, before she has a profile. *)
Definition alice_request : request :=
  {| req_uid := Some Scenario.alice;
     req_now := 500%Z;
     req_uuid := 40%Z;
     req_lost := false |}.

Definition alice_section : ProfileSection.closure :=
  {| ProfileSection.uid := Scenario.alice;
     ProfileSection.metadata_name := None;
     ProfileSection.email := Some "alice@example.org"%string;
     ProfileSection.latitude := Some 12.9%R;
     ProfileSection.longitude := Some 77.6%R |}.

Definition bob_section : ProfileSection.closure :=
  {| ProfileSection.uid := Scenario.bob;
     ProfileSection.metadata_name := Some "Bob"%string;
     ProfileSection.email := Some "bob@example.org"%string;
     ProfileSection.latitude := Some 12.91%R;
     ProfileSection.longitude := Some 77.6%R |}.

(** The stolen-vehicle form, filled in, with a typed location. *)
Definition stolen_form : ReportStolenVehicle.closure :=
  {| ReportStolenVehicle.user := Some Scenario.alice;
     ReportStolenVehicle.latitude := None;
     ReportStolenVehicle.longitude := None;
     ReportStolenVehicle.useManualLocation := true;
     ReportStolenVehicle.evidenceUrls := [] |}.

Definition stolen_data : ReportStolenVehicle.ReportFormData :=
  {| ReportStolenVehicle.vehicleNumber := "MH 12 AB 1234"%string;
     ReportStolenVehicle.vehicleColor := "red"%string;
     ReportStolenVehicle.vehicleType := "scooter"%string;
     ReportStolenVehicle.theftTime := "noon"%string;
     ReportStolenVehicle.additionalDetails := ""%string;
     ReportStolenVehicle.uniqueMarks := ""%string;
     ReportStolenVehicle.location_manual := "MG Road"%string |}.

(** The store once Bob has confirmed a sighting of Alice's scooter. *)
Definition store_with_sighting : store :=
  {| auth_users := [Scenario.alice; Scenario.bob; Scenario.carol];
     profiles := [Scenario.bob_profile; Scenario.carol_profile];
     reports := [Scenario.scooter_row];
     confirmations := [Scenario.seen_by_bob_row];
     notification_alerts := [] |}.

(** A [reports] table with more rows, in the order they were stored:
    Alice's scooter, then, from two hours later on, a bike of hers, a laptop
    Bob reported and a car of hers. *)
Definition report_at (id uid : UUID) (category : text)
  (created : timestamptz) : Reports.row :=
  Reports.update_report_location
    (Reports.with_defaults created id
       {| Reports.n_user_id := uid;
          Reports.n_category := Some category;
          Reports.n_vehicle_no := "KA 01 XY 9"%string;
          Reports.n_description := None;
          Reports.n_photo_url := None;
          Reports.n_lat := 12.9%R;
          Reports.n_lon := 77.6%R;
          Reports.n_location := None;
          Reports.n_radius_m := None;
          Reports.n_expiry_at := None;
          Reports.n_status := None |}).

Definition bike_row : Reports.row :=
  report_at 53%Z Scenario.alice "vehicle"%string (1000 + Reports.hours 2)%Z.

Definition laptop_row : Reports.row :=
  report_at 54%Z Scenario.bob "other"%string (2000 + Reports.hours 2)%Z.

Definition car_row : Reports.row :=
  report_at 55%Z Scenario.alice "vehicle"%string (3000 + Reports.hours 2)%Z.

(** Thirteen alerts in the order they were stored, the seventh for Carol
    and the others for Bob, each for a report of its own. *)
Definition alert_at (k : Z) (recipient : UUID) : Alerts.row :=
  {| Alerts.id := (100 + k)%Z;
     Alerts.report_id := (200 + k)%Z;
     Alerts.recipient_user_id := recipient;
     Alerts.sender_user_id := Some Scenario.alice;
     Alerts.message := "alert"%string;
     Alerts.alert_type := "theft_alert"%string;
     Alerts.distance_meters := Some 100%Z;
     Alerts.status := "sent"%string;
     Alerts.read_at := None;
     Alerts.created_at := (1000 + k)%Z;
     Alerts.updated_at := (1000 + k)%Z |}.

Definition inbox : list Alerts.row :=
  map (fun k => alert_at k Scenario.bob) [1; 2; 3; 4; 5; 6]%Z ++
  [alert_at 7%Z Scenario.carol] ++
  map (fun k => alert_at k Scenario.bob) [8; 9; 10; 11; 12; 13]%Z.

(** The ten alerts Bob is shown. *)
Definition inbox_shown : list Alerts.row :=
  map (fun k => alert_at k Scenario.bob) [13; 12; 11; 10; 9; 8; 6; 5; 4; 3]%Z.

Definition busy_store : store :=
  {| auth_users := [Scenario.alice; Scenario.bob; Scenario.carol];
     profiles := [Scenario.bob_profile; Scenario.carol_profile];
     reports := [Scenario.scooter_row; bike_row; laptop_row; car_row];
     confirmations := [];
     notification_alerts := inbox |}.

(** Alice's session three hours after her first report. *)
Definition alice_later : request :=
  {| req_uid := Some Scenario.alice;
     req_now := (1000 + Reports.hours 3)%Z;
     req_uuid := 71%Z;
     req_lost := false |}.

(** Carol, after Bob, confirms with a call to the police. *)
Definition called_by_carol : Confirmations.new_row :=
  {| Confirmations.n_report_id := 50%Z;
     Confirmations.n_user_id := Scenario.carol;
     Confirmations.n_type := "call_police"%string |}.

(** Bob stands on the very point Alice reports from, in a session where the
    double-precision argument of [acos] leaves [-1, 1] for a point on the
    centre. *)
Definition bob_on_centre : Profiles.row :=
  Scenario.profile_of Scenario.bob (Some (point 77.6 12.9)).

Definition crossing : store :=
  {| auth_users := [Scenario.alice; Scenario.bob; Scenario.carol];
     profiles := [Scenario.alice_profile; bob_on_centre;
                  Scenario.carol_profile];
     reports := [];
     confirmations := [];
     notification_alerts := [] |}.

Definition on_centre (center_lat center_lon : R) (g : geography) : bool :=
  if Req_dec_T (ST_Y g) center_lat
  then if Req_dec_T (ST_X g) center_lon then true else false
  else false.

Definition rounding_world : world :=
  {| auth_uid := Some Scenario.alice;
     now := 1000%Z;
     now_alerts := 1005%Z;
     Date_now := 1000%Z;
     report_uuid := 50%Z;
     alert_uuid := fun k => (60 + Z.of_nat k)%Z;
     insert_report_lost := false;
     rpc_lost := false;
     insert_alerts_lost := false;
     select_lost := false;
     acos_out_of_range := on_centre;
     acos_on_own_row := false |}.

End MoreScenario.


(* ================================================================== *)
(** ** Invariants of [confirmations] and [reports] *)

(** [UNIQUE(report_id, user_id)]: no two rows for one pair. *)
Definition confirmation_pairs_unique (t : list Confirmations.row) : Prop :=
  NoDup (map (fun c => (Confirmations.report_id c, Confirmations.user_id c))
             t).

(** Every row has one of the three types of the [CHECK]. *)
Definition confirmation_types_valid (t : list Confirmations.row) : Prop :=
  forall c, In c t -> Confirmations.type_check c = true.

(** The primary key of [reports]. *)
Definition report_ids_unique (t : list Reports.row) : Prop :=
  NoDup (map Reports.id t).


(* ================================================================== *)
(** * Properties *)

(** ** Real-number facts behind the range query *)

Section RealFacts.

Local Open Scope R_scope.

Lemma PI_lower : 3.1408 < PI.
Proof.
generalize (PI_2_3_7_ineq 2).
unfold PI_2_3_7_tg, tg_alt, Ratan_seq; simpl; lra.
Qed.

Lemma PI_upper : PI < 3.1423.
Proof.
generalize (PI_2_3_7_ineq 2).
unfold PI_2_3_7_tg, tg_alt, Ratan_seq; simpl; lra.
Qed.

Lemma Rleb_true (x y : R) : x <= y -> Rleb x y = true.
Proof. unfold Rleb; destruct (Rle_dec x y); intros; [reflexivity | lra]. Qed.

Lemma Rleb_false (x y : R) : y < x -> Rleb x y = false.
Proof. unfold Rleb; destruct (Rle_dec x y); intros; [lra | reflexivity]. Qed.

(** [rint] returns the integer within one half of its argument. *)
Lemma rint_nearest (x : R) (z : Z) :
  IZR z - 1 / 2 < x < IZR z + 1 / 2 -> rint x = z.
Proof.
intros [Hlo Hhi]; unfold rint, frac_part.
destruct (Rle_dec (IZR z) x) as [Hge | Hlt].
- assert (Hf : z = Int_part x) by (apply Int_part_spec; lra).
  rewrite <- Hf.
  destruct (total_order_T (x - IZR z) (1 / 2)) as [[H | H] | H];
    [reflexivity | lra | lra].
- assert (Hf : (z - 1)%Z = Int_part x).
  { apply Int_part_spec; rewrite minus_IZR; lra. }
  rewrite <- Hf, minus_IZR.
  destruct (total_order_T (x - (IZR z - 1)) (1 / 2)) as [[H | H] | H];
    [lra | lra | lia].
Qed.

Example rint_tie_down : rint 2.5 = 2%Z.
Proof.
unfold rint, frac_part.
assert (Hf : 2%Z = Int_part 2.5) by (apply Int_part_spec; lra).
rewrite <- Hf.
destruct (total_order_T (2.5 - 2) (1 / 2)) as [[H | H] | H];
  [lra | reflexivity | lra].
Qed.

Example rint_tie_up : rint 3.5 = 4%Z.
Proof.
unfold rint, frac_part.
assert (Hf : 3%Z = Int_part 3.5) by (apply Int_part_spec; lra).
rewrite <- Hf.
destruct (total_order_T (3.5 - 3) (1 / 2)) as [[H | H] | H];
  [lra | reflexivity | lra].
Qed.

(** On the equator, from the origin, the formula is the arc length. *)
Lemma great_circle_equator (lon : R) :
  0 <= lon <= 180 ->
  RangeQuery.great_circle 0 0 (Some (point lon 0)) =
  Some (6371000 * (lon * (PI / 180))).
Proof.
intros [H0 H180]; unfold RangeQuery.great_circle, point, radians; simpl.
assert (Hpi := PI_RGT_0).
replace (cos (0 * (PI / 180)) * cos (0 * (PI / 180)) *
         cos (lon * (PI / 180) - 0 * (PI / 180)) +
         sin (0 * (PI / 180)) * sin (0 * (PI / 180)))
  with (cos (lon * (PI / 180))).
- rewrite acos_cos; [reflexivity | split; nra].
- replace (0 * (PI / 180)) with 0 by ring.
  replace (lon * (PI / 180) - 0) with (lon * (PI / 180)) by ring.
  rewrite cos_0, sin_0; ring.
Qed.

(** 0.009 degrees of longitude on the equator are a little over 1000.5 m
    and under 1001 m. *)
Lemma arc_0_009 :
  1000.5 < 6371000 * (0.009 * (PI / 180)) < 1001.
Proof. generalize PI_lower PI_upper; intros; split; lra. Qed.

End RealFacts.

(** ** The range query *)

Section RangeQueryFacts.

Import RangeQuery.

Lemma uuid_neq_true (x y : UUID) :
  sql_is_true (uuid_neq (Some x) (Some y)) = true <-> x <> y.
Proof.
unfold uuid_neq, uuid_eq; simpl.
destruct (Z.eqb_spec x y); simpl; split; intros; congruence.
Qed.

Lemma sql_and_true (a b : sql_bool) :
  sql_is_true (sql_and a b) = true <->
  sql_is_true a = true /\ sql_is_true b = true.
Proof.
destruct a as [[|]|], b as [[|]|]; simpl; split; intros; intuition congruence.
Qed.

(** What the [WHERE] clause says of a row it keeps. *)
Lemma in_range_true (auth_uid : option UUID) (clat clon : R) (radius : Z)
  (p : Profiles.row) :
  sql_is_true (in_range auth_uid clat clon radius p) = true ->
  Profiles.location p <> None /\
  (exists caller, auth_uid = Some caller /\ caller <> Profiles.user_id p) /\
  (exists d, great_circle clat clon (Profiles.location p) = Some d /\
             (d <= IZR radius)%R).
Proof.
unfold in_range; intros H.
apply sql_and_true in H; destruct H as [H Hd].
apply sql_and_true in H; destruct H as [Hloc Huid].
repeat split.
- destruct (Profiles.location p); [discriminate | discriminate Hloc].
- destruct auth_uid as [caller |]; [ | discriminate Huid].
  exists caller; split; [reflexivity | ].
  apply uuid_neq_true in Huid; congruence.
- destruct (great_circle clat clon (Profiles.location p)) as [d |];
    [ | discriminate Hd].
  exists d; split; [reflexivity | ].
  simpl in Hd; unfold Rleb in Hd.
  destruct (Rle_dec d (IZR radius)); [assumption | discriminate].
Qed.

(** Every returned row is the projection of a profile the clause kept. *)
Lemma get_users_in_range_In (auth_uid : option UUID)
  (profiles : list Profiles.row) (clat clon : R) (radius : Z)
  (u : users_in_range) :
  In u (get_users_in_range auth_uid profiles clat clon radius) <->
  exists p, In p profiles /\ u = select_row clat clon p /\
            sql_is_true (in_range auth_uid clat clon radius p) = true.
Proof.
unfold get_users_in_range; rewrite in_map_iff; split.
- intros [p [Hu Hp]]; apply filter_In in Hp; destruct Hp as [Hin Hw].
  exists p; auto.
- intros [p [Hin [Hu Hw]]]; exists p; split; [auto | ].
  apply filter_In; auto.
Qed.

Lemma get_users_in_range_ids (auth_uid : option UUID)
  (profiles : list Profiles.row) (clat clon : R) (radius : Z) :
  map user_id (get_users_in_range auth_uid profiles clat clon radius) =
  map Profiles.user_id
      (filter (fun p => sql_is_true
                 (in_range auth_uid clat clon radius p)) profiles).
Proof.
unfold get_users_in_range; rewrite map_map; reflexivity.
Qed.



Lemma NoDup_map_inj {A B : Type} (f : A -> B) (l : list A) (a b : A) :
  NoDup (map f l) -> In a l -> In b l -> f a = f b -> a = b.
Proof.
induction l as [| x l IH]; simpl; intros Hnd Ha Hb Hf; [contradiction | ].
inversion Hnd as [| y ys Hnotin Hnd']; subst.
destruct Ha as [Ha | Ha], Hb as [Hb | Hb]; subst; auto.
- exfalso; apply Hnotin; rewrite Hf; apply in_map; assumption.
- exfalso; apply Hnotin; rewrite <- Hf; apply in_map; assumption.
Qed.

(** The clause on a row 0.009 degrees east of the origin, for a caller who
    is somebody else: only the comparison with the radius is left. *)
Lemma in_range_0_009 (caller : UUID) (p : Profiles.row) (radius : Z) :
  caller <> Profiles.user_id p ->
  Profiles.location p = Some (point 0.009 0) ->
  sql_is_true (in_range (Some caller) 0 0 radius p) =
  Rleb (6371000 * (0.009 * (PI / 180))) (IZR radius).
Proof.
intros Hc Hloc; unfold in_range.
rewrite Hloc, great_circle_equator by lra.
unfold uuid_neq, uuid_eq; simpl.
destruct (Z.eqb_spec (Profiles.user_id p) caller) as [E | E];
  [congruence | ].
simpl; destruct (Rleb _ _); reflexivity.
Qed.

End RangeQueryFacts.

Section RangeQueryClaims.

Import RangeQuery.

(** C1, as the code has it.  For the centre (0, 0) and a single user stored
    at latitude 0, longitude 0.009 degrees, whose great-circle distance on a
    sphere of radius 6,371,000 m is between 1000.5 m and 1001 m: a call with
    [radius_meters = 1001] by another user returns that user, with
    [distance_meters] 1001 (the distance rounded to the nearest integer);
    calls with [radius_meters = 1000] and with 999 return nobody, because the
    radius is compared with the distance before it is rounded. *)
Theorem range_query_0_009_degrees_east (caller : UUID) (p : Profiles.row) :
  caller <> Profiles.user_id p ->
  Profiles.location p = Some (point 0.009 0) ->
  get_users_in_range (Some caller) [p] 0 0 1001 =
    [ {| user_id := Profiles.user_id p;
         distance_meters := Some 1001%Z;
         fcm_token := Profiles.fcm_token p |} ] /\
  get_users_in_range (Some caller) [p] 0 0 1000 = [] /\
  get_users_in_range (Some caller) [p] 0 0 999 = [].
Proof.
intros Hc Hloc; destruct arc_0_009 as [Hlo Hhi].
unfold get_users_in_range; simpl.
rewrite !(in_range_0_009 caller p _ Hc Hloc).
rewrite Rleb_true by lra.
rewrite !Rleb_false by lra.
repeat split; simpl.
unfold select_row; rewrite Hloc, great_circle_equator by lra; simpl.
rewrite (rint_nearest _ 1001%Z) by lra.
reflexivity.
Qed.

Lemma range_query_0_009_degrees_east_witness :
  get_users_in_range (Some Scenario.alice) [Scenario.bob_profile] 0 0 1001 =
    [ {| user_id := Scenario.bob;
         distance_meters := Some 1001%Z;
         fcm_token := None |} ] /\
  get_users_in_range (Some Scenario.alice) [Scenario.bob_profile] 0 0 1000
    = [] /\
  get_users_in_range (Some Scenario.alice) [Scenario.bob_profile] 0 0 999
    = [].
Proof.
apply (range_query_0_009_degrees_east Scenario.alice Scenario.bob_profile).
- unfold Scenario.alice, Scenario.bob_profile; simpl; discriminate.
- reflexivity.
Defined.

(** C1 as stated fails: with radius 1000 the user 0.009 degrees east of the
    centre is not returned. *)
Lemma radius_1000_misses_0_009_degrees :
  ~ (In Scenario.bob
        (map user_id
           (get_users_in_range (Some Scenario.alice)
              [Scenario.bob_profile] 0 0 1000)) /\
     ~ In Scenario.bob
        (map user_id
           (get_users_in_range (Some Scenario.alice)
              [Scenario.bob_profile] 0 0 999))).
Proof.
intros [Hin _]; revert Hin.
destruct arc_0_009 as [Hlo Hhi].
unfold get_users_in_range; simpl.
rewrite (in_range_0_009 Scenario.alice Scenario.bob_profile);
  [ | discriminate | reflexivity ].
rewrite Rleb_false by lra.
simpl; tauto.
Qed.

(** C4.  Whatever the centre, the radius and the caller, a profile whose
    stored location is null is kept neither by [get_users_in_range] nor by
    [get_users_in_radius]: [user_id] being unique in [profiles], the user of
    a profile without location is not among the users either function
    returns. *)
Theorem null_location_never_returned
  (ST_DWithin : geography -> geography -> R -> bool)
  (auth_uid : option UUID) (profiles : list Profiles.row)
  (lat lon : R) (radius_meters : Z) (p : Profiles.row) :
  Profiles.user_id_unique profiles ->
  In p profiles ->
  Profiles.location p = None ->
  ~ In (Profiles.user_id p)
       (map user_id
          (get_users_in_range auth_uid profiles lat lon radius_meters)) /\
  ~ In (Profiles.user_id p)
       (map r_user_id
          (get_users_in_radius ST_DWithin profiles lat lon radius_meters)).
Proof.
intros Huniq Hp Hnull; split; intros Hin.
- rewrite get_users_in_range_ids in Hin.
  apply in_map_iff in Hin; destruct Hin as [q [Hid Hq]].
  apply filter_In in Hq; destruct Hq as [Hq Hw].
  assert (q = p) by (apply (NoDup_map_inj _ _ _ _ Huniq Hq Hp Hid)).
  subst q; apply in_range_true in Hw; tauto.
- unfold get_users_in_radius in Hin; rewrite map_map in Hin; simpl in Hin.
  apply in_map_iff in Hin; destruct Hin as [q [Hid Hq]].
  apply filter_In in Hq; destruct Hq as [Hq Hw].
  assert (q = p) by (apply (NoDup_map_inj _ _ _ _ Huniq Hq Hp Hid)).
  subst q; unfold in_radius in Hw; rewrite Hnull in Hw; simpl in Hw.
  destruct (Bool.eqb (Profiles.verified p) true); discriminate.
Qed.

Lemma null_location_never_returned_witness :
  ~ In Scenario.carol
       (map user_id
          (get_users_in_range (Some Scenario.alice)
             [Scenario.bob_profile; Scenario.carol_profile] 0 0 5000)) /\
  ~ In Scenario.carol
       (map r_user_id
          (get_users_in_radius (fun _ _ _ => true)
             [Scenario.bob_profile; Scenario.carol_profile] 0 0 5000)).
Proof.
apply (null_location_never_returned (fun _ _ _ => true)
         (Some Scenario.alice)
         [Scenario.bob_profile; Scenario.carol_profile] 0 0 5000
         Scenario.carol_profile).
- unfold Profiles.user_id_unique; simpl.
  repeat constructor; simpl; intuition discriminate.
- simpl; auto.
- reflexivity.
Defined.

End RangeQueryClaims.

(** ** The [reports] table: trigger, constraints, policies *)

Section ReportsFacts.

Import Reports.

Lemma text_in_status (s : text) :
  text_in s ["pending"; "verified"; "false"]%string = true ->
  s = "pending"%string \/ s = "verified"%string \/ s = "false"%string.
Proof.
unfold text_in; simpl; intros H.
repeat (apply orb_prop in H; destruct H as [H | H]);
  try (apply String.eqb_eq in H; auto); discriminate.
Qed.

Lemma is_own_true (auth_uid : option UUID) (r : row) :
  is_own auth_uid r = true <-> auth_uid = Some (user_id r).
Proof.
unfold is_own, uuid_eq; destruct auth_uid as [u |]; simpl.
- destruct (Z.eqb_spec u (user_id r)); split; intros; congruence.
- split; intros; discriminate.
Qed.

(** What an accepted [INSERT] has gone through. *)
Lemma insert_ok (auth_uid : option UUID) (now : timestamptz) (fresh : UUID)
  (auth_users : list UUID) (returning : bool) (t : list row) (n : new_row)
  (r : row) (t' : list row) :
  insert auth_uid now fresh auth_users returning t n = Ok (r, t') ->
  r = update_report_location (with_defaults now fresh n) /\
  t' = t ++ [r] /\
  auth_uid = Some (user_id r) /\
  constraints r = true /\
  has_id (id r) t = false /\
  mem_uuid (user_id r) auth_users = true /\
  (returning = true -> can_view now r = true).
Proof.
unfold insert.
set (NEW := update_report_location (with_defaults now fresh n)).
destruct (is_own auth_uid NEW) eqn:Hown; cbn [negb]; [ | discriminate].
destruct (returning && negb (can_view now NEW)) eqn:Hret; [discriminate | ].
destruct (constraints NEW) eqn:Hc; cbn [negb]; [ | discriminate].
destruct (has_id (id NEW) t) eqn:Hid; [discriminate | ].
destruct (mem_uuid (user_id NEW) auth_users) eqn:Hfk; cbn [negb];
  [ | discriminate].
intros H; inversion H; subst r t'.
repeat split; auto.
- apply is_own_true; assumption.
- intros ->; cbn [andb] in Hret; destruct (can_view now NEW);
    [reflexivity | discriminate].
Qed.


(** An [INSERT] with status ['active'] is never accepted. *)
Lemma insert_active (auth_uid : option UUID) (now : timestamptz)
  (fresh : UUID) (auth_users : list UUID) (returning : bool)
  (t : list row) (n : new_row) :
  n_status n = Some "active"%string ->
  insert auth_uid now fresh auth_users returning t n = Err AuthorizationError
  \/
  insert auth_uid now fresh auth_users returning t n = Err ValidationError.
Proof.
intros Hs; unfold insert.
destruct (is_own auth_uid _); simpl; [ | left; reflexivity].
destruct (returning && _); [left; reflexivity | ].
unfold constraints, status_check; simpl; rewrite Hs; simpl.
right; reflexivity.
Qed.

Lemma apply_update_In (auth_uid : option UUID) (now : timestamptz)
  (cond : row -> bool) (set : row -> row) (t : list row) (r : row) :
  In r (apply_update auth_uid now cond set t) ->
  (In r t /\ targeted auth_uid now cond r = false) \/
  (exists OLD, In OLD t /\ targeted auth_uid now cond OLD = true /\
               r = new_version set OLD).
Proof.
unfold apply_update; rewrite in_map_iff; intros [x [Hr Hx]].
destruct (targeted auth_uid now cond x) eqn:Ht; subst r.
- right; exists x; auto.
- left; auto.
Qed.

Lemma update_ok (auth_uid : option UUID) (now : timestamptz)
  (auth_users : list UUID) (cond : row -> bool) (set : row -> row)
  (t t' : list row) :
  update auth_uid now auth_users cond set t = Ok t' ->
  t' = apply_update auth_uid now cond set t /\
  forall OLD, In OLD t -> targeted auth_uid now cond OLD = true ->
              constraints (new_version set OLD) = true.
Proof.
unfold update.
destruct (forallb (fun r => is_own auth_uid r && can_view now r) _);
  cbn [negb]; [ | discriminate].
destruct (forallb constraints _) eqn:Hc; cbn [negb]; [ | discriminate].
destruct (ids_unique _); cbn [negb]; [ | discriminate].
destruct (forallb (fun OLD => _ || _) _); cbn [negb]; [ | discriminate].
intros H; inversion H; split; [reflexivity | ].
intros OLD Hin Ht.
rewrite forallb_forall in Hc; apply Hc.
apply in_map, filter_In; auto.
Qed.

Lemma insert_desc_In (r x : row) (l : list row) :
  In x (insert_desc r l) <-> x = r \/ In x l.
Proof.
induction l as [| y l IH]; simpl.
- intuition.
- destruct (created_at y <=? created_at r)%Z; simpl; rewrite ?IH;
    intuition.
Qed.

(** Ordering a listing keeps its rows. *)
Lemma order_by_created_at_desc_In (x : row) (l : list row) :
  In x (order_by_created_at_desc l) <-> In x l.
Proof.
unfold order_by_created_at_desc; induction l as [| y l IH]; simpl.
- tauto.
- rewrite insert_desc_In, IH; intuition.
Qed.

End ReportsFacts.

Section ReportsClaims.

Import Reports.

(** C5.  In a [reports] table whose rows all have their point equal to the
    point of their own [lon] and [lat], an accepted insert stores a row with
    the [lat] and [lon] sent and with the point of that [lon] and [lat],
    whatever point the client sent along, and an accepted update gives every
    row it touches the point of its new [lon] and [lat]; after either
    statement every row of the table still has the point of its own [lon]
    and [lat]. *)
Theorem report_point_follows_lat_lon (auth_uid : option UUID)
  (now : timestamptz) (auth_users : list UUID) (t : list row) :
  location_derived t ->
  (forall fresh returning n r t',
     insert auth_uid now fresh auth_users returning t n = Ok (r, t') ->
     lat r = n_lat n /\ lon r = n_lon n /\
     location r = Some (point (n_lon n) (n_lat n)) /\
     In r t' /\ location_derived t') /\
  (forall cond set t',
     update auth_uid now auth_users cond set t = Ok t' ->
     (forall OLD, In OLD t -> targeted auth_uid now cond OLD = true ->
        In (new_version set OLD) t' /\
        location (new_version set OLD) =
          Some (point (lon (set OLD)) (lat (set OLD)))) /\
     location_derived t').
Proof.
intros Hinv; split.
- intros fresh returning n r t' H.
  apply insert_ok in H; destruct H as [Hr [Ht' _]]; subst r t'.
  repeat split; simpl; auto.
  + apply in_or_app; right; left; reflexivity.
  + intros x Hx; apply in_app_or in Hx; destruct Hx as [Hx | [Hx | []]].
    * apply Hinv; assumption.
    * subst x; reflexivity.
- intros cond set t' H; apply update_ok in H; destruct H as [Ht' _]; subst t'.
  split.
  + intros OLD Hin Ht; split; [ | reflexivity].
    unfold apply_update; apply in_map_iff; exists OLD; rewrite Ht; auto.
  + intros x Hx; apply apply_update_In in Hx.
    destruct Hx as [[Hx _] | [OLD [_ [_ Hx]]]].
    * apply Hinv; assumption.
    * subst x; reflexivity.
Qed.

Lemma report_point_follows_lat_lon_witness :
  (location Scenario.scooter_row = Some (point 77.6 12.9) /\
   location_derived [Scenario.scooter_row]) /\
  (location Scenario.scooter_moved = Some (point 77.7 13) /\
   location_derived [Scenario.scooter_moved]).
Proof.
split.
- destruct (report_point_follows_lat_lon (Some Scenario.alice) 1000%Z
              [Scenario.alice] []) as [Hins _].
  + intros r [].
  + destruct (Hins 50%Z true Scenario.scooter Scenario.scooter_row
                [Scenario.scooter_row] eq_refl) as [_ [_ [Hloc [_ Hall]]]].
    split; [exact Hloc | exact Hall].
- destruct (report_point_follows_lat_lon (Some Scenario.alice) 2000%Z
              [Scenario.alice] [Scenario.scooter_row]) as [_ Hupd].
  + intros r [Hr | []]; subst r; reflexivity.
  + destruct (Hupd Scenario.is_scooter (set_lat_lon 13 77.7)
                [Scenario.scooter_moved] eq_refl) as [Hrow Hall].
    split; [ | exact Hall].
    apply (Hrow Scenario.scooter_row); [left; reflexivity | reflexivity].
Defined.

(** The stolen-vehicle form never changes the store and never reports
    success: its insert carries status ['active']. *)
Lemma stolen_vehicle_never_persists (c : ReportStolenVehicle.closure)
  (w : world) (data : ReportStolenVehicle.ReportFormData) (s : store) :
  snd (ReportStolenVehicle.handleSubmit c w data s) = s /\
  fst (ReportStolenVehicle.handleSubmit c w data s)
    <> ReportStolenVehicle.Success.
Proof.
unfold ReportStolenVehicle.handleSubmit.
destruct (ReportStolenVehicle.reportSchema data);
  [ | split; [reflexivity | discriminate]].
unfold ReportStolenVehicle.onSubmit.
destruct (ReportStolenVehicle.user c) as [uid |];
  [ | split; [reflexivity | discriminate]].
destruct (negb _ && _); [split; [reflexivity | discriminate] | ].
unfold Supabase.insert_report.
destruct (insert_report_lost w); [split; [reflexivity | discriminate] | ].
match goal with
| |- context [insert ?a ?b ?c ?d ?e ?f ?n] =>
    destruct (insert_active a b c d e f n eq_refl) as [H | H]; rewrite H
end; split; try reflexivity; discriminate.
Qed.

(** C10.  In a [reports] table whose rows all have status ['pending'],
    ['verified'] or ['false'], every accepted insert and every accepted
    update leaves such a table, and a row inserted without a status has
    status ['pending']; an insert that supplies status ['active'] is
    refused, by the [CHECK] when it comes from the row's owner; the
    stolen-vehicle form, which supplies it, leaves the store as it found it
    and never ends in success. *)
Theorem report_status_is_checked (auth_uid : option UUID)
  (now : timestamptz) (auth_users : list UUID) (t : list row) :
  status_valid t ->
  (forall fresh returning n r t',
     insert auth_uid now fresh auth_users returning t n = Ok (r, t') ->
     status_valid t' /\ In r t' /\
     (n_status n = None -> status r = "pending"%string)) /\
  (forall cond set t',
     update auth_uid now auth_users cond set t = Ok t' -> status_valid t') /\
  (forall fresh returning n,
     n_status n = Some "active"%string ->
     (exists e,
        insert auth_uid now fresh auth_users returning t n = Err e) /\
     (auth_uid = Some (n_user_id n) ->
      insert auth_uid now fresh auth_users false t n
      = Err ValidationError)) /\
  (forall c w data s,
     snd (ReportStolenVehicle.handleSubmit c w data s) = s /\
     fst (ReportStolenVehicle.handleSubmit c w data s)
       <> ReportStolenVehicle.Success).
Proof.
intros Hinv; split; [ | split; [ | split]].
- intros fresh returning n r t' H.
  apply insert_ok in H; destruct H as [Hr [Ht' [_ [Hc _]]]]; subst t'.
  repeat split.
  + intros x Hx; apply in_app_or in Hx; destruct Hx as [Hx | [Hx | []]].
    * apply Hinv; assumption.
    * subst x; unfold constraints in Hc; apply andb_prop in Hc.
      apply text_in_status; tauto.
  + apply in_or_app; right; left; reflexivity.
  + intros Hs; subst r; simpl; rewrite Hs; reflexivity.
- intros cond set t' H x Hx.
  apply update_ok in H; destruct H as [Ht' Hc]; subst t'.
  apply apply_update_In in Hx.
  destruct Hx as [[Hx _] | [OLD [Hin [Ht Hx]]]].
  + apply Hinv; assumption.
  + subst x; specialize (Hc OLD Hin Ht); unfold constraints in Hc.
    apply andb_prop in Hc; apply text_in_status; tauto.
- intros fresh returning n H; split.
  + destruct (insert_active auth_uid now fresh auth_users returning t n H)
      as [E | E]; rewrite E; eexists; reflexivity.
  + intros Hown; unfold insert.
    assert (Eown : is_own auth_uid
                     (update_report_location (with_defaults now fresh n))
                   = true) by (apply is_own_true; exact Hown).
    rewrite Eown; cbn [negb andb].
    unfold constraints, status_check; simpl; rewrite H; reflexivity.
- intros c w data s; apply stolen_vehicle_never_persists.
Qed.

Lemma report_status_is_checked_witness :
  status_valid [Scenario.scooter_row] /\
  status Scenario.scooter_row = "pending"%string.
Proof.
destruct (report_status_is_checked (Some Scenario.alice) 1000%Z
            [Scenario.alice] []) as [Hins _].
- intros r [].
- destruct (Hins 50%Z true Scenario.scooter Scenario.scooter_row
              [Scenario.scooter_row] eq_refl) as [Hall [_ Hdef]].
  split; [exact Hall | exact (Hdef eq_refl)].
Defined.

End ReportsClaims.

(** ** The [confirmations] table *)

Section ConfirmationsClaims.

Import Confirmations.

Lemma count_pair_absent (report user : UUID) (t : list row) :
  has_pair report user t = false -> count_pair report user t = 0%nat.
Proof.
unfold has_pair, count_pair; induction t as [| x t IH]; simpl;
  [reflexivity | ].
destruct (same_pair report user x); simpl; [discriminate | exact IH].
Qed.

Lemma count_pair_app (report user : UUID) (t u : list row) :
  count_pair report user (t ++ u) =
  (count_pair report user t + count_pair report user u)%nat.
Proof. unfold count_pair; rewrite filter_app, length_app; reflexivity. Qed.

Lemma has_pair_app (report user : UUID) (t u : list row) :
  has_pair report user (t ++ u) =
  has_pair report user t || has_pair report user u.
Proof. unfold has_pair; apply existsb_app. Qed.

Lemma insert_ok_confirmation (auth_uid : option UUID) (now : timestamptz)
  (fresh : UUID) (auth_users : list UUID) (reports : list Reports.row)
  (t : list row) (n : new_row) (t' : list row) :
  insert auth_uid now fresh auth_users reports t n = Ok t' ->
  t' = t ++ [with_defaults now fresh n] /\
  has_pair (n_report_id n) (n_user_id n) t = false.
Proof.
unfold insert; simpl.
destruct (is_own auth_uid _); simpl; [ | discriminate].
destruct (type_check _); simpl; [ | discriminate].
destruct (has_id fresh t); [discriminate | ].
destruct (has_pair (n_report_id n) (n_user_id n) t); [discriminate | ].
destruct (Reports.has_id _ _); simpl; [ | discriminate].
destruct (Reports.mem_uuid _ _); simpl; [ | discriminate].
intros H; inversion H; auto.
Qed.

(** C8.  Once a confirmation of a user for a report has been accepted, a
    second confirmation the same user submits for the same report, of any
    of the three types, is refused by the store with [ConflictError],
    whatever the time, the identifier drawn and the state of the other
    tables; the [confirmations] table, which the refused statement leaves as
    it was, holds exactly one row for the pair. *)
Theorem second_confirmation_conflicts
  (auth1 : option UUID) (now1 now2 : timestamptz) (fresh1 fresh2 : UUID)
  (users1 users2 : list UUID) (reports1 reports2 : list Reports.row)
  (t t1 : list row) (first second : new_row) :
  insert auth1 now1 fresh1 users1 reports1 t first = Ok t1 ->
  n_report_id second = n_report_id first ->
  n_user_id second = n_user_id first ->
  text_in (n_type second) ["seen"; "false"; "call_police"]%string = true ->
  insert (Some (n_user_id second)) now2 fresh2 users2 reports2 t1 second
    = Err ConflictError /\
  count_pair (n_report_id first) (n_user_id first) t1 = 1%nat.
Proof.
intros H1 Hr Hu Hty.
apply insert_ok_confirmation in H1; destruct H1 as [Ht1 Hfresh]; subst t1.
split.
- unfold insert; simpl.
  unfold is_own, uuid_eq; simpl; rewrite Z.eqb_refl; simpl.
  unfold type_check; simpl type; rewrite Hty; simpl.
  destruct (has_id fresh2 _); [reflexivity | ].
  rewrite Hr, Hu, has_pair_app; simpl.
  unfold same_pair; simpl; rewrite !Z.eqb_refl; simpl.
  rewrite orb_true_r; reflexivity.
- rewrite count_pair_app, (count_pair_absent _ _ _ Hfresh); simpl.
  unfold count_pair; simpl; unfold same_pair; simpl.
  rewrite !Z.eqb_refl; reflexivity.
Qed.

Lemma second_confirmation_conflicts_witness :
  insert (Some Scenario.bob) 1200%Z 71%Z [Scenario.alice; Scenario.bob]
    [Scenario.scooter_row] [Scenario.seen_by_bob_row] Scenario.seen_by_bob
    = Err ConflictError /\
  count_pair 50%Z Scenario.bob [Scenario.seen_by_bob_row] = 1%nat.
Proof.
apply (second_confirmation_conflicts (Some Scenario.bob) 1100%Z 1200%Z
         70%Z 71%Z [Scenario.alice; Scenario.bob]
         [Scenario.alice; Scenario.bob] [Scenario.scooter_row]
         [Scenario.scooter_row] [] [Scenario.seen_by_bob_row]
         Scenario.seen_by_bob Scenario.seen_by_bob);
  reflexivity.
Defined.

End ConfirmationsClaims.

(** ** Submitting through the validated form *)

Section SubmissionClaims.

Import TheftReportForm.

Lemma falsy_number_false (x : R) :
  x <> 0%R -> falsy_number (Some x) = false.
Proof.
intros H; unfold falsy_number; destruct (Req_dec_T x 0);
  [contradiction | reflexivity].
Qed.




(** Lengths are counted in UTF-16 units: five accented letters are five
    units in ten bytes, so the schema stops a description made of them. *)
Example description_length_is_utf16 :
  js_length "ééééé" = 5%nat /\ js_length "🚨" = 2%nat /\
  reportSchema {| vehicleNo := "MH 12 AB 1234"%string;
                  description := "ééééé"%string;
                  radius := 1000%Z;
                  expiryHours := 2%Z |} = false.
Proof. repeat split. Qed.

(** A submission that passes the schema, from the owner's session, is
    stored, with the expiry the form asked for. *)
Example valid_report_is_stored :
  exists r,
    handleSubmit Scenario.form Scenario.quiet_world Scenario.two_hours
      Scenario.empty_store
    = (Success, set_reports Scenario.empty_store [r]) /\
    Reports.expiry_at r = (Reports.created_at r + Reports.hours 2)%Z /\
    Reports.status r = "pending"%string /\
    Reports.location r = Some (point 77.6 12.9).
Proof.
eexists; split.
- unfold handleSubmit; cbn [reportSchema]; unfold onSubmit.
  simpl user; simpl latitude; simpl longitude.
  rewrite !falsy_number_false by lra; cbn [orb].
  reflexivity.
- repeat split.
Qed.

End SubmissionClaims.

(** ** The listings of active reports *)

Section ListingClaims.

Import Reports.

Lemma select_In (now : timestamptz) (t : list row) (r : row) :
  In r (select now t) <-> In r t /\ (now < expiry_at r)%Z.
Proof.
unfold select, can_view; rewrite filter_In, Z.ltb_lt; tauto.
Qed.

Lemma Index_loadReports_In (w : world) (s : store) (l : list row)
  (r : row) :
  Index.loadReports w s = Some l ->
  (In r l <-> In r (reports s) /\ (now w < expiry_at r)%Z /\
              (Date_now w <= expiry_at r)%Z).
Proof.
unfold Index.loadReports, Supabase.select_reports.
destruct (select_lost w); [discriminate | ].
intros H; inversion H; subst l.
rewrite order_by_created_at_desc_In, filter_In, select_In, Z.leb_le; tauto.
Qed.

Lemma LiveTheftMap_loadReports_In (w : world) (s : store) (l : list row)
  (r : row) :
  LiveTheftMap.loadReports w s = Some l ->
  (In r l <-> In r (reports s) /\ (now w < expiry_at r)%Z /\
              category r = "vehicle"%string /\
              (Date_now w <= expiry_at r)%Z).
Proof.
unfold LiveTheftMap.loadReports, Supabase.select_reports.
destruct (select_lost w); [discriminate | ].
intros H; inversion H; subst l.
rewrite order_by_created_at_desc_In, filter_In, select_In.
rewrite andb_true_iff, Z.leb_le, String.eqb_eq; tauto.
Qed.

(** A report sent without [expiry_at] expires two hours after the store's
    clock at the insert, which is also its [created_at]. *)
Lemma default_expiry (now : timestamptz) (fresh : UUID) (n : new_row) :
  n_expiry_at n = None ->
  expiry_at (update_report_location (with_defaults now fresh n)) =
  (created_at (update_report_location (with_defaults now fresh n))
   + hours 2)%Z.
Proof. intros H; simpl; rewrite H; reflexivity. Qed.

End ListingClaims.

Section ExpiryClaims.

Import Reports.

(** C6.  A stored report that expires two hours after its creation time T
    is among the rows the [SELECT] policy lets through, and in the listing
    of the index page, when store and browser clocks read T + 1h, and is in
    neither when the store's clock reads T + 3h; the live map, which lists
    the reports of category ['vehicle'], has it at T + 1h when it is one of
    them and does not have it at T + 3h.  Every row either listing shows,
    at any time, is a row of the table as stored whose [expiry_at] is later
    than the store's clock at the query. *)
Theorem active_listing_follows_expiry (w1 w3 : world) (s : store)
  (r : row) :
  In r (reports s) ->
  expiry_at r = (created_at r + hours 2)%Z ->
  now w1 = (created_at r + hours 1)%Z ->
  Date_now w1 = (created_at r + hours 1)%Z ->
  select_lost w1 = false ->
  now w3 = (created_at r + hours 3)%Z ->
  select_lost w3 = false ->
  (In r (select (now w1) (reports s)) /\
   ~ In r (select (now w3) (reports s))) /\
  (exists l1 l3,
     Index.loadReports w1 s = Some l1 /\ In r l1 /\
     Index.loadReports w3 s = Some l3 /\ ~ In r l3) /\
  (exists l1 l3,
     LiveTheftMap.loadReports w1 s = Some l1 /\
     (category r = "vehicle"%string -> In r l1) /\
     LiveTheftMap.loadReports w3 s = Some l3 /\ ~ In r l3) /\
  (forall w l x,
     Index.loadReports w s = Some l \/
     LiveTheftMap.loadReports w s = Some l ->
     In x l -> In x (reports s) /\ (now w < expiry_at x)%Z).
Proof.
intros Hin Hexp Hn1 Hd1 Hs1 Hn3 Hs3.
unfold hours in *.
split; [ | split; [ | split]].
- rewrite !select_In; split; [split; [assumption | lia] | ].
  intros [_ H]; lia.
- destruct (Index.loadReports w1 s) as [l1 |] eqn:E1.
  2:{ unfold Index.loadReports, Supabase.select_reports in E1.
      rewrite Hs1 in E1; discriminate. }
  destruct (Index.loadReports w3 s) as [l3 |] eqn:E3.
  2:{ unfold Index.loadReports, Supabase.select_reports in E3.
      rewrite Hs3 in E3; discriminate. }
  exists l1, l3; repeat split.
  + apply (Index_loadReports_In w1 s l1 r E1); repeat split;
      [assumption | lia | lia].
  + intros H; apply (Index_loadReports_In w3 s l3 r E3) in H; lia.
- destruct (LiveTheftMap.loadReports w1 s) as [l1 |] eqn:E1.
  2:{ unfold LiveTheftMap.loadReports, Supabase.select_reports in E1.
      rewrite Hs1 in E1; discriminate. }
  destruct (LiveTheftMap.loadReports w3 s) as [l3 |] eqn:E3.
  2:{ unfold LiveTheftMap.loadReports, Supabase.select_reports in E3.
      rewrite Hs3 in E3; discriminate. }
  exists l1, l3; repeat split.
  + intros Hcat; apply (LiveTheftMap_loadReports_In w1 s l1 r E1).
    repeat split; [assumption | lia | assumption | lia].
  + intros H; apply (LiveTheftMap_loadReports_In w3 s l3 r E3) in H; lia.
- intros w l x [E | E] Hx.
  + apply (Index_loadReports_In w s l x E) in Hx; tauto.
  + apply (LiveTheftMap_loadReports_In w s l x E) in Hx; tauto.
Qed.

Lemma active_listing_follows_expiry_witness :
  (In Scenario.scooter_row
      (select (now Scenario.one_hour_later)
         (reports Scenario.store_with_scooter)) /\
   ~ In Scenario.scooter_row
      (select (now Scenario.three_hours_later)
         (reports Scenario.store_with_scooter))) /\
  (exists l1 l3,
     LiveTheftMap.loadReports Scenario.one_hour_later
       Scenario.store_with_scooter = Some l1 /\
     (category Scenario.scooter_row = "vehicle"%string ->
      In Scenario.scooter_row l1) /\
     LiveTheftMap.loadReports Scenario.three_hours_later
       Scenario.store_with_scooter = Some l3 /\
     ~ In Scenario.scooter_row l3).
Proof.
destruct (active_listing_follows_expiry Scenario.one_hour_later
            Scenario.three_hours_later Scenario.store_with_scooter
            Scenario.scooter_row) as [Hsel [_ [Hmap _]]];
  try reflexivity.
- left; reflexivity.
- split; [exact Hsel | exact Hmap].
Defined.

End ExpiryClaims.

(** ** The fan-out *)

Section FanoutFacts.

Import TheftReportDialog.

Lemma insert_row_ok (auth_uid : option UUID) (now : timestamptz)
  (fresh : UUID) (t : list Alerts.row) (n : Alerts.new_row)
  (t' : list Alerts.row) :
  Alerts.insert_row auth_uid now fresh t n = Ok t' ->
  t' = t ++ [Alerts.with_defaults now fresh n].
Proof.
unfold Alerts.insert_row.
destruct (Alerts.is_sender _ _); cbn [negb]; [ | discriminate].
destruct (Alerts.not_null _); cbn [negb]; [ | discriminate].
destruct (Alerts.has_id _ _); [discriminate | ].
intros H; inversion H; reflexivity.
Qed.

(** An accepted batch appends exactly the rows of [Alerts.stored]. *)
Lemma insert_rows_ok (auth_uid : option UUID) (now : timestamptz)
  (fresh : nat -> UUID) (ns : list Alerts.new_row) :
  forall (k : nat) (t t' : list Alerts.row),
    Alerts.insert_rows auth_uid now fresh k t ns = Ok t' ->
    t' = t ++ Alerts.stored now fresh k ns.
Proof.
induction ns as [| n ns IH]; simpl; intros k t t' H.
- inversion H; rewrite app_nil_r; reflexivity.
- destruct (Alerts.insert_row auth_uid now (fresh k) t n) as [t1 | e] eqn:E;
    [ | discriminate].
  apply insert_row_ok in E; subst t1.
  apply IH in H; rewrite H, <- app_assoc; reflexivity.
Qed.



Lemma stored_recipients (c : closure) (report : UUID) (now : timestamptz)
  (fresh : nat -> UUID) (users : list RangeQuery.users_in_range) :
  forall k,
    map Alerts.recipient_user_id
      (Alerts.stored now fresh k (map (alert_of c report) users)) =
    map RangeQuery.user_id users.
Proof.
induction users as [| u users IH]; simpl; intros k;
  [reflexivity | rewrite IH; reflexivity].
Qed.

Lemma stored_report_id (c : closure) (report : UUID) (now : timestamptz)
  (fresh : nat -> UUID) (users : list RangeQuery.users_in_range) :
  forall k a,
    In a (Alerts.stored now fresh k (map (alert_of c report) users)) ->
    Alerts.report_id a = report.
Proof.
induction users as [| u users IH]; simpl; intros k a H; [contradiction | ].
destruct H as [H | H]; [subst a; reflexivity | eapply IH; eassumption].
Qed.

Lemma stored_sender (c : closure) (report owner : UUID) (now : timestamptz)
  (fresh : nat -> UUID) (users : list RangeQuery.users_in_range) :
  user c = Some owner ->
  forall k a,
    In a (Alerts.stored now fresh k (map (alert_of c report) users)) ->
    Alerts.sender_user_id a = Some owner.
Proof.
intros Hu; induction users as [| u users IH]; simpl; intros k a H;
  [contradiction | ].
destruct H as [H | H]; [subst a; exact Hu | eapply IH; eassumption].
Qed.

Lemma stored_length (now : timestamptz) (fresh : nat -> UUID)
  (ns : list Alerts.new_row) :
  forall k, length (Alerts.stored now fresh k ns) = length ns.
Proof.
induction ns as [| n ns IH]; simpl; intros k; [ | rewrite IH]; reflexivity.
Qed.




(** What the range query returns when it returns. *)
Lemma rpc_get_users_in_range_ok (w : world) (s : store) (lat lon : R)
  (radius_meters : Z) (users : list RangeQuery.users_in_range) :
  Supabase.rpc_get_users_in_range w s lat lon radius_meters = Ok users ->
  rpc_lost w = false /\
  RangeQuery.acos_raises (acos_out_of_range w) (acos_on_own_row w)
    (auth_uid w) (profiles s) lat lon = false /\
  users = RangeQuery.get_users_in_range (auth_uid w) (profiles s) lat lon
            radius_meters.
Proof.
unfold Supabase.rpc_get_users_in_range.
destruct (rpc_lost w); [discriminate | ].
destruct (RangeQuery.acos_raises _ _ _ _ _ _); [discriminate | ].
intros H; inversion H; auto.
Qed.

(** The two ways [sendAlertsToUsers] ends once the location is known:
    count 0 and the store untouched, or the whole batch stored and its
    length returned. *)
Lemma sendAlertsToUsers_cases (c : closure) (w : world) (report : UUID)
  (s : store) (lat lon : R) :
  latitude c = Some lat -> lat <> 0%R ->
  longitude c = Some lon -> lon <> 0%R ->
  let users :=
    RangeQuery.get_users_in_range (auth_uid w) (profiles s) lat lon
      (alertRadius c) in
  let alerts := map (alert_of c report) users in
  (sendAlertsToUsers c w report s = (Some 0%nat, s) /\
   ((exists e, Supabase.rpc_get_users_in_range w s lat lon (alertRadius c)
               = Err e) \/
    users = [] \/
    exists e, Supabase.insert_alerts w s alerts = Err e)) \/
  (rpc_lost w = false /\ users <> [] /\
   (exists s', Supabase.insert_alerts w s alerts = Ok s') /\
   sendAlertsToUsers c w report s =
   (Some (length users),
    set_notification_alerts s
      (notification_alerts s ++
       Alerts.stored (now_alerts w) (alert_uuid w) 0 alerts))).
Proof.
intros Hlat Hlat0 Hlon Hlon0 users alerts.
unfold sendAlertsToUsers.
rewrite Hlat, Hlon, !falsy_number_false by assumption; cbn [orb].
unfold Supabase.rpc_get_users_in_range.
destruct (rpc_lost w); [left; split; [ | left; eexists]; reflexivity | ].
destruct (RangeQuery.acos_raises _ _ _ _ _ _);
  [left; split; [ | left; eexists]; reflexivity | ].
fold users; fold alerts.
destruct users as [| u users'] eqn:Eu.
- left; simpl; auto.
- assert (Hlen : (0 <? length alerts)%nat = true) by reflexivity.
  rewrite Hlen.
  destruct (Supabase.insert_alerts w s alerts) as [s' | e] eqn:E.
  + right; split; [reflexivity | ]; split; [discriminate | ].
    split; [exists s'; reflexivity | ].
    unfold Supabase.insert_alerts in E.
    destruct (insert_alerts_lost w); [discriminate | ].
    destruct (Alerts.insert _ _ _ _ _) as [t' | e] eqn:Et; [ | discriminate].
    inversion E; subst s'.
    apply insert_rows_ok in Et; subst t'.
    unfold alerts; rewrite length_map; reflexivity.
  + left; split; [reflexivity | ]; right; right; exists e; reflexivity.
Qed.

End FanoutFacts.

Section SubmitFacts.

Import TheftReportDialog.

Lemma falsy_number_inv (x : option R) :
  falsy_number x = false -> exists v, x = Some v /\ v <> 0%R.
Proof.
destruct x as [v |]; simpl; [ | discriminate].
destruct (Req_dec_T v 0); [discriminate | ].
intros _; exists v; auto.
Qed.

Lemma insert_report_ok (w : world) (returning : bool) (s : store)
  (n : Reports.new_row) (report : Reports.row) (s1 : store) :
  Supabase.insert_report w returning s n = Ok (report, s1) ->
  s1 = set_reports s (reports s ++ [report]) /\
  report = Reports.update_report_location
             (Reports.with_defaults (now w) (report_uuid w) n) /\
  auth_uid w = Some (Reports.user_id report) /\
  Reports.has_id (Reports.id report) (reports s) = false.
Proof.
unfold Supabase.insert_report.
destruct (insert_report_lost w); [discriminate | ].
destruct (Reports.insert _ _ _ _ _ _ _) as [[r t] | e] eqn:E;
  [ | discriminate].
intros H; inversion H; subst r s1.
apply insert_ok in E; destruct E as [Hr [Ht [Hown [_ [Hid _]]]]].
subst t; auto.
Qed.

(** [handleSubmit] either leaves the store alone, with no toast or the
    error toast, or stores the report and hands over to
    [sendAlertsToUsers], whose count goes into the success toast. *)
Lemma handleSubmit_cases (c : closure) (w : world) (s : store) :
  (handleSubmit c w s = (None, s) \/
   handleSubmit c w s = (Some SubmitError, s)) \/
  exists owner lat lon report,
    user c = Some owner /\
    latitude c = Some lat /\ lat <> 0%R /\
    longitude c = Some lon /\ lon <> 0%R /\
    Supabase.insert_report w true s (report_of c owner lat lon) =
      Ok (report, set_reports s (reports s ++ [report])) /\
    handleSubmit c w s =
      (Some (Submitted
               (fst (sendAlertsToUsers c w (Reports.id report)
                       (set_reports s (reports s ++ [report]))))),
       snd (sendAlertsToUsers c w (Reports.id report)
              (set_reports s (reports s ++ [report])))).
Proof.
unfold handleSubmit.
destruct (user c) as [owner |]; [ | left; left; reflexivity].
destruct (falsy_number (latitude c)) eqn:Flat;
  [left; left; reflexivity | ].
destruct (falsy_number (longitude c)) eqn:Flon;
  [left; left; reflexivity | ].
cbn [orb].
apply falsy_number_inv in Flat; destruct Flat as [lat [Hlat Hlat0]].
apply falsy_number_inv in Flon; destruct Flon as [lon [Hlon Hlon0]].
rewrite Hlat, Hlon.
destruct (Supabase.insert_report w true s (report_of c owner lat lon))
  as [[report s1] | e] eqn:E; [ | left; right; reflexivity].
right; exists owner, lat, lon, report.
destruct (insert_report_ok _ _ _ _ _ _ E) as [Hs1 _]; subst s1.
repeat split; auto.
destruct (sendAlertsToUsers c w (Reports.id report) _); reflexivity.
Qed.






End SubmitFacts.

Section FanoutClaims.

Import TheftReportDialog.

(** The caller of the range query is not among the users it returns. *)
Lemma caller_not_in_range (caller : UUID) (profiles : list Profiles.row)
  (lat lon : R) (radius_meters : Z) :
  ~ In caller
      (map RangeQuery.user_id
         (RangeQuery.get_users_in_range (Some caller) profiles lat lon
            radius_meters)).
Proof.
rewrite get_users_in_range_ids; intros H.
apply in_map_iff in H; destruct H as [p [Hid Hp]].
apply filter_In in Hp; destruct Hp as [_ Hw].
apply in_range_true in Hw.
destruct Hw as [_ [[x [Hx Hne]] _]]; inversion Hx; subst x; auto.
Qed.


End FanoutClaims.

Section SelfExclusionClaims.

Import TheftReportDialog.

(** C3.  Whoever calls the range query is not among the users it returns,
    for every table of profiles, centre and radius.  In [handleSubmit] the
    range query runs for the owner of the report just stored, so every
    alert the submission adds belongs to a stored report whose owner is the
    submitting user and is not the alert's recipient. *)
Theorem reporter_is_never_a_recipient (c : closure) (w : world)
  (s : store) :
  (forall caller profiles lat lon radius_meters,
     ~ In caller
         (map RangeQuery.user_id
            (RangeQuery.get_users_in_range (Some caller) profiles lat lon
               radius_meters))) /\
  (forall a,
     In a (notification_alerts (snd (handleSubmit c w s))) ->
     In a (notification_alerts s) \/
     exists report,
       In report (reports (snd (handleSubmit c w s))) /\
       Reports.id report = Alerts.report_id a /\
       user c = Some (Reports.user_id report) /\
       auth_uid w = Some (Reports.user_id report) /\
       Alerts.sender_user_id a = Some (Reports.user_id report) /\
       Alerts.recipient_user_id a <> Reports.user_id report).
Proof.
split; [intros; apply caller_not_in_range | ].
intros a.
destruct (handleSubmit_cases c w s)
  as [[E | E] | [owner [lat [lon [report
       [Hu [Hlat [Hlat0 [Hlon [Hlon0 [Hins E]]]]]]]]]]];
  rewrite E; cbn [snd]; auto.
set (s1 := set_reports s (reports s ++ [report])) in *.
destruct (insert_report_ok _ _ _ _ _ _ Hins) as [_ [Hrep [Hauth _]]].
assert (Hown : Reports.user_id report = owner)
  by (subst report; reflexivity).
destruct (sendAlertsToUsers_cases c w (Reports.id report) s1 lat lon
            Hlat Hlat0 Hlon Hlon0) as [[E2 _] | [_ [_ [_ E2]]]];
  rewrite E2; cbn [snd fst]; [simpl; auto | ].
simpl; intros Ha; apply in_app_or in Ha; destruct Ha as [Ha | Ha];
  [left; assumption | right].
exists report; rewrite Hown.
assert (Hrec : In (Alerts.recipient_user_id a)
          (map Alerts.recipient_user_id
             (Alerts.stored (now_alerts w) (alert_uuid w) 0
                (map (alert_of c (Reports.id report))
                   (RangeQuery.get_users_in_range (auth_uid w) (profiles s)
                      lat lon (alertRadius c))))))
  by (apply in_map; exact Ha).
rewrite stored_recipients in Hrec.
rewrite Hown in Hauth; rewrite Hauth in Hrec.
assert (Hs := stored_sender c (Reports.id report) owner (now_alerts w)
               (alert_uuid w) _ Hu 0%nat a Ha).
repeat split; auto.
- apply in_or_app; right; left; reflexivity.
- symmetry; eapply stored_report_id; exact Ha.
- intros Heq; rewrite Heq in Hrec.
  exact (caller_not_in_range _ _ _ _ _ Hrec).
Qed.

End SelfExclusionClaims.

Section FailureClaims.

Import TheftReportDialog.

(** C7.  Once the report insert of a submission has been accepted,
    [handleSubmit] ends with the success toast carrying a count [n]; the
    stored report is the last row of [reports] whatever the fan-out did; the
    alerts table has grown by exactly [n] rows.  When the range query is
    lost, returns nobody, or the alert insert returns an error, [n] is 0 and
    no alert has been added. *)
Theorem fanout_failure_keeps_report (c : closure) (w : world)
  (s s1 : store) (owner : UUID) (lat lon : R) (report : Reports.row) :
  user c = Some owner ->
  latitude c = Some lat -> lat <> 0%R ->
  longitude c = Some lon -> lon <> 0%R ->
  Supabase.insert_report w true s (report_of c owner lat lon)
    = Ok (report, s1) ->
  exists n batch,
    fst (handleSubmit c w s) = Some (Submitted (Some n)) /\
    reports (snd (handleSubmit c w s)) = reports s ++ [report] /\
    notification_alerts (snd (handleSubmit c w s)) =
      notification_alerts s ++ batch /\
    length batch = n /\
    (rpc_lost w = true \/
     RangeQuery.get_users_in_range (auth_uid w) (profiles s) lat lon
       (alertRadius c) = [] \/
     (exists e,
        Supabase.insert_alerts w s1
          (map (alert_of c (Reports.id report))
             (RangeQuery.get_users_in_range (auth_uid w) (profiles s)
                lat lon (alertRadius c))) = Err e) ->
     n = 0%nat /\ batch = []).
Proof.
intros Hu Hlat Hlat0 Hlon Hlon0 Hins.
destruct (insert_report_ok _ _ _ _ _ _ Hins) as [Hs1 _].
unfold handleSubmit.
rewrite Hu, Hlat, Hlon, !falsy_number_false by assumption; cbn [orb].
rewrite Hins.
destruct (sendAlertsToUsers_cases c w (Reports.id report) s1 lat lon
            Hlat Hlat0 Hlon Hlon0)
  as [[E2 _] | [Hrpc [Hne [[s' Hok] E2]]]];
  rewrite E2; cbn [fst snd].
- exists 0%nat, []; subst s1; simpl; rewrite app_nil_r; repeat split.
- replace (profiles s1) with (profiles s) in * by (subst s1; reflexivity).
  eexists; eexists; split; [reflexivity | ].
  split; [subst s1; reflexivity | ].
  split; [subst s1; reflexivity | ].
  split; [rewrite stored_length, length_map; reflexivity | ].
  intros [H | [H | [e H]]].
  + rewrite H in Hrpc; discriminate.
  + contradiction.
  + rewrite H in Hok; discriminate.
Qed.

Lemma fanout_failure_keeps_report_witness :
  fst (handleSubmit Scenario.dialog Scenario.lossy_world
         Scenario.empty_store) = Some (Submitted (Some 0%nat)) /\
  reports (snd (handleSubmit Scenario.dialog Scenario.lossy_world
                  Scenario.empty_store)) = [Scenario.dialog_row] /\
  notification_alerts
    (snd (handleSubmit Scenario.dialog Scenario.lossy_world
            Scenario.empty_store)) = [].
Proof.
destruct (fanout_failure_keeps_report Scenario.dialog Scenario.lossy_world
            Scenario.empty_store
            (set_reports Scenario.empty_store [Scenario.dialog_row])
            Scenario.alice 12.9%R 77.6%R Scenario.dialog_row)
  as [n [batch [Ht [Hr [Ha [_ Hfail]]]]]];
  try reflexivity; try (simpl; lra).
destruct Hfail as [Hn Hb]; [left; reflexivity | ].
subst n batch; split; [exact Ht | split; [exact Hr | exact Ha]].
Defined.

End FailureClaims.

(** ** The end-to-end scenario *)

Section EndToEnd.

Import TheftReportDialog.
Local Open Scope R_scope.

(** Along a meridian, northwards, the formula is the arc length. *)
Lemma great_circle_meridian (lat lat' lon : R) :
  0 <= lat' - lat <= 180 ->
  RangeQuery.great_circle lat lon (Some (point lon lat')) =
  Some (6371000 * ((lat' - lat) * (PI / 180))).
Proof.
intros [H0 H180]; unfold RangeQuery.great_circle, point, radians; simpl.
assert (Hpi := PI_RGT_0).
replace (cos (lat * (PI / 180)) * cos (lat' * (PI / 180)) *
         cos (lon * (PI / 180) - lon * (PI / 180)) +
         sin (lat * (PI / 180)) * sin (lat' * (PI / 180)))
  with (cos ((lat' - lat) * (PI / 180))).
- rewrite acos_cos; [reflexivity | split; nra].
- replace (lon * (PI / 180) - lon * (PI / 180)) with 0 by ring.
  replace ((lat' - lat) * (PI / 180))
    with (lat' * (PI / 180) - lat * (PI / 180)) by ring.
  rewrite cos_minus, cos_0; ring.
Qed.

Lemma range_query_in_town :
  RangeQuery.get_users_in_range (Some Scenario.alice)
    (profiles Scenario.town) 12.9 77.6 2000 =
  [ {| RangeQuery.user_id := Scenario.bob;
       RangeQuery.distance_meters := Some 1112%Z;
       RangeQuery.fcm_token := None |} ].
Proof.
assert (Hd : RangeQuery.great_circle 12.9 77.6 (Some (point 77.6 12.91)) =
             Some (6371000 * ((12.91 - 12.9) * (PI / 180))))
  by (apply great_circle_meridian; lra).
assert (Hlo := PI_lower); assert (Hhi := PI_upper).
assert (Ha : sql_is_true
               (RangeQuery.in_range (Some Scenario.alice) 12.9 77.6 2000
                  Scenario.alice_profile) = false).
{ apply not_true_is_false; intros E.
  apply in_range_true in E; destruct E as [_ [[x [Hx Hne]] _]].
  inversion Hx; subst x; apply Hne; reflexivity. }
assert (Hb : sql_is_true
               (RangeQuery.in_range (Some Scenario.alice) 12.9 77.6 2000
                  Scenario.bob_north) = true).
{ unfold RangeQuery.in_range.
  change (Profiles.location Scenario.bob_north)
    with (Some (point 77.6 12.91)).
  rewrite Hd; unfold float8_le; rewrite Rleb_true by lra; reflexivity. }
assert (Hc : sql_is_true
               (RangeQuery.in_range (Some Scenario.alice) 12.9 77.6 2000
                  Scenario.carol_profile) = false).
{ apply not_true_is_false; intros E.
  apply in_range_true in E; destruct E as [E _].
  apply E; reflexivity. }
unfold RangeQuery.get_users_in_range.
change (profiles Scenario.town)
  with [Scenario.alice_profile; Scenario.bob_north; Scenario.carol_profile].
cbn [filter]; rewrite Ha, Hb, Hc; cbn [map].
unfold RangeQuery.select_row.
change (Profiles.location Scenario.bob_north)
  with (Some (point 77.6 12.91)).
rewrite Hd; cbn [option_map].
rewrite (rint_nearest _ 1112%Z) by lra.
reflexivity.
Qed.

(** Alice's submission stores her report and exactly one alert, for Bob,
    1112 m away; none for Carol, none for Alice. *)
Example end_to_end :
  handleSubmit Scenario.dialog_2km Scenario.quiet_world Scenario.town =
  (Some (Submitted (Some 1%nat)), Scenario.town_after).
Proof.
unfold handleSubmit; simpl user.
simpl latitude; simpl longitude.
rewrite !falsy_number_false by lra; cbn [orb].
change (Supabase.insert_report Scenario.quiet_world true Scenario.town
          (report_of Scenario.dialog_2km Scenario.alice 12.9 77.6))
  with (Ok (Scenario.report_2km,
            set_reports Scenario.town [Scenario.report_2km])).
cbv beta iota.
unfold sendAlertsToUsers; simpl latitude; simpl longitude.
rewrite !falsy_number_false by lra; cbn [orb].
unfold Supabase.rpc_get_users_in_range; simpl rpc_lost; cbv iota.
change (profiles (set_reports Scenario.town [Scenario.report_2km]))
  with (profiles Scenario.town).
simpl auth_uid; simpl alertRadius.
rewrite range_query_in_town.
reflexivity.
Qed.

End EndToEnd.

Section FanoutWitness.

Import TheftReportDialog.


End FanoutWitness.


(* ================================================================== *)
(** * Further properties *)

(** ** Ordered listings *)

Section ListingFacts.

Context {A : Type} (key : A -> Z).

(** Two rows with the same key keep their table order. *)
Lemma order_desc_tie (a b : A) :
  key a = key b -> Listing.order_desc key [a; b] = [a; b].
Proof.
intros H; unfold Listing.order_desc; simpl.
rewrite H, Z.leb_refl; reflexivity.
Qed.

Lemma insert_desc_perm (r : A) (l : list A) :
  Permutation (Listing.insert_desc key r l) (r :: l).
Proof.
induction l as [| x l IH]; simpl; [apply Permutation_refl | ].
destruct (key x <=? key r)%Z; [apply Permutation_refl | ].
apply Permutation_trans with (x :: r :: l);
  [apply perm_skip; exact IH | apply perm_swap].
Qed.

Lemma order_desc_perm (l : list A) :
  Permutation (Listing.order_desc key l) l.
Proof.
unfold Listing.order_desc; induction l as [| x l IH]; simpl;
  [apply Permutation_refl | ].
apply Permutation_trans with (x :: fold_right (Listing.insert_desc key) [] l);
  [apply insert_desc_perm | apply perm_skip; exact IH].
Qed.

Lemma order_desc_In (x : A) (l : list A) :
  In x (Listing.order_desc key l) <-> In x l.
Proof.
split; apply Permutation_in;
  [apply order_desc_perm | apply Permutation_sym, order_desc_perm].
Qed.

Lemma insert_desc_sorted (r : A) (l : list A) :
  Listing.newest_first key l ->
  Listing.newest_first key (Listing.insert_desc key r l).
Proof.
unfold Listing.newest_first; induction l as [| x l IH]; simpl; intros H.
- constructor; constructor.
- inversion H as [| y ys Hs Hall]; subst.
  destruct (key x <=? key r)%Z eqn:E.
  + apply Z.leb_le in E; constructor; [exact H | ].
    constructor; [lia | ].
    rewrite Forall_forall in *; intros b Hb; specialize (Hall b Hb); lia.
  + apply Z.leb_gt in E; constructor; [apply IH; exact Hs | ].
    rewrite Forall_forall in *; intros b Hb.
    apply (Permutation_in _ (insert_desc_perm r l)) in Hb.
    destruct Hb as [Hb | Hb]; [subst b; lia | apply Hall; exact Hb].
Qed.

Lemma order_desc_sorted (l : list A) :
  Listing.newest_first key (Listing.order_desc key l).
Proof.
unfold Listing.order_desc; induction l as [| x l IH]; simpl.
- constructor.
- apply insert_desc_sorted; exact IH.
Qed.

(** In a list that is newest first, nothing cut off by [firstn] is later
    than something kept. *)
Lemma sorted_firstn_skipn (k : nat) (l : list A) (a b : A) :
  Listing.newest_first key l ->
  In a (firstn k l) -> In b (skipn k l) -> (key b <= key a)%Z.
Proof.
unfold Listing.newest_first; revert l; induction k as [| k IH];
  intros l Hs Ha Hb; [contradiction Ha | ].
destruct l as [| x l]; [contradiction Ha | ].
inversion Hs as [| y ys Hs' Hall]; subst.
simpl in Ha, Hb; destruct Ha as [Ha | Ha].
- subst a; rewrite Forall_forall in Hall; apply Hall.
  rewrite <- (firstn_skipn k l); apply in_or_app; right; exact Hb.
- apply (IH l); assumption.
Qed.

End ListingFacts.

Lemma Reports_order_is_listing (l : list Reports.row) :
  Reports.order_by_created_at_desc l =
  Listing.order_desc Reports.created_at l.
Proof. reflexivity. Qed.

Section ListingOrder.

(** X1.  What the live map and the index page list is ordered newest
    first, and is a rearrangement of the rows that pass the [SELECT] policy
    and the filters of the query: no row is lost or repeated by the
    ordering. *)
Theorem listings_are_newest_first (w : world) (s : store)
  (l : list Reports.row) :
  LiveTheftMap.loadReports w s = Some l \/ Index.loadReports w s = Some l ->
  Listing.newest_first Reports.created_at l /\
  (LiveTheftMap.loadReports w s = Some l ->
   Permutation l
     (filter (fun r => String.eqb (Reports.category r) "vehicle" &&
                       (Date_now w <=? Reports.expiry_at r)%Z)
        (Reports.select (now w) (reports s)))) /\
  (Index.loadReports w s = Some l ->
   Permutation l
     (filter (fun r => (Date_now w <=? Reports.expiry_at r)%Z)
        (Reports.select (now w) (reports s)))).
Proof.
intros H; split; [ | split].
- destruct H as [H | H];
    [unfold LiveTheftMap.loadReports in H | unfold Index.loadReports in H];
    destruct (Supabase.select_reports w s); try discriminate;
    inversion H; rewrite Reports_order_is_listing; apply order_desc_sorted.
- unfold LiveTheftMap.loadReports, Supabase.select_reports.
  destruct (select_lost w); [discriminate | ].
  intros E; inversion E; rewrite Reports_order_is_listing.
  apply order_desc_perm.
- unfold Index.loadReports, Supabase.select_reports.
  destruct (select_lost w); [discriminate | ].
  intros E; inversion E; rewrite Reports_order_is_listing.
  apply order_desc_perm.
Qed.

Lemma listings_are_newest_first_witness :
  (LiveTheftMap.loadReports Scenario.three_hours_later
     MoreScenario.busy_store
   = Some [MoreScenario.car_row; MoreScenario.bike_row] /\
   Listing.newest_first Reports.created_at
     [MoreScenario.car_row; MoreScenario.bike_row] /\
   Permutation [MoreScenario.car_row; MoreScenario.bike_row]
     (filter (fun r => String.eqb (Reports.category r) "vehicle" &&
                       (Date_now Scenario.three_hours_later
                        <=? Reports.expiry_at r)%Z)
        (Reports.select (now Scenario.three_hours_later)
           (reports MoreScenario.busy_store)))) /\
  (Index.loadReports Scenario.three_hours_later MoreScenario.busy_store
   = Some [MoreScenario.car_row; MoreScenario.laptop_row;
           MoreScenario.bike_row] /\
   Listing.newest_first Reports.created_at
     [MoreScenario.car_row; MoreScenario.laptop_row;
      MoreScenario.bike_row] /\
   Permutation
     [MoreScenario.car_row; MoreScenario.laptop_row; MoreScenario.bike_row]
     (filter (fun r => (Date_now Scenario.three_hours_later
                        <=? Reports.expiry_at r)%Z)
        (Reports.select (now Scenario.three_hours_later)
           (reports MoreScenario.busy_store)))).
Proof.
assert (Emap : LiveTheftMap.loadReports Scenario.three_hours_later
                 MoreScenario.busy_store
               = Some [MoreScenario.car_row; MoreScenario.bike_row])
  by reflexivity.
assert (Eindex : Index.loadReports Scenario.three_hours_later
                   MoreScenario.busy_store
                 = Some [MoreScenario.car_row; MoreScenario.laptop_row;
                         MoreScenario.bike_row])
  by reflexivity.
split.
- destruct (listings_are_newest_first Scenario.three_hours_later
              MoreScenario.busy_store _ (or_introl Emap))
    as [Hsorted [Hmap _]].
  split; [exact Emap | split; [exact Hsorted | exact (Hmap Emap)]].
- destruct (listings_are_newest_first Scenario.three_hours_later
              MoreScenario.busy_store _ (or_intror Eindex))
    as [Hsorted [_ Hindex]].
  split; [exact Eindex | split; [exact Hsorted | exact (Hindex Eindex)]].
Defined.

End ListingOrder.

(** ** More on the range query *)

Section RangeQueryMore.

Import RangeQuery.
Local Open Scope R_scope.

Lemma rint_le (x : R) (z : Z) : x <= IZR z -> (rint x <= z)%Z.
Proof.
intros Hx; unfold rint, frac_part.
destruct (base_Int_part x) as [Hlo Hhi].
assert (Hf : (Int_part x <= z)%Z) by (apply le_IZR; lra).
destruct (total_order_T (x - IZR (Int_part x)) (1 / 2)) as [[H | H] | H].
- exact Hf.
- destruct (Z.even (Int_part x)); [exact Hf | ].
  assert (Int_part x < z)%Z; [ | lia].
  apply lt_IZR; lra.
- assert (Int_part x < z)%Z; [ | lia].
  apply lt_IZR; lra.
Qed.

Lemma rint_nonneg (x : R) : 0 <= x -> (0 <= rint x)%Z.
Proof.
intros Hx; unfold rint, frac_part.
destruct (base_Int_part x) as [Hlo Hhi].
assert (Hf : (0 <= Int_part x)%Z).
{ assert (-1 < Int_part x)%Z; [ | lia]. apply lt_IZR; lra. }
destruct (total_order_T (x - IZR (Int_part x)) (1 / 2)) as [[H | H] | H];
  [ | destruct (Z.even (Int_part x)) | ]; lia.
Qed.

Lemma great_circle_nonneg (lat lon : R) (loc : option geography) (d : R) :
  great_circle lat lon loc = Some d -> 0 <= d.
Proof.
unfold great_circle; destruct loc as [g |]; [ | discriminate].
intros H; inversion H.
match goal with
| |- 0 <= 6371000 * acos ?x => destruct (acos_bound x) as [Ha _]
end.
nra.
Qed.

(** The [WHERE] clause holds exactly when the row has a location, the
    caller is known and is somebody else, and the distance is within the
    radius. *)
Lemma in_range_iff (auth_uid : option UUID) (lat lon : R) (radius : Z)
  (p : Profiles.row) :
  sql_is_true (in_range auth_uid lat lon radius p) = true <->
  exists caller d,
    auth_uid = Some caller /\ caller <> Profiles.user_id p /\
    great_circle lat lon (Profiles.location p) = Some d /\
    d <= IZR radius.
Proof.
split.
- intros H; apply in_range_true in H.
  destruct H as [_ [[caller [Hc Hne]] [d [Hd Hle]]]].
  exists caller, d; auto.
- intros [caller [d [Hc [Hne [Hd Hle]]]]]; subst auth_uid.
  unfold in_range; rewrite Hd.
  destruct (Profiles.location p) as [g |]; [ | discriminate Hd].
  unfold uuid_neq, uuid_eq; simpl.
  destruct (Z.eqb_spec (Profiles.user_id p) caller) as [E | E];
    [congruence | ].
  simpl; rewrite Rleb_true by exact Hle; reflexivity.
Qed.

(** X2.  Every row the range query returns carries a distance, and that
    distance is at least 0 and at most [radius_meters]; so a negative
    radius returns nobody. *)
Theorem returned_distance_within_radius (auth_uid : option UUID)
  (profiles : list Profiles.row) (lat lon : R) (radius_meters : Z)
  (u : users_in_range) :
  In u (get_users_in_range auth_uid profiles lat lon radius_meters) ->
  (exists d, distance_meters u = Some d /\ (0 <= d <= radius_meters)%Z) /\
  (0 <= radius_meters)%Z.
Proof.
intros H; apply get_users_in_range_In in H.
destruct H as [p [_ [Hu Hw]]].
apply in_range_iff in Hw; destruct Hw as [caller [d [_ [_ [Hd Hle]]]]].
assert (H0 := great_circle_nonneg _ _ _ _ Hd).
split.
- exists (rint d); subst u; unfold select_row; simpl; rewrite Hd; simpl.
  split; [reflexivity | ].
  split; [apply rint_nonneg; exact H0 | apply rint_le; exact Hle].
- apply le_IZR; lra.
Qed.

Lemma returned_distance_within_radius_witness :
  (exists d, Some 1112%Z = Some d /\ (0 <= d <= 2000)%Z) /\ (0 <= 2000)%Z.
Proof.
apply (returned_distance_within_radius (Some Scenario.alice)
         (profiles Scenario.town) 12.9 77.6 2000
         {| user_id := Scenario.bob;
            distance_meters := Some 1112%Z;
            fcm_token := None |}).
rewrite range_query_in_town; left; reflexivity.
Defined.

(** X3.  Widening the radius never loses a user: every row returned for a
    radius is returned, unchanged, for every larger radius. *)
Theorem wider_radius_keeps_users (auth_uid : option UUID)
  (profiles : list Profiles.row) (lat lon : R) (r1 r2 : Z)
  (u : users_in_range) :
  (r1 <= r2)%Z ->
  In u (get_users_in_range auth_uid profiles lat lon r1) ->
  In u (get_users_in_range auth_uid profiles lat lon r2).
Proof.
intros Hr H; apply get_users_in_range_In in H.
destruct H as [p [Hin [Hu Hw]]].
apply get_users_in_range_In; exists p; split; [exact Hin | ].
split; [exact Hu | ].
apply in_range_iff in Hw; destruct Hw as [caller [d [Hc [Hne [Hd Hle]]]]].
apply in_range_iff; exists caller, d; repeat split; auto.
apply IZR_le in Hr; lra.
Qed.

Lemma wider_radius_keeps_users_witness :
  In {| user_id := Scenario.bob;
        distance_meters := Some 1112%Z;
        fcm_token := None |}
     (get_users_in_range (Some Scenario.alice) (profiles Scenario.town)
        12.9 77.6 5000).
Proof.
apply (wider_radius_keeps_users (Some Scenario.alice)
         (profiles Scenario.town) 12.9 77.6 2000 5000).
- lia.
- rewrite range_query_in_town; left; reflexivity.
Defined.

(** X4.  For a caller the store does not know ([auth.uid()] is null) the
    comparison [p.user_id != auth.uid()] is never true, so the range query
    returns nobody, whatever the profiles, the centre and the radius. *)
Theorem anonymous_caller_gets_nobody (profiles : list Profiles.row)
  (lat lon : R) (radius_meters : Z) :
  get_users_in_range None profiles lat lon radius_meters = [].
Proof.
destruct (get_users_in_range None profiles lat lon radius_meters)
  as [| u l] eqn:E; [reflexivity | ].
assert (H : In u (get_users_in_range None profiles lat lon radius_meters))
  by (rewrite E; left; reflexivity).
apply get_users_in_range_In in H; destruct H as [p [_ [_ Hw]]].
apply in_range_iff in Hw; destruct Hw as [caller [d [Hc _]]].
discriminate Hc.
Qed.

End RangeQueryMore.

Section PreviewFacts.

Import TheftReportDialog.

(** X5.  When the count on the submit button was computed on the profiles
    the submission then meets, for the same session, the success toast
    reports either that count or 0: never more users than were announced,
    and never a number in between. *)
Theorem toast_count_is_preview_or_zero (c : closure) (w1 w2 : world)
  (s : store) (n m : nat) :
  auth_uid w1 = auth_uid w2 ->
  TheftReportDialogPreview.calculateUsersInRange c w1 s = Some n ->
  fst (handleSubmit c w2 s) = Some (Submitted (Some m)) ->
  m = n \/ m = 0%nat.
Proof.
intros Hauth Hn Hm.
unfold TheftReportDialogPreview.calculateUsersInRange in Hn.
destruct (handleSubmit_cases c w2 s)
  as [[E | E] | [owner [lat [lon [report
       [Hu [Hlat [Hlat0 [Hlon [Hlon0 [Hins E]]]]]]]]]]];
  rewrite E in Hm; cbn [fst] in Hm; try discriminate.
rewrite Hlat, Hlon, !falsy_number_false in Hn by assumption.
cbn [orb] in Hn.
destruct (Supabase.rpc_get_users_in_range w1 s lat lon (alertRadius c))
  as [data | e] eqn:Er; [ | discriminate].
apply rpc_get_users_in_range_ok in Er; destruct Er as [_ [_ Er]]; subst data.
inversion Hn as [Hlen]; clear Hn.
destruct (sendAlertsToUsers_cases c w2 (Reports.id report)
            (set_reports s (reports s ++ [report])) lat lon
            Hlat Hlat0 Hlon Hlon0) as [[E2 _] | [_ [_ [_ E2]]]];
  rewrite E2 in Hm; cbn [fst] in Hm; inversion Hm.
- right; reflexivity.
- left; rewrite Hauth; reflexivity.
Qed.

Lemma toast_count_is_preview_or_zero_witness : 1%nat = 1%nat \/ 1%nat = 0%nat.
Proof.
apply (toast_count_is_preview_or_zero Scenario.dialog_2km
         Scenario.quiet_world Scenario.quiet_world Scenario.town 1 1).
- reflexivity.
- unfold TheftReportDialogPreview.calculateUsersInRange.
  simpl latitude; simpl longitude.
  rewrite !falsy_number_false by lra; cbn [orb].
  unfold Supabase.rpc_get_users_in_range; simpl rpc_lost; cbv iota.
  simpl auth_uid; simpl alertRadius.
  rewrite range_query_in_town; reflexivity.
- rewrite end_to_end; reflexivity.
Defined.

End PreviewFacts.

(** ** The time labels of a report card *)

Section TimeLabels.

Import StatusTracker.

(** A printed integer starts with a digit or a minus sign. *)
Lemma number_to_string_head (n : Z) :
  exists c s, number_to_string n = String c s /\
              c <> "E"%char /\ c <> "J"%char.
Proof.
unfold number_to_string; destruct (Z.to_int n) as [d | d]; simpl.
- destruct d; simpl; eexists; eexists;
    (split; [reflexivity | split; discriminate]).
- eexists; eexists; (split; [reflexivity | split; discriminate]).
Qed.

Lemma counted_label_not_expired (n : Z) (rest : string) :
  (number_to_string n ++ rest)%string <> "Expired"%string /\
  (number_to_string n ++ rest)%string <> "Just now"%string.
Proof.
destruct (number_to_string_head n) as [c [s [E [H1 H2]]]].
rewrite E; simpl; split; intros H; inversion H; congruence.
Qed.

Lemma hours_then_days (d : Z) :
  (d / hour_ms / 24 = d / (24 * hour_ms))%Z.
Proof.
unfold hour_ms; rewrite Z.div_div by lia.
f_equal; lia.
Qed.

(** The label is "Expired" exactly when nothing is left on the clock. *)
Lemma getRemainingTime_expired (expiry now : Z) :
  getRemainingTime expiry now = "Expired"%string <-> (expiry - now <= 0)%Z.
Proof.
unfold getRemainingTime.
destruct (Z.leb_spec (expiry - now) 0) as [H | H].
- split; [intros _; exact H | reflexivity].
- split; [ | lia].
  intros E; exfalso; revert E.
  destruct (0 <? _)%Z; apply counted_label_not_expired.
Qed.

(** X6.  [getRemainingTime] says "Expired" exactly when the [SELECT]
    policy of [reports] no longer lets the row through on the same clock.
    Before that it counts whole days when a day or more is left, and whole
    hours otherwise, the two roundings amounting to one division by the
    length of a day; with less than an hour left the label is
    "0 hour remaining". *)
Theorem remaining_time_label (r : Reports.row) (now : Z) :
  (getRemainingTime (Reports.expiry_at r) now = "Expired"%string <->
   Reports.can_view now r = false) /\
  (let left := (Reports.expiry_at r - now)%Z in
   let days := (left / (24 * hour_ms))%Z in
   let hours := (left / hour_ms)%Z in
   ((24 * hour_ms <= left)%Z ->
    (1 <= days)%Z /\
    getRemainingTime (Reports.expiry_at r) now =
    (number_to_string days ++ " day" ++ plural days ++ " remaining")%string)
   /\
   ((0 < left < 24 * hour_ms)%Z ->
    (0 <= hours < 24)%Z /\
    getRemainingTime (Reports.expiry_at r) now =
    (number_to_string hours ++ " hour" ++ plural hours ++ " remaining")
      %string) /\
   ((0 < left < hour_ms)%Z ->
    getRemainingTime (Reports.expiry_at r) now = "0 hour remaining"%string)).
Proof.
assert (Hh : (0 < hour_ms)%Z) by (unfold hour_ms; lia).
split.
- rewrite getRemainingTime_expired; unfold Reports.can_view.
  rewrite Z.ltb_ge; lia.
- cbv zeta; split; [ | split].
  + intros H; unfold getRemainingTime.
    assert (Hd : (1 <= (Reports.expiry_at r - now) / (24 * hour_ms))%Z)
      by (apply Z.div_le_lower_bound; lia).
    split; [exact Hd | ].
    destruct (Z.leb_spec (Reports.expiry_at r - now) 0); [lia | ].
    rewrite hours_then_days.
    destruct (Z.ltb_spec 0 ((Reports.expiry_at r - now) / (24 * hour_ms)));
      [reflexivity | lia].
  + intros [H0 H24]; unfold getRemainingTime.
    assert (Hdiv : (0 <= (Reports.expiry_at r - now) / hour_ms < 24)%Z).
    { split; [apply Z.div_pos; lia | apply Z.div_lt_upper_bound; lia]. }
    split; [exact Hdiv | ].
    destruct (Z.leb_spec (Reports.expiry_at r - now) 0); [lia | ].
    rewrite hours_then_days.
    assert (Hz : ((Reports.expiry_at r - now) / (24 * hour_ms) = 0)%Z)
      by (apply Z.div_small; lia).
    rewrite Hz; reflexivity.
  + intros [H0 H1]; unfold getRemainingTime.
    destruct (Z.leb_spec (Reports.expiry_at r - now) 0); [lia | ].
    assert (Hz : ((Reports.expiry_at r - now) / hour_ms = 0)%Z)
      by (apply Z.div_small; lia).
    rewrite Hz; reflexivity.
Qed.

(** X7.  [getTimeAgo] says "Just now" exactly when less than an hour has
    passed, dates in the future included; from one hour on it counts whole
    hours, and from one day on whole days, the two roundings amounting to
    one division by the length of a day. *)
Theorem time_ago_label (date now : Z) :
  (getTimeAgo date now = "Just now"%string <-> (now - date < hour_ms)%Z) /\
  (let past := (now - date)%Z in
   let days := (past / (24 * hour_ms))%Z in
   let hours := (past / hour_ms)%Z in
   ((24 * hour_ms <= past)%Z ->
    (1 <= days)%Z /\
    getTimeAgo date now =
    (number_to_string days ++ " day" ++ plural days ++ " ago")%string) /\
   ((hour_ms <= past < 24 * hour_ms)%Z ->
    (1 <= hours < 24)%Z /\
    getTimeAgo date now =
    (number_to_string hours ++ " hour" ++ plural hours ++ " ago")%string)).
Proof.
assert (Hh : (0 < hour_ms)%Z) by (unfold hour_ms; lia).
split.
- unfold getTimeAgo; rewrite hours_then_days.
  destruct (Z.lt_ge_cases (now - date) hour_ms) as [H | H].
  + assert (Hhours : ((now - date) / hour_ms <= 0)%Z).
    { assert ((now - date) / hour_ms < 1)%Z; [ | lia].
      apply Z.div_lt_upper_bound; lia. }
    assert (Hdays : ((now - date) / (24 * hour_ms) <= 0)%Z).
    { assert ((now - date) / (24 * hour_ms) < 1)%Z; [ | lia].
      apply Z.div_lt_upper_bound; lia. }
    destruct (Z.ltb_spec 0 ((now - date) / (24 * hour_ms))); [lia | ].
    destruct (Z.ltb_spec 0 ((now - date) / hour_ms)); [lia | ].
    tauto.
  + assert (Hhours : (1 <= (now - date) / hour_ms)%Z)
      by (apply Z.div_le_lower_bound; lia).
    split; [ | lia].
    intros E; exfalso; revert E.
    destruct (0 <? (now - date) / (24 * hour_ms))%Z;
      [apply counted_label_not_expired | ].
    destruct (Z.ltb_spec 0 ((now - date) / hour_ms)); [ | lia].
    apply counted_label_not_expired.
- cbv zeta; split.
  + intros H; unfold getTimeAgo; rewrite hours_then_days.
    assert (Hd : (1 <= (now - date) / (24 * hour_ms))%Z)
      by (apply Z.div_le_lower_bound; lia).
    split; [exact Hd | ].
    destruct (Z.ltb_spec 0 ((now - date) / (24 * hour_ms)));
      [reflexivity | lia].
  + intros [H1 H24]; unfold getTimeAgo; rewrite hours_then_days.
    assert (Hdiv : (1 <= (now - date) / hour_ms < 24)%Z).
    { split; [apply Z.div_le_lower_bound; lia
             | apply Z.div_lt_upper_bound; lia]. }
    split; [exact Hdiv | ].
    assert (Hz : ((now - date) / (24 * hour_ms) = 0)%Z)
      by (apply Z.div_small; lia).
    rewrite Hz; simpl.
    destruct (Z.ltb_spec 0 ((now - date) / hour_ms)); [reflexivity | lia].
Qed.

End TimeLabels.

Section TimeLabelWitnesses.

Import StatusTracker.

Lemma remaining_time_label_witness :
  getRemainingTime (Reports.expiry_at Scenario.scooter_row) 1000
  = "2 hours remaining"%string.
Proof.
destruct (remaining_time_label Scenario.scooter_row 1000)
  as [_ [_ [H _]]].
destruct H as [_ H]; [ | exact H].
unfold hour_ms; simpl; lia.
Defined.

Lemma time_ago_label_witness :
  getTimeAgo 1000 (1000 + 49 * hour_ms) = "2 days ago"%string.
Proof.
destruct (time_ago_label 1000 (1000 + 49 * hour_ms)) as [_ [H _]].
destruct H as [_ H]; [ | exact H].
unfold hour_ms; lia.
Defined.

End TimeLabelWitnesses.

Section Progress.

Import StatusTracker.
Local Open Scope R_scope.

Lemma clamp_bounds (x : R) : 0 <= Rmin 100 (Rmax 0 x) <= 100.
Proof.
unfold Rmin, Rmax.
destruct (Rle_dec 0 x); destruct (Rle_dec 100 _); lra.
Qed.

Lemma clamp_mono (x y : R) :
  x <= y -> Rmin 100 (Rmax 0 x) <= Rmin 100 (Rmax 0 y).
Proof.
intros H; unfold Rmin, Rmax.
destruct (Rle_dec 0 x); destruct (Rle_dec 0 y);
  repeat match goal with
         | |- context [Rle_dec ?a ?b] => destruct (Rle_dec a b)
         end; lra.
Qed.

Lemma ratio_mono (a b t : Z) :
  (0 < t)%Z -> (a <= b)%Z -> IZR a / IZR t * 100 <= IZR b / IZR t * 100.
Proof.
intros Ht Hab; apply IZR_lt in Ht; apply IZR_le in Hab.
assert (Hinv : 0 < / IZR t) by (apply Rinv_0_lt_compat; exact Ht).
unfold Rdiv; nra.
Qed.

(** X8.  For a report that expires after it was created, the progress
    bar's value is a number between 0 and 100 that never goes down as time
    passes; it is 0 up to the creation time and 100 from the expiry on.
    The value is NaN in one case only: creation, expiry and the clock all
    coincide. *)
Theorem progress_is_clamped (created expiry : Z) :
  ((created < expiry)%Z ->
   forall now1 now2, (now1 <= now2)%Z ->
     exists p1 p2,
       getProgressPercentage created expiry now1 = Some p1 /\
       getProgressPercentage created expiry now2 = Some p2 /\
       0 <= p1 /\ p1 <= p2 /\ p2 <= 100 /\
       ((now1 <= created)%Z -> p1 = 0) /\
       ((expiry <= now2)%Z -> p2 = 100)) /\
  (forall now,
     getProgressPercentage created expiry now = None <->
     created = expiry /\ now = created).
Proof.
split.
- intros Hlt now1 now2 Hnow; unfold getProgressPercentage.
  destruct (Z.eqb_spec (expiry - created) 0) as [E | E]; [lia | ].
  eexists; eexists; split; [reflexivity | split; [reflexivity | ]].
  assert (Ht : (0 < expiry - created)%Z) by lia.
  assert (HT := IZR_lt _ _ Ht).
  assert (Hinv : 0 < / IZR (expiry - created))
    by (apply Rinv_0_lt_compat; exact HT).
  split; [apply clamp_bounds | ].
  split; [apply clamp_mono, ratio_mono; lia | ].
  split; [apply clamp_bounds | ].
  split.
  + intros H.
    assert (Hx : IZR (now1 - created) / IZR (expiry - created) * 100 <= 0).
    { assert (He : (now1 - created <= 0)%Z) by lia.
      apply IZR_le in He; unfold Rdiv; nra. }
    unfold Rmin, Rmax.
    destruct (Rle_dec 0 _); destruct (Rle_dec 100 _); lra.
  + intros H.
    assert (Hx : 100 <= IZR (now2 - created) / IZR (expiry - created) * 100).
    { assert (He : (expiry - created <= now2 - created)%Z) by lia.
      apply IZR_le in He.
      assert (1 <= IZR (now2 - created) * / IZR (expiry - created)).
      { apply (Rmult_le_reg_r (IZR (expiry - created))); [exact HT | ].
        rewrite Rmult_assoc, Rinv_l by lra; lra. }
      unfold Rdiv; lra. }
    unfold Rmin, Rmax.
    destruct (Rle_dec 0 _); destruct (Rle_dec 100 _); lra.
- intros now; unfold getProgressPercentage.
  destruct (Z.eqb_spec (expiry - created) 0) as [E | E].
  + destruct (Z.eqb_spec (now - created) 0) as [E' | E'].
    * split; [intros _; lia | reflexivity].
    * destruct (0 <? now - created)%Z; split; try discriminate;
        intros [_ H]; lia.
  + split; [discriminate | intros [H _]; lia].
Qed.

Lemma progress_is_clamped_witness :
  exists p1 p2,
    getProgressPercentage 1000 (1000 + 2 * hour_ms) 1000 = Some p1 /\
    getProgressPercentage 1000 (1000 + 2 * hour_ms) (1000 + 3 * hour_ms)
      = Some p2 /\
    p1 = 0 /\ p2 = 100.
Proof.
destruct (progress_is_clamped 1000 (1000 + 2 * hour_ms)) as [H _].
destruct (H ltac:(unfold hour_ms; lia) 1000%Z (1000 + 3 * hour_ms)%Z
            ltac:(unfold hour_ms; lia))
  as [p1 [p2 [H1 [H2 [_ [_ [_ [H0 H100]]]]]]]].
exists p1, p2; repeat split; auto.
- apply H0; lia.
- apply H100; unfold hour_ms; lia.
Defined.

End Progress.

(** ** The alerts of the signed-in user *)

Section NotificationFacts.

Import LiveNotifications.

Lemma is_recipient_true (auth_uid : option UUID) (a : Alerts.row) :
  AlertsAccess.is_recipient auth_uid a = true <->
  auth_uid = Some (Alerts.recipient_user_id a).
Proof.
unfold AlertsAccess.is_recipient, uuid_eq; destruct auth_uid as [u |]; simpl.
- destruct (Z.eqb_spec u (Alerts.recipient_user_id a)); split; intros;
    congruence.
- split; intros; discriminate.
Qed.

Lemma firstn_In {A : Type} (k : nat) (l : list A) (x : A) :
  In x (firstn k l) -> In x l.
Proof.
intros H; rewrite <- (firstn_skipn k l); apply in_or_app; left; exact H.
Qed.

(** X9.  The alert list shows at most 10 alerts, newest first.  Each one
    is a stored alert addressed to the signed-in user, whom the store must
    know as the caller; and no alert of that user that is left out is later
    than one that is shown. *)
Theorem notifications_are_own_and_newest (uid : UUID) (q1 q2 : request)
  (s : store) (l : list Alerts.row) :
  notifications (loadNotifications (Some uid) q1 q2 s) = Some l ->
  (length l <= 10)%nat /\
  Listing.newest_first Alerts.created_at l /\
  (forall a, In a l ->
     In a (notification_alerts s) /\
     Alerts.recipient_user_id a = uid /\ req_uid q1 = Some uid) /\
  (forall a b,
     In a l -> In b (notification_alerts s) ->
     Alerts.recipient_user_id b = uid -> req_uid q1 = Some uid ->
     ~ In b l -> (Alerts.created_at b <= Alerts.created_at a)%Z).
Proof.
unfold loadNotifications.
destruct (req_lost q1); [discriminate | ].
remember 10%nat as k eqn:Hk.
set (mine := filter (fun a => Z.eqb (Alerts.recipient_user_id a) uid)
               (AlertsAccess.select (req_uid q1) (notification_alerts s))).
set (sorted := Listing.order_desc Alerts.created_at mine).
assert (Hl : forall l', notifications
               (if (0 <? length (firstn k sorted))%nat
                then if req_lost q2
                     then {| notifications := Some (firstn k sorted);
                             reports_by_id := None |}
                     else {| notifications := Some (firstn k sorted);
                             reports_by_id := l' |}
                else {| notifications := Some (firstn k sorted);
                        reports_by_id := None |})
             = Some (firstn k sorted)).
{ intros l'; destruct (0 <? _)%nat; [destruct (req_lost q2) | ];
    reflexivity. }
rewrite Hl; intros E; injection E as E; subst l; clear Hl.
assert (Hsorted : Listing.newest_first Alerts.created_at sorted)
  by apply order_desc_sorted.
assert (Hmine : forall a, In a sorted <->
          In a (notification_alerts s) /\
          req_uid q1 = Some (Alerts.recipient_user_id a) /\
          Alerts.recipient_user_id a = uid).
{ intros a; unfold sorted; rewrite order_desc_In; unfold mine.
  rewrite filter_In; unfold AlertsAccess.select; rewrite filter_In.
  rewrite is_recipient_true, Z.eqb_eq; tauto. }
split; [apply firstn_le_length | ].
split.
{ unfold Listing.newest_first in *.
  rewrite <- (firstn_skipn k sorted) in Hsorted.
  clear - Hsorted; induction (firstn k sorted) as [| x l IH];
    [constructor | ].
  simpl in Hsorted; inversion Hsorted as [| y ys Hs Hall]; subst.
  constructor; [apply IH; exact Hs | ].
  rewrite Forall_forall in *; intros b Hb; apply Hall.
  apply in_or_app; left; exact Hb. }
split.
- intros a Ha; apply firstn_In in Ha; apply Hmine in Ha.
  destruct Ha as [Hin [Hq Hu]]; rewrite Hu in Hq; auto.
- intros a b Ha Hb Hbu Hq Hnot.
  apply (sorted_firstn_skipn Alerts.created_at k sorted a b Hsorted Ha).
  assert (Hbs : In b sorted) by (apply Hmine; rewrite Hbu; auto).
  rewrite <- (firstn_skipn k sorted) in Hbs.
  apply in_app_or in Hbs; destruct Hbs as [Hbs | Hbs];
    [contradiction | exact Hbs].
Qed.

End NotificationFacts.

Section NotificationWitness.

Import LiveNotifications.

(** Bob has twelve alerts and Carol one: Bob is shown his ten latest, the
    latest first, and the two left out are his two earliest. *)
Lemma notifications_are_own_and_newest_witness :
  notifications (loadNotifications (Some Scenario.bob)
                   MoreScenario.bob_request MoreScenario.bob_request
                   MoreScenario.busy_store)
  = Some MoreScenario.inbox_shown /\
  (length MoreScenario.inbox_shown <= 10)%nat /\
  Listing.newest_first Alerts.created_at MoreScenario.inbox_shown /\
  (forall a, In a MoreScenario.inbox_shown ->
     In a (notification_alerts MoreScenario.busy_store) /\
     Alerts.recipient_user_id a = Scenario.bob /\
     req_uid MoreScenario.bob_request = Some Scenario.bob) /\
  (forall a b,
     In a MoreScenario.inbox_shown ->
     In b (notification_alerts MoreScenario.busy_store) ->
     Alerts.recipient_user_id b = Scenario.bob ->
     req_uid MoreScenario.bob_request = Some Scenario.bob ->
     ~ In b MoreScenario.inbox_shown ->
     (Alerts.created_at b <= Alerts.created_at a)%Z).
Proof.
assert (E : notifications (loadNotifications (Some Scenario.bob)
                             MoreScenario.bob_request
                             MoreScenario.bob_request
                             MoreScenario.busy_store)
            = Some MoreScenario.inbox_shown) by reflexivity.
split; [exact E | ].
exact (notifications_are_own_and_newest Scenario.bob
         MoreScenario.bob_request MoreScenario.bob_request
         MoreScenario.busy_store MoreScenario.inbox_shown E).
Defined.

Lemma reportMap_Some (data : list Report) :
  forall (m0 : UUID -> option Report) (k : UUID) (rep : Report),
    fold_left assign data m0 k = Some rep ->
    (In rep data /\ id rep = k) \/ m0 k = Some rep.
Proof.
induction data as [| x data IH]; simpl; intros m0 k rep H; [right; exact H | ].
apply IH in H; destruct H as [[Hin Hid] | H]; [left; auto | ].
unfold assign in H; destruct (Z.eqb_spec k (id x)) as [E | E].
- inversion H; subst rep; left; auto.
- right; exact H.
Qed.

Lemma reportMap_None (data : list Report) :
  forall (m0 : UUID -> option Report) (k : UUID),
    (forall rep, In rep data -> id rep <> k) ->
    fold_left assign data m0 k = m0 k.
Proof.
induction data as [| x data IH]; simpl; intros m0 k H; [reflexivity | ].
rewrite IH by (intros rep Hr; apply H; right; exact Hr).
unfold assign; destruct (Z.eqb_spec k (id x)) as [E | E]; [ | reflexivity].
exfalso; apply (H x); [left; reflexivity | congruence].
Qed.

(** X10.  The report entries loaded beside the alerts are keyed by their
    own [id]; each one is the projection of a stored report that has not
    expired on the store's clock and that one of the listed alerts
    references.  An alert whose report has expired therefore finds no
    entry. *)
Theorem report_entries_are_live (uid : UUID) (q1 q2 : request) (s : store)
  (m : UUID -> option Report) :
  reports_by_id (loadNotifications (Some uid) q1 q2 s) = Some m ->
  (forall k rep,
     m k = Some rep ->
     id rep = k /\
     exists r,
       In r (reports s) /\ rep = project r /\
       (req_now q2 < Reports.expiry_at r)%Z /\
       exists l a,
         notifications (loadNotifications (Some uid) q1 q2 s) = Some l /\
         In a l /\ Alerts.report_id a = k) /\
  (forall k,
     (forall r, In r (reports s) -> Reports.id r = k ->
                (Reports.expiry_at r <= req_now q2)%Z) ->
     m k = None).
Proof.
unfold loadNotifications.
destruct (req_lost q1); [discriminate | ].
remember 10%nat as lim eqn:Hlim.
set (l := firstn lim _).
destruct (0 <? length l)%nat; [ | discriminate].
destruct (req_lost q2); [discriminate | ].
cbn [reports_by_id notifications]; intros E; injection E as E; subst m.
split.
- intros k rep H; apply reportMap_Some in H.
  destruct H as [[Hin Hid] | H]; [ | discriminate].
  split; [exact Hid | ].
  apply in_map_iff in Hin; destruct Hin as [r [Hr Hin]].
  apply filter_In in Hin; destruct Hin as [Hsel Hmem].
  apply select_In in Hsel; destruct Hsel as [Hstored Hexp].
  exists r; repeat split; auto.
  unfold Reports.mem_uuid in Hmem; apply existsb_exists in Hmem.
  destruct Hmem as [i [Hi Heq]]; apply Z.eqb_eq in Heq.
  apply in_map_iff in Hi; destruct Hi as [a [Ha Hal]].
  exists l, a; repeat split; auto.
  subst rep; simpl in Hid; congruence.
- intros k Hk; unfold reportMap; rewrite reportMap_None; [reflexivity | ].
  intros rep Hin Hid.
  apply in_map_iff in Hin; destruct Hin as [r [Hr Hin]].
  apply filter_In in Hin; destruct Hin as [Hsel _].
  apply select_In in Hsel; destruct Hsel as [Hstored Hexp].
  subst rep; simpl in Hid; specialize (Hk r Hstored Hid); lia.
Qed.

Lemma report_entries_are_live_witness :
  exists m,
    reports_by_id
      (loadNotifications (Some Scenario.bob) MoreScenario.bob_request
         MoreScenario.bob_request Scenario.town_after) = Some m /\
    m 50%Z = Some (project Scenario.report_2km) /\
    (forall k rep,
       m k = Some rep ->
       id rep = k /\
       exists r,
         In r (reports Scenario.town_after) /\ rep = project r /\
         (req_now MoreScenario.bob_request < Reports.expiry_at r)%Z /\
         exists l a,
           notifications
             (loadNotifications (Some Scenario.bob) MoreScenario.bob_request
                MoreScenario.bob_request Scenario.town_after) = Some l /\
           In a l /\ Alerts.report_id a = k) /\
    m 51%Z = None.
Proof.
eexists; split; [reflexivity | ].
split; [reflexivity | ].
destruct (report_entries_are_live Scenario.bob MoreScenario.bob_request
            MoreScenario.bob_request Scenario.town_after _ eq_refl)
  as [Hlive Hnone].
split; [exact Hlive | ].
apply Hnone.
intros r [Hr | []] Hid; subst r; discriminate Hid.
Defined.

End NotificationWitness.

Section MarkAsRead.

Import LiveNotifications.

Lemma alerts_apply_update_In (auth_uid : option UUID) (now : timestamptz)
  (cond : Alerts.row -> bool) (set : Alerts.row -> Alerts.row)
  (t : list Alerts.row) (a' : Alerts.row) :
  In a' (AlertsAccess.apply_update auth_uid now cond set t) <->
  exists a, In a t /\
            a' = (if AlertsAccess.targeted auth_uid cond a
                  then AlertsAccess.new_version now set a else a).
Proof.
unfold AlertsAccess.apply_update; rewrite in_map_iff.
split; intros [a [H1 H2]]; exists a; auto.
Qed.

Lemma alerts_update_ok (auth_uid : option UUID) (now : timestamptz)
  (cond : Alerts.row -> bool) (set : Alerts.row -> Alerts.row)
  (t t' : list Alerts.row) :
  AlertsAccess.update auth_uid now cond set t = Ok t' ->
  t' = AlertsAccess.apply_update auth_uid now cond set t.
Proof.
unfold AlertsAccess.update.
destruct (forallb (AlertsAccess.is_recipient auth_uid) _); cbn [negb];
  [ | discriminate].
destruct (forallb Alerts.not_null _); cbn [negb]; [ | discriminate].
destruct (AlertsAccess.ids_unique _); cbn [negb]; [ | discriminate].
intros H; inversion H; reflexivity.
Qed.

(** Marking keeps, row by row, the report and the recipient. *)
Lemma recipients_of_marked (auth_uid : option UUID) (now : timestamptz)
  (cond : Alerts.row -> bool) (v : option timestamptz)
  (t : list Alerts.row) (report : UUID) :
  Alerts.recipients_of report
    (AlertsAccess.apply_update auth_uid now cond
       (AlertsAccess.set_read_at v) t) =
  Alerts.recipients_of report t.
Proof.
unfold Alerts.recipients_of, AlertsAccess.apply_update.
induction t as [| a t IH]; simpl; [reflexivity | ].
destruct (AlertsAccess.targeted auth_uid cond a); simpl;
  destruct (Z.eqb (Alerts.report_id a) report); simpl; rewrite IH;
  reflexivity.
Qed.

(** The store after [markAsRead]: the store before, or the store before
    with its alerts table replaced by the updated one. *)
Lemma markAsRead_store (notificationId : UUID) (q : request)
  (date1 date2 : timestamptz) (prev : list Alerts.row) (s : store) :
  snd (markAsRead notificationId q date1 date2 prev s) = s \/
  snd (markAsRead notificationId q date1 date2 prev s) =
  set_notification_alerts s
    (AlertsAccess.apply_update (req_uid q) (req_now q)
       (fun a => Z.eqb (Alerts.id a) notificationId)
       (AlertsAccess.set_read_at (Some date1)) (notification_alerts s)).
Proof.
unfold markAsRead.
destruct (req_lost q); [left; reflexivity | ].
destruct (AlertsAccess.update _ _ _ _ _) as [t | e] eqn:E;
  [ | left; reflexivity].
apply alerts_update_ok in E; subst t; right; reflexivity.
Qed.

(** X11.  [markAsRead] writes nothing but [read_at] and [updated_at], and
    only on alerts that carry the given id and are addressed to the caller:
    the other tables and the number of alerts stay as they were, every
    other alert stays in the table unchanged, and each report keeps its
    recipients, so that a store where no user has two alerts for one report
    still has none. *)
Theorem mark_as_read_touches_only_own_alert (notificationId : UUID)
  (q : request) (date1 date2 : timestamptz) (prev : list Alerts.row)
  (s : store) :
  let s' := snd (markAsRead notificationId q date1 date2 prev s) in
  (profiles s' = profiles s /\ reports s' = reports s /\
   confirmations s' = confirmations s /\ auth_users s' = auth_users s) /\
  length (notification_alerts s') = length (notification_alerts s) /\
  (forall report,
     Alerts.recipients_of report (notification_alerts s') =
     Alerts.recipients_of report (notification_alerts s)) /\
  (one_alert_per_recipient s -> one_alert_per_recipient s') /\
  (forall a,
     In a (notification_alerts s) ->
     Alerts.id a <> notificationId \/
     req_uid q <> Some (Alerts.recipient_user_id a) ->
     In a (notification_alerts s')) /\
  (forall a',
     In a' (notification_alerts s') ->
     In a' (notification_alerts s) \/
     exists a,
       In a (notification_alerts s) /\
       Alerts.id a = notificationId /\
       req_uid q = Some (Alerts.recipient_user_id a) /\
       a' = AlertsAccess.update_updated_at_column (req_now q)
              (AlertsAccess.set_read_at (Some date1) a)).
Proof.
cbv zeta.
destruct (markAsRead_store notificationId q date1 date2 prev s) as [E | E];
  rewrite E.
- repeat split; auto.
- cbn [profiles reports confirmations auth_users notification_alerts
       set_notification_alerts].
  assert (Hrec : forall report,
            Alerts.recipients_of report
              (AlertsAccess.apply_update (req_uid q) (req_now q)
                 (fun a => Z.eqb (Alerts.id a) notificationId)
                 (AlertsAccess.set_read_at (Some date1))
                 (notification_alerts s)) =
            Alerts.recipients_of report (notification_alerts s))
    by (intros; apply recipients_of_marked).
  split; [repeat split | ].
  split; [unfold AlertsAccess.apply_update; apply length_map | ].
  split; [exact Hrec | ].
  split.
  { intros Hone report; unfold one_alert_per_recipient in Hone; simpl.
    rewrite Hrec; apply Hone. }
  split.
  + intros a Ha Hother; apply alerts_apply_update_In; exists a.
    split; [exact Ha | ].
    unfold AlertsAccess.targeted.
    destruct (Z.eqb_spec (Alerts.id a) notificationId) as [Hid | Hid];
      [ | reflexivity].
    destruct (AlertsAccess.is_recipient (req_uid q) a) eqn:Hr;
      [ | reflexivity].
    apply is_recipient_true in Hr; destruct Hother; contradiction.
  + intros a' Ha'; apply alerts_apply_update_In in Ha'.
    destruct Ha' as [a [Ha Heq]].
    unfold AlertsAccess.targeted in Heq.
    destruct (Z.eqb_spec (Alerts.id a) notificationId) as [Hid | Hid];
      [ | left; subst a'; exact Ha].
    destruct (AlertsAccess.is_recipient (req_uid q) a) eqn:Hr;
      [ | left; subst a'; exact Ha].
    apply is_recipient_true in Hr; right; exists a; auto.
Qed.

(** Bob marks Alice's alert as read: the stored row takes the time the
    request carried, the local copy the later reading of the clock. *)
Example bob_marks_as_read :
  markAsRead 60%Z MoreScenario.bob_request 2100%Z 2101%Z
    [Scenario.alert_for_bob] Scenario.town_after =
  ([AlertsAccess.set_read_at (Some 2101%Z) Scenario.alert_for_bob],
   set_notification_alerts Scenario.town_after
     [MoreScenario.alert_read_by_bob]).
Proof. reflexivity. Qed.

End MarkAsRead.

(** ** Profiles *)

Section ProfileFacts.

Import ProfilesAccess.

Lemma profile_is_own_true (auth_uid : option UUID) (p : Profiles.row) :
  is_own auth_uid p = true <-> auth_uid = Some (Profiles.user_id p).
Proof.
unfold is_own, uuid_eq; destruct auth_uid as [u |]; simpl.
- destruct (Z.eqb_spec u (Profiles.user_id p)); split; intros; congruence.
- split; intros; discriminate.
Qed.

Lemma has_user_true (u : UUID) (t : list Profiles.row) :
  has_user u t = true <-> exists p, In p t /\ Profiles.user_id p = u.
Proof.
unfold has_user; rewrite existsb_exists.
split; intros [p [H1 H2]]; exists p; split; auto;
  apply Z.eqb_eq; exact H2.
Qed.

Lemma has_user_false (u : UUID) (t : list Profiles.row) :
  has_user u t = false <-> forall p, In p t -> Profiles.user_id p <> u.
Proof.
split.
- intros H p Hp Hu.
  assert (E : has_user u t = true) by (apply has_user_true; exists p; auto).
  congruence.
- intros H; apply not_true_is_false; intros E.
  apply has_user_true in E; destruct E as [p [Hp Hu]]; exact (H p Hp Hu).
Qed.

Lemma keys_unique_user_ids (t : list Profiles.row) :
  keys_unique t = true -> Profiles.user_id_unique t.
Proof.
unfold Profiles.user_id_unique; induction t as [| p t IH]; simpl;
  intros H; [constructor | ].
apply andb_prop in H; destruct H as [H Ht].
apply andb_prop in H; destruct H as [_ Hu].
constructor; [ | apply IH; exact Ht].
intros Hin; apply in_map_iff in Hin; destruct Hin as [x [Hx Hin]].
apply negb_true_iff in Hu.
apply (proj1 (has_user_false _ _) Hu x Hin Hx).
Qed.

Lemma has_id_map (f : Profiles.row -> Profiles.row) (i : UUID)
  (t : list Profiles.row) :
  (forall p, Profiles.id (f p) = Profiles.id p) ->
  has_id i (map f t) = has_id i t.
Proof.
intros Hf; unfold has_id; induction t as [| p t IH]; simpl;
  [reflexivity | rewrite Hf, IH; reflexivity].
Qed.

Lemma has_user_map (f : Profiles.row -> Profiles.row) (u : UUID)
  (t : list Profiles.row) :
  (forall p, Profiles.user_id (f p) = Profiles.user_id p) ->
  has_user u (map f t) = has_user u t.
Proof.
intros Hf; unfold has_user; induction t as [| p t IH]; simpl;
  [reflexivity | rewrite Hf, IH; reflexivity].
Qed.

(** Rewriting rows without touching [id] and [user_id] keeps the keys
    unique. *)
Lemma keys_unique_map (f : Profiles.row -> Profiles.row)
  (t : list Profiles.row) :
  (forall p, Profiles.id (f p) = Profiles.id p) ->
  (forall p, Profiles.user_id (f p) = Profiles.user_id p) ->
  keys_unique (map f t) = keys_unique t.
Proof.
intros Hid Hu; induction t as [| p t IH]; simpl; [reflexivity | ].
rewrite Hid, Hu, has_id_map, has_user_map, IH by assumption; reflexivity.
Qed.

Lemma keys_unique_app (t : list Profiles.row) (p : Profiles.row) :
  keys_unique t = true ->
  has_id (Profiles.id p) t = false ->
  has_user (Profiles.user_id p) t = false ->
  keys_unique (t ++ [p]) = true.
Proof.
induction t as [| x t IH]; simpl; intros Ht Hid Hu; [reflexivity | ].
apply andb_prop in Ht; destruct Ht as [Hx Ht].
apply andb_prop in Hx; destruct Hx as [Hxi Hxu].
apply orb_false_elim in Hid; destruct Hid as [Hid1 Hid2].
apply orb_false_elim in Hu; destruct Hu as [Hu1 Hu2].
rewrite IH by assumption.
unfold has_id, has_user in *; rewrite !existsb_app; simpl.
apply negb_true_iff in Hxi; apply negb_true_iff in Hxu.
rewrite Hxi, Hxu; simpl.
rewrite (Z.eqb_sym (Profiles.id p)), Hid1.
rewrite (Z.eqb_sym (Profiles.user_id p)), Hu1; reflexivity.
Qed.

Lemma profile_insert_ok (auth_uid : option UUID) (now : timestamptz)
  (fresh : UUID) (auth_users : list UUID) (t : list Profiles.row)
  (n : new_row) (p : Profiles.row) (t' : list Profiles.row) :
  insert auth_uid now fresh auth_users t n = Ok (p, t') ->
  p = with_defaults now fresh n /\ t' = t ++ [p] /\
  auth_uid = Some (n_user_id n) /\
  has_id (Profiles.id p) t = false /\
  has_user (Profiles.user_id p) t = false.
Proof.
unfold insert.
destruct (is_own auth_uid (with_defaults now fresh n)) eqn:Hown;
  cbn [negb]; [ | discriminate].
destruct (has_id _ t) eqn:Hid; [discriminate | ].
destruct (has_user _ t) eqn:Hu; [discriminate | ].
destruct (Reports.mem_uuid _ _); cbn [negb]; [ | discriminate].
intros H; inversion H; subst p t'.
apply profile_is_own_true in Hown; auto.
Qed.

Lemma filter_filter_same {A : Type} (f g : A -> bool) (l : list A) :
  (forall x, g x = true -> f x = true) ->
  filter f (filter g l) = filter g l.
Proof.
intros H; induction l as [| x l IH]; simpl; [reflexivity | ].
destruct (g x) eqn:E; [simpl; rewrite (H x E), IH; reflexivity | exact IH].
Qed.

(** With unique [user_id]s, selecting on the [user_id] of a stored row
    gives that row alone. *)
Lemma filter_unique_user (t : list Profiles.row) (p : Profiles.row) :
  Profiles.user_id_unique t -> In p t ->
  filter (fun x => Z.eqb (Profiles.user_id p) (Profiles.user_id x)) t = [p].
Proof.
unfold Profiles.user_id_unique; induction t as [| x t IH]; simpl;
  intros Hnd Hin; [contradiction | ].
inversion Hnd as [| y ys Hnotin Hnd']; subst.
destruct Hin as [Hin | Hin].
- subst x; rewrite Z.eqb_refl; f_equal.
  clear IH Hnd Hnd'; induction t as [| y t IH]; simpl; [reflexivity | ].
  destruct (Z.eqb_spec (Profiles.user_id p) (Profiles.user_id y)) as [E | E].
  + exfalso; apply Hnotin; left; congruence.
  + apply IH; intros H; apply Hnotin; right; exact H.
- destruct (Z.eqb_spec (Profiles.user_id p) (Profiles.user_id x)) as [E | E].
  + exfalso; apply Hnotin; rewrite <- E; apply in_map; exact Hin.
  + apply IH; assumption.
Qed.

End ProfileFacts.

Section FetchProfile.

Import ProfileSection.

Lemma or_string_nonempty (a b : string) :
  b <> ""%string -> or_string a b <> ""%string.
Proof. destruct a; simpl; intros H; [exact H | discriminate]. Qed.

(** The name given to a created profile is never empty. *)
Lemma userName_nonempty (c : closure) : userName c <> ""%string.
Proof.
unfold userName; apply or_string_nonempty, or_string_nonempty; discriminate.
Qed.

Lemma fetchProfile_cases (c : closure) (q1 q2 : request) (s : store) :
  snd (fetchProfile c q1 q2 s) = s \/
  exists p,
    ProfilesAccess.insert (req_uid q2) (req_now q2) (req_uuid q2)
      (auth_users s) (profiles s)
      {| ProfilesAccess.n_user_id := uid c;
         ProfilesAccess.n_name := userName c;
         ProfilesAccess.n_phone := None;
         ProfilesAccess.n_verified := false;
         ProfilesAccess.n_proof_url := None;
         ProfilesAccess.n_location := location_of c |}
    = Ok (p, profiles s ++ [p]) /\
    fetchProfile c q1 q2 s =
    (Some (project p), set_profiles s (profiles s ++ [p])).
Proof.
unfold fetchProfile.
destruct (req_lost q1); [left; reflexivity | ].
assert (Hcreate :
  snd (if req_lost q2 then (None, s)
       else match ProfilesAccess.insert (req_uid q2) (req_now q2)
                    (req_uuid q2) (auth_users s) (profiles s)
                    {| ProfilesAccess.n_user_id := uid c;
                       ProfilesAccess.n_name := userName c;
                       ProfilesAccess.n_phone := None;
                       ProfilesAccess.n_verified := false;
                       ProfilesAccess.n_proof_url := None;
                       ProfilesAccess.n_location := location_of c |} with
            | Ok (p, t) => (Some (project p), set_profiles s t)
            | Err _ => (None, s)
            end) = s \/
  exists p,
    ProfilesAccess.insert (req_uid q2) (req_now q2) (req_uuid q2)
      (auth_users s) (profiles s)
      {| ProfilesAccess.n_user_id := uid c;
         ProfilesAccess.n_name := userName c;
         ProfilesAccess.n_phone := None;
         ProfilesAccess.n_verified := false;
         ProfilesAccess.n_proof_url := None;
         ProfilesAccess.n_location := location_of c |}
    = Ok (p, profiles s ++ [p]) /\
    (if req_lost q2 then (None, s)
     else match ProfilesAccess.insert (req_uid q2) (req_now q2)
                  (req_uuid q2) (auth_users s) (profiles s)
                  {| ProfilesAccess.n_user_id := uid c;
                     ProfilesAccess.n_name := userName c;
                     ProfilesAccess.n_phone := None;
                     ProfilesAccess.n_verified := false;
                     ProfilesAccess.n_proof_url := None;
                     ProfilesAccess.n_location := location_of c |} with
          | Ok (p, t) => (Some (project p), set_profiles s t)
          | Err _ => (None, s)
          end) = (Some (project p), set_profiles s (profiles s ++ [p]))).
{ destruct (req_lost q2); [left; reflexivity | ].
  destruct (ProfilesAccess.insert _ _ _ _ _ _) as [[p t] | e] eqn:E;
    [ | left; reflexivity].
  destruct (profile_insert_ok _ _ _ _ _ _ _ _ E) as [_ [Ht _]]; subst t.
  right; exists p; split; reflexivity. }
destruct (filter _ _) as [| p [| p2 rest]];
  [exact Hcreate | left; reflexivity | exact Hcreate].
Qed.

(** X12.  On a [profiles] table with unique keys, [fetchProfile] leaves
    the keys unique and the other tables alone, and adds at most one row: a
    profile for the caller, who had none, with a name that is not empty,
    not verified, without phone.  When the caller's profile is stored, it is
    what the section shows and nothing is written. *)
Theorem fetch_profile_creates_at_most_one (c : closure) (q1 q2 : request)
  (s : store) :
  ProfilesAccess.keys_unique (profiles s) = true ->
  let r := fetchProfile c q1 q2 s in
  ProfilesAccess.keys_unique (profiles (snd r)) = true /\
  Profiles.user_id_unique (profiles (snd r)) /\
  (reports (snd r) = reports s /\
   notification_alerts (snd r) = notification_alerts s /\
   confirmations (snd r) = confirmations s /\
   auth_users (snd r) = auth_users s) /\
  (profiles (snd r) = profiles s \/
   exists p,
     profiles (snd r) = profiles s ++ [p] /\
     fst r = Some (project p) /\
     req_uid q2 = Some (uid c) /\
     ProfilesAccess.has_user (uid c) (profiles s) = false /\
     Profiles.user_id p = uid c /\
     Profiles.name p = userName c /\ Profiles.name p <> ""%string /\
     Profiles.verified p = false /\ Profiles.phone p = None /\
     Profiles.location p = location_of c) /\
  (forall p,
     In p (profiles s) -> Profiles.user_id p = uid c ->
     req_uid q1 = Some (uid c) -> req_lost q1 = false ->
     r = (Some (project p), s)).
Proof.
intros Hkeys; cbv zeta.
assert (Hmain :
  ProfilesAccess.keys_unique (profiles (snd (fetchProfile c q1 q2 s)))
    = true /\
  (reports (snd (fetchProfile c q1 q2 s)) = reports s /\
   notification_alerts (snd (fetchProfile c q1 q2 s))
     = notification_alerts s /\
   confirmations (snd (fetchProfile c q1 q2 s)) = confirmations s /\
   auth_users (snd (fetchProfile c q1 q2 s)) = auth_users s) /\
  (profiles (snd (fetchProfile c q1 q2 s)) = profiles s \/
   exists p,
     profiles (snd (fetchProfile c q1 q2 s)) = profiles s ++ [p] /\
     fst (fetchProfile c q1 q2 s) = Some (project p) /\
     req_uid q2 = Some (uid c) /\
     ProfilesAccess.has_user (uid c) (profiles s) = false /\
     Profiles.user_id p = uid c /\
     Profiles.name p = userName c /\ Profiles.name p <> ""%string /\
     Profiles.verified p = false /\ Profiles.phone p = None /\
     Profiles.location p = location_of c)).
{ destruct (fetchProfile_cases c q1 q2 s) as [E | [p [Hins E]]]; rewrite E.
  - split; [exact Hkeys | ]; split; [repeat split | left; reflexivity].
  - apply profile_insert_ok in Hins.
    destruct Hins as [Hp [_ [Hauth [Hid Hu]]]]; simpl in Hauth.
    cbn [snd fst profiles reports notification_alerts confirmations
         auth_users set_profiles].
    split; [apply keys_unique_app; assumption | ].
    split; [repeat split | ].
    right; exists p.
    assert (Hup : Profiles.user_id p = uid c) by (subst p; reflexivity).
    rewrite Hup in Hu.
    repeat split; auto; try (subst p; reflexivity).
    subst p; simpl; apply userName_nonempty. }
destruct Hmain as [Hk [Hothers Hadd]].
split; [exact Hk | ].
split; [apply keys_unique_user_ids; exact Hk | ].
split; [exact Hothers | ].
split; [exact Hadd | ].
intros p Hin Hu Hq Hlost; unfold fetchProfile; rewrite Hlost, Hq.
unfold ProfilesAccess.select.
rewrite (filter_ext (ProfilesAccess.is_own (Some (uid c)))
           (fun x => Z.eqb (Profiles.user_id p) (Profiles.user_id x))).
2:{ intros x; unfold ProfilesAccess.is_own, uuid_eq; simpl; rewrite Hu.
    destruct (Z.eqb (uid c) (Profiles.user_id x)); reflexivity. }
rewrite (filter_ext (fun x => Z.eqb (Profiles.user_id x) (uid c))
           (fun x => Z.eqb (Profiles.user_id p) (Profiles.user_id x))).
2:{ intros x; rewrite Hu; apply Z.eqb_sym. }
rewrite filter_filter_same by auto.
rewrite filter_unique_user;
  [reflexivity | apply keys_unique_user_ids; exact Hkeys | exact Hin].
Qed.

Lemma fetch_profile_creates_at_most_one_witness :
  exists p,
    profiles (snd (fetchProfile MoreScenario.alice_section
                     MoreScenario.alice_request MoreScenario.alice_request
                     Scenario.empty_store))
    = profiles Scenario.empty_store ++ [p] /\
    Profiles.name p = "alice"%string.
Proof.
destruct (fetch_profile_creates_at_most_one MoreScenario.alice_section
            MoreScenario.alice_request MoreScenario.alice_request
            Scenario.empty_store eq_refl) as [_ [_ [_ [H _]]]].
destruct H as [H | [p [Hp [_ [_ [_ [_ [Hn _]]]]]]]].
- exfalso; revert H; discriminate.
- exists p; split; [exact Hp | rewrite Hn; reflexivity].
Defined.

End FetchProfile.

Section UpdateLocation.

Import ProfileSection.

Lemma profile_apply_update_keys (auth_uid : option UUID)
  (now : timestamptz) (cond : Profiles.row -> bool)
  (loc : option geography) (t : list Profiles.row) :
  ProfilesAccess.keys_unique
    (ProfilesAccess.apply_update auth_uid now cond
       (ProfilesAccess.set_location loc) t) =
  ProfilesAccess.keys_unique t.
Proof.
unfold ProfilesAccess.apply_update; apply keys_unique_map; intros p;
  destruct (ProfilesAccess.targeted auth_uid cond p); reflexivity.
Qed.

(** On a table with unique keys an update of [location] alone is never
    refused. *)
Lemma update_location_ok (auth_uid : option UUID) (now : timestamptz)
  (auth_users : list UUID) (cond : Profiles.row -> bool)
  (loc : option geography) (t : list Profiles.row) :
  ProfilesAccess.keys_unique t = true ->
  ProfilesAccess.update auth_uid now auth_users cond
    (ProfilesAccess.set_location loc) t =
  Ok (ProfilesAccess.apply_update auth_uid now cond
        (ProfilesAccess.set_location loc) t).
Proof.
intros Hkeys; unfold ProfilesAccess.update.
assert (H1 : forallb (ProfilesAccess.is_own auth_uid)
               (map (ProfilesAccess.new_version now
                       (ProfilesAccess.set_location loc))
                  (filter (ProfilesAccess.targeted auth_uid cond) t))
             = true).
{ apply forallb_forall; intros p' Hp'.
  apply in_map_iff in Hp'; destruct Hp' as [p [Hp Hin]].
  apply filter_In in Hin; destruct Hin as [_ Ht].
  unfold ProfilesAccess.targeted in Ht; apply andb_prop in Ht.
  subst p'; exact (proj2 Ht). }
rewrite H1; cbn [negb].
rewrite profile_apply_update_keys, Hkeys; cbn [negb].
assert (H2 : forallb
               (fun OLD =>
                  Z.eqb (Profiles.user_id
                           (ProfilesAccess.new_version now
                              (ProfilesAccess.set_location loc) OLD))
                        (Profiles.user_id OLD) ||
                  Reports.mem_uuid
                    (Profiles.user_id
                       (ProfilesAccess.new_version now
                          (ProfilesAccess.set_location loc) OLD))
                    auth_users)
               (filter (ProfilesAccess.targeted auth_uid cond) t) = true).
{ apply forallb_forall; intros p _; simpl; rewrite Z.eqb_refl; reflexivity. }
rewrite H2; reflexivity.
Qed.

(** X13.  On a [profiles] table with unique keys: without coordinates
    [updateLocation] sends nothing; with coordinates, and a request that
    reaches the store, it always ends in the success toast, also when the
    caller has no profile row, in which case nothing is written.  Rows of
    other users, and every row when the session is not the user's, remain in
    the table as they were; the rows it rewrites are the caller's, and carry
    the point of the browser's coordinates; the keys stay unique. *)
Theorem update_location_moves_only_caller (c : closure) (q : request)
  (s : store) :
  ProfilesAccess.keys_unique (profiles s) = true ->
  let r := updateLocation c q s in
  (falsy_number (latitude c) || falsy_number (longitude c) = true ->
   r = (LocationError, s)) /\
  (forall lat lon,
     latitude c = Some lat -> lat <> 0%R ->
     longitude c = Some lon -> lon <> 0%R ->
     req_lost q = false ->
     fst r = UpdateSuccess /\
     ProfilesAccess.keys_unique (profiles (snd r)) = true /\
     length (profiles (snd r)) = length (profiles s) /\
     (ProfilesAccess.has_user (uid c) (profiles s) = false ->
      profiles (snd r) = profiles s) /\
     (forall p,
        In p (profiles s) ->
        Profiles.user_id p <> uid c \/ req_uid q <> Some (uid c) ->
        In p (profiles (snd r))) /\
     (forall p',
        In p' (profiles (snd r)) ->
        In p' (profiles s) \/
        (Profiles.user_id p' = uid c /\ req_uid q = Some (uid c) /\
         Profiles.location p' = Some (point lon lat) /\
         Profiles.updated_at p' = req_now q))) /\
  (fst r <> UpdateSuccess -> snd r = s).
Proof.
intros Hkeys; cbv zeta; split; [ | split].
- intros H; unfold updateLocation; rewrite H; reflexivity.
- intros lat lon Hlat Hlat0 Hlon Hlon0 Hlost; unfold updateLocation.
  rewrite Hlat, Hlon, !falsy_number_false by assumption; cbn [orb].
  rewrite Hlost, update_location_ok by exact Hkeys.
  cbn [fst snd profiles set_profiles].
  split; [reflexivity | ].
  split; [rewrite profile_apply_update_keys; exact Hkeys | ].
  split; [unfold ProfilesAccess.apply_update; apply length_map | ].
  split; [ | split].
  + intros Hnone; unfold ProfilesAccess.apply_update.
    rewrite <- (map_id (profiles s)) at 2; apply map_ext_in.
    intros p Hp; unfold ProfilesAccess.targeted.
    destruct (Z.eqb_spec (Profiles.user_id p) (uid c)) as [E | E];
      [ | reflexivity].
    exfalso; exact (proj1 (has_user_false _ _) Hnone p Hp E).
  + intros p Hp Hother; unfold ProfilesAccess.apply_update.
    apply in_map_iff; exists p; split; [ | exact Hp].
    unfold ProfilesAccess.targeted.
    destruct (Z.eqb_spec (Profiles.user_id p) (uid c)) as [E | E];
      [ | reflexivity].
    destruct (ProfilesAccess.is_own (req_uid q) p) eqn:Hown;
      [ | reflexivity].
    apply profile_is_own_true in Hown; rewrite E in Hown.
    destruct Hother; contradiction.
  + intros p' Hp'; unfold ProfilesAccess.apply_update in Hp'.
    apply in_map_iff in Hp'; destruct Hp' as [p [Heq Hp]].
    unfold ProfilesAccess.targeted in Heq.
    destruct (Z.eqb_spec (Profiles.user_id p) (uid c)) as [E | E];
      [ | left; subst p'; exact Hp].
    destruct (ProfilesAccess.is_own (req_uid q) p) eqn:Hown;
      [ | left; subst p'; exact Hp].
    apply profile_is_own_true in Hown; rewrite E in Hown.
    right; subst p'; simpl; auto.
- unfold updateLocation.
  destruct (falsy_number (latitude c) || falsy_number (longitude c));
    [reflexivity | ].
  destruct (latitude c); [ | reflexivity].
  destruct (longitude c); [ | reflexivity].
  destruct (req_lost q); [reflexivity | ].
  rewrite update_location_ok by exact Hkeys.
  intros H; exfalso; apply H; reflexivity.
Qed.

Lemma update_location_moves_only_caller_witness :
  fst (updateLocation MoreScenario.alice_section MoreScenario.alice_request
         Scenario.empty_store) = UpdateSuccess /\
  profiles (snd (updateLocation MoreScenario.alice_section
                   MoreScenario.alice_request Scenario.empty_store))
  = profiles Scenario.empty_store.
Proof.
destruct (update_location_moves_only_caller MoreScenario.alice_section
            MoreScenario.alice_request Scenario.empty_store eq_refl)
  as [_ [H _]].
destruct (H 12.9%R 77.6%R eq_refl ltac:(lra) eq_refl ltac:(lra) eq_refl)
  as [H1 [_ [_ [H2 _]]]].
split; [exact H1 | apply H2; reflexivity].
Defined.

End UpdateLocation.

Section AuthTriggerFacts.

Import AuthTrigger.

(** X14.  The sign-in trigger, on a [profiles] table with unique keys.
    Without a name in the metadata and without an email it fails, whatever
    the table holds.  When it succeeds the keys are still unique and the
    user has a profile; profiles of other users are kept as they were; for
    a user who had a profile no row is added, and the row keeps its [id],
    location, verification, phone, token and proof, only [name] and
    [updated_at] being written; for a user who had none exactly one row is
    added, unverified and without location. *)
Theorem sign_in_keeps_profile (now : timestamptz) (fresh : UUID)
  (NEW_id : UUID) (meta_name email : option text) (t : list Profiles.row) :
  ProfilesAccess.keys_unique t = true ->
  (meta_name = None -> email = None ->
   handle_user_profile now fresh NEW_id meta_name email t
   = Err ValidationError) /\
  (forall t',
     handle_user_profile now fresh NEW_id meta_name email t = Ok t' ->
     ProfilesAccess.keys_unique t' = true /\
     ProfilesAccess.has_user NEW_id t' = true /\
     (forall p, In p t -> Profiles.user_id p <> NEW_id -> In p t') /\
     (ProfilesAccess.has_user NEW_id t = true ->
      length t' = length t /\
      forall p', In p' t' -> Profiles.user_id p' = NEW_id ->
        exists p,
          In p t /\ Profiles.id p' = Profiles.id p /\
          Profiles.location p' = Profiles.location p /\
          Profiles.verified p' = Profiles.verified p /\
          Profiles.phone p' = Profiles.phone p /\
          Profiles.fcm_token p' = Profiles.fcm_token p /\
          Profiles.proof_url p' = Profiles.proof_url p /\
          Profiles.created_at p' = Profiles.created_at p /\
          Some (Profiles.name p') = coalesce meta_name email) /\
     (ProfilesAccess.has_user NEW_id t = false ->
      exists p',
        t' = t ++ [p'] /\ Profiles.user_id p' = NEW_id /\
        Profiles.verified p' = false /\ Profiles.location p' = None /\
        Some (Profiles.name p') = coalesce meta_name email)).
Proof.
intros Hkeys; split.
- intros -> ->; reflexivity.
- intros t'; unfold handle_user_profile.
  destruct (coalesce meta_name email) as [nm |]; [ | discriminate].
  destruct (ProfilesAccess.has_user NEW_id t) eqn:Hhas.
  + intros H; inversion H; clear H.
    set (f := fun p : Profiles.row =>
                if Z.eqb (Profiles.user_id p) NEW_id
                then ProfilesAccess.update_profile_location now
                       (ProfilesAccess.set_name nm now p)
                else p).
    assert (Hid : forall p, Profiles.id (f p) = Profiles.id p)
      by (intros p; unfold f; destruct (Z.eqb _ _); reflexivity).
    assert (Hu : forall p, Profiles.user_id (f p) = Profiles.user_id p)
      by (intros p; unfold f; destruct (Z.eqb _ _); reflexivity).
    split; [rewrite keys_unique_map; assumption | ].
    split; [rewrite has_user_map; assumption | ].
    split.
    { intros p Hp Hne; apply in_map_iff; exists p; split; [ | exact Hp].
      unfold f; destruct (Z.eqb_spec (Profiles.user_id p) NEW_id);
        [contradiction | reflexivity]. }
    split; [ | discriminate].
    intros _; split; [apply length_map | ].
    intros p' Hp' Hup'; apply in_map_iff in Hp'.
    destruct Hp' as [p [Hfp Hp]]; exists p; split; [exact Hp | ].
    subst p'; rewrite Hu in Hup'; unfold f.
    destruct (Z.eqb_spec (Profiles.user_id p) NEW_id);
      [ | contradiction].
    repeat split.
  + destruct (ProfilesAccess.has_id fresh t) eqn:Hfresh; [discriminate | ].
    intros H; inversion H; clear H.
    split; [apply keys_unique_app; assumption | ].
    split.
    { unfold ProfilesAccess.has_user; rewrite existsb_app; simpl.
      rewrite Z.eqb_refl, orb_true_r; reflexivity. }
    split; [intros p Hp _; apply in_or_app; left; exact Hp | ].
    split; [discriminate | ].
    intros _; eexists; repeat split.
Qed.

Lemma sign_in_keeps_profile_witness :
  handle_user_profile 900%Z 41%Z Scenario.alice None None
    (profiles Scenario.empty_store) = Err ValidationError /\
  exists t',
    handle_user_profile 900%Z 41%Z Scenario.bob (Some "Bob"%string) None
      (profiles Scenario.empty_store) = Ok t' /\
    length t' = length (profiles Scenario.empty_store).
Proof.
split.
- apply (sign_in_keeps_profile 900%Z 41%Z Scenario.alice None None
           (profiles Scenario.empty_store) eq_refl); reflexivity.
- eexists; split; [reflexivity | ].
  destruct (sign_in_keeps_profile 900%Z 41%Z Scenario.bob
              (Some "Bob"%string) None (profiles Scenario.empty_store)
              eq_refl) as [_ H].
  destruct (H _ eq_refl) as [_ [_ [_ [Hsame _]]]].
  apply Hsame; reflexivity.
Defined.

End AuthTriggerFacts.

(** ** Badges, counters and the reports of the signed-in user *)

Section DisplayFacts.

Lemma status_not_active (t : list Reports.row) (r : Reports.row) :
  status_valid t -> In r t ->
  String.eqb (Reports.status r) "active" = false /\
  String.eqb (Reports.status r) "found" = false /\
  String.eqb (Reports.status r) "resolved" = false.
Proof.
intros Hv Hin; destruct (Hv r Hin) as [E | [E | E]]; rewrite E;
  repeat split.
Qed.

(** X15.  On a [reports] table that satisfies the status [CHECK], the live
    map counts no "active" and no "found" report among those it lists, and
    gives every listed report the badge colour of the [default] branch:
    the statuses its [switch] names are never stored. *)
Theorem live_map_never_counts_active (w : world) (s : store)
  (l : list Reports.row) :
  status_valid (reports s) ->
  LiveTheftMap.loadReports w s = Some l ->
  LiveTheftMapView.activeReports l = [] /\
  LiveTheftMapView.foundReports l = [] /\
  (forall r, In r l ->
     LiveTheftMapView.getStatusColor (Reports.status r) = "outline"%string).
Proof.
intros Hv Hl.
assert (Hin : forall r, In r l -> In r (reports s)).
{ intros r Hr; apply (LiveTheftMap_loadReports_In w s l r Hl) in Hr; tauto. }
assert (Hnone : forall (q : Reports.row -> bool),
          (forall r, In r l -> q r = false) -> filter q l = []).
{ intros q Hq; clear Hl Hin; induction l as [| x l IH]; simpl;
    [reflexivity | ].
  rewrite (Hq x (or_introl eq_refl)); apply IH.
  intros r Hr; apply Hq; right; exact Hr. }
split; [ | split].
- apply Hnone; intros r Hr.
  exact (proj1 (status_not_active _ r Hv (Hin r Hr))).
- apply Hnone; intros r Hr.
  exact (proj1 (proj2 (status_not_active _ r Hv (Hin r Hr)))).
- intros r Hr; unfold LiveTheftMapView.getStatusColor.
  destruct (status_not_active _ r Hv (Hin r Hr)) as [H1 [H2 H3]].
  rewrite H1, H2, H3; reflexivity.
Qed.

Lemma live_map_never_counts_active_witness :
  LiveTheftMapView.activeReports [Scenario.scooter_row] = [] /\
  LiveTheftMapView.foundReports [Scenario.scooter_row] = [].
Proof.
destruct (live_map_never_counts_active Scenario.one_hour_later
            Scenario.store_with_scooter [Scenario.scooter_row])
  as [H1 [H2 _]].
- intros r [Hr | []]; subst r; left; reflexivity.
- reflexivity.
- split; [exact H1 | exact H2].
Defined.

End DisplayFacts.

Section OwnReports.

Import UserReports.

Lemma loadUserReports_shown (uid : UUID) (q1 q2 : request) (s : store)
  (l : list Reports.row) :
  reports_shown (loadUserReports (Some uid) q1 q2 s) = Some l ->
  l = Listing.order_desc Reports.created_at
        (filter (fun r => Z.eqb (Reports.user_id r) uid)
           (Reports.select (req_now q1) (reports s))).
Proof.
unfold loadUserReports.
destruct (req_lost q1); [discriminate | ].
destruct (0 <? _)%nat; [destruct (req_lost q2) | ];
  cbn [reports_shown]; intros E; injection E as E; auto.
Qed.

(** X16.  The status tracker lists, newest first, exactly the stored
    reports of the signed-in user that have not expired on the store's
    clock; an expired report of the user is not listed at all.  Hence, drawn
    on a browser clock that is not ahead of the store's, no listed card says
    "Expired" and every card shows the stored status. *)
Theorem own_reports_listed_until_expiry (uid : UUID) (q1 q2 : request)
  (s : store) (l : list Reports.row) :
  reports_shown (loadUserReports (Some uid) q1 q2 s) = Some l ->
  Listing.newest_first Reports.created_at l /\
  (forall r,
     In r l <->
     In r (reports s) /\ Reports.user_id r = uid /\
     (req_now q1 < Reports.expiry_at r)%Z) /\
  (forall r now,
     In r l -> (now <= req_now q1)%Z ->
     StatusTracker.getRemainingTime (Reports.expiry_at r) now
       <> "Expired"%string /\
     StatusTracker.currentStatus r now = Reports.status r).
Proof.
intros H; apply loadUserReports_shown in H; subst l.
assert (Hchar : forall r,
  In r (Listing.order_desc Reports.created_at
          (filter (fun r => Z.eqb (Reports.user_id r) uid)
             (Reports.select (req_now q1) (reports s)))) <->
  In r (reports s) /\ Reports.user_id r = uid /\
  (req_now q1 < Reports.expiry_at r)%Z).
{ intros r; rewrite order_desc_In, filter_In, select_In, Z.eqb_eq; tauto. }
split; [apply order_desc_sorted | ].
split; [exact Hchar | ].
intros r now Hr Hnow; apply Hchar in Hr; destruct Hr as [_ [_ Hexp]].
split.
- intros E; apply getRemainingTime_expired in E; lia.
- unfold StatusTracker.currentStatus, StatusTracker.isExpired.
  destruct (Z.ltb_spec (Reports.expiry_at r) now); [lia | reflexivity].
Qed.

(** Three hours after her first report Alice is shown her car and her
    bike, the car first; her scooter has expired and the laptop is Bob's. *)
Lemma own_reports_listed_until_expiry_witness :
  reports_shown (loadUserReports (Some Scenario.alice)
                   MoreScenario.alice_later MoreScenario.alice_later
                   MoreScenario.busy_store)
  = Some [MoreScenario.car_row; MoreScenario.bike_row] /\
  Listing.newest_first Reports.created_at
    [MoreScenario.car_row; MoreScenario.bike_row] /\
  (forall r,
     In r [MoreScenario.car_row; MoreScenario.bike_row] <->
     In r (reports MoreScenario.busy_store) /\
     Reports.user_id r = Scenario.alice /\
     (req_now MoreScenario.alice_later < Reports.expiry_at r)%Z) /\
  (forall r now,
     In r [MoreScenario.car_row; MoreScenario.bike_row] ->
     (now <= req_now MoreScenario.alice_later)%Z ->
     StatusTracker.getRemainingTime (Reports.expiry_at r) now
       <> "Expired"%string /\
     StatusTracker.currentStatus r now = Reports.status r).
Proof.
assert (E : reports_shown (loadUserReports (Some Scenario.alice)
                             MoreScenario.alice_later
                             MoreScenario.alice_later
                             MoreScenario.busy_store)
            = Some [MoreScenario.car_row; MoreScenario.bike_row])
  by reflexivity.
split; [exact E | ].
exact (own_reports_listed_until_expiry Scenario.alice
         MoreScenario.alice_later MoreScenario.alice_later
         MoreScenario.busy_store _ E).
Defined.

(** X17.  Every confirmation the status tracker groups under a report is
    a stored confirmation of that report, and the report is stored and not
    expired.  On a [confirmations] table that satisfies the type [CHECK]
    the "Found Reports" counter is 0 for every report: the type it counts
    is never stored. *)
Theorem found_counter_is_zero (uid : UUID) (q1 q2 : request) (s : store)
  (g : UUID -> list Confirmations.row) :
  confirmation_types_valid (confirmations s) ->
  confirmations_by_report (loadUserReports (Some uid) q1 q2 s) = Some g ->
  forall report,
    StatusTracker.found_reports (g report) = 0%nat /\
    (StatusTracker.sightings (g report)
     <= StatusTracker.total_alerts (g report))%nat /\
    (forall c, In c (g report) ->
       In c (confirmations s) /\ Confirmations.report_id c = report /\
       exists r, In r (reports s) /\ Reports.id r = report /\
                 (req_now q2 < Reports.expiry_at r)%Z).
Proof.
intros Hv; unfold loadUserReports.
destruct (req_lost q1); [discriminate | ].
destruct (0 <? _)%nat; [ | discriminate].
destruct (req_lost q2); [discriminate | ].
cbn [confirmations_by_report]; intros E; injection E as E; subst g.
intros report.
assert (Hin : forall c,
  In c (filter (fun c => Z.eqb (Confirmations.report_id c) report)
          (Listing.order_desc Confirmations.created_at
             (filter (fun c => Reports.mem_uuid (Confirmations.report_id c)
                                 (map Reports.id
                                    (Listing.order_desc Reports.created_at
                                       (filter (fun r => Z.eqb
                                                  (Reports.user_id r) uid)
                                          (Reports.select (req_now q1)
                                             (reports s))))))
                (ConfirmationsAccess.select (req_now q2) (reports s)
                   (confirmations s))))) ->
  In c (confirmations s) /\ Confirmations.report_id c = report /\
  exists r, In r (reports s) /\ Reports.id r = report /\
            (req_now q2 < Reports.expiry_at r)%Z).
{ intros c Hc; apply filter_In in Hc; destruct Hc as [Hc Hrep].
  apply Z.eqb_eq in Hrep.
  apply order_desc_In in Hc; apply filter_In in Hc; destruct Hc as [Hc _].
  unfold ConfirmationsAccess.select in Hc; apply filter_In in Hc.
  destruct Hc as [Hstored Hview].
  split; [exact Hstored | split; [exact Hrep | ]].
  unfold ConfirmationsAccess.can_view in Hview.
  apply existsb_exists in Hview; destruct Hview as [r [Hr Hcond]].
  apply select_In in Hr; destruct Hr as [Hr _].
  apply andb_prop in Hcond; destruct Hcond as [Hid Hexp].
  apply Z.eqb_eq in Hid; apply Z.ltb_lt in Hexp.
  exists r; repeat split; auto; congruence. }
split; [ | split; [ | exact Hin]].
- unfold StatusTracker.found_reports.
  match goal with |- length (filter ?q ?l) = 0%nat =>
    assert (Hnone : filter q l = []); [ | rewrite Hnone; reflexivity]
  end.
  match goal with |- filter ?q ?l = [] =>
    assert (Hq : forall c, In c l -> q c = false)
  end.
  { intros c Hc; destruct (Hin c Hc) as [Hstored _].
    specialize (Hv c Hstored); unfold Confirmations.type_check in Hv.
    unfold text_in in Hv; simpl in Hv.
    repeat (apply orb_prop in Hv; destruct Hv as [Hv | Hv]);
      try discriminate; apply String.eqb_eq in Hv; rewrite Hv;
      reflexivity. }
  revert Hq; clear.
  match goal with |- _ -> filter ?q ?l = [] => generalize l end.
  intros l Hq; induction l as [| x l IH]; simpl; [reflexivity | ].
  rewrite (Hq x (or_introl eq_refl)); apply IH.
  intros c Hc; apply Hq; right; exact Hc.
- unfold StatusTracker.sightings, StatusTracker.total_alerts.
  apply filter_length_le.
Qed.

End OwnReports.

Section OwnReportsWitness.

Import UserReports.

Lemma found_counter_is_zero_witness :
  exists g,
    confirmations_by_report
      (loadUserReports (Some Scenario.alice) MoreScenario.bob_request
         MoreScenario.bob_request MoreScenario.store_with_sighting)
    = Some g /\
    StatusTracker.found_reports (g 50%Z) = 0%nat.
Proof.
eexists; split; [reflexivity | ].
eapply (found_counter_is_zero Scenario.alice MoreScenario.bob_request
          MoreScenario.bob_request MoreScenario.store_with_sighting).
- intros c [Hc | []]; subst c; reflexivity.
- reflexivity.
Defined.

End OwnReportsWitness.

(** ** Invariants of [confirmations] *)

Section ConfirmationInvariants.

Import Confirmations.

Lemma has_pair_false (report user : UUID) (t : list row) :
  has_pair report user t = false ->
  ~ In (report, user) (map (fun c => (report_id c, user_id c)) t).
Proof.
unfold has_pair; intros H Hin.
apply in_map_iff in Hin; destruct Hin as [c [Hc Hin]].
assert (E : existsb (same_pair report user) t = true).
{ apply existsb_exists; exists c; split; [exact Hin | ].
  inversion Hc; unfold same_pair; rewrite !Z.eqb_refl; reflexivity. }
congruence.
Qed.

(** X18.  An accepted confirmation keeps the table free of two rows for
    one (report, user) pair and keeps every type within the [CHECK]; the
    row added is the caller's own, and references a stored report and a
    known user. *)
Theorem confirmations_stay_unique (auth_uid : option UUID)
  (now : timestamptz) (fresh : UUID) (auth_users : list UUID)
  (reports : list Reports.row) (t t' : list row) (n : new_row) :
  confirmation_pairs_unique t ->
  confirmation_types_valid t ->
  insert auth_uid now fresh auth_users reports t n = Ok t' ->
  confirmation_pairs_unique t' /\
  confirmation_types_valid t' /\
  t' = t ++ [with_defaults now fresh n] /\
  auth_uid = Some (n_user_id n) /\
  Reports.has_id (n_report_id n) reports = true /\
  Reports.mem_uuid (n_user_id n) auth_users = true.
Proof.
intros Hp Hv; unfold insert; simpl.
destruct (is_own auth_uid _) eqn:Hown; cbn [negb]; [ | discriminate].
destruct (type_check _) eqn:Hty; cbn [negb]; [ | discriminate].
destruct (has_id fresh t); [discriminate | ].
destruct (has_pair (n_report_id n) (n_user_id n) t) eqn:Hpair;
  [discriminate | ].
destruct (Reports.has_id _ _) eqn:Hrep; cbn [negb]; [ | discriminate].
destruct (Reports.mem_uuid _ _) eqn:Hfk; cbn [negb]; [ | discriminate].
intros H; inversion H; clear H.
split; [ | split; [ | repeat split; auto]].
- unfold confirmation_pairs_unique in *; rewrite map_app; simpl.
  apply Permutation_NoDup
    with (l := (n_report_id n, n_user_id n)
               :: map (fun c => (report_id c, user_id c)) t).
  + apply Permutation_cons_append.
  + constructor; [apply has_pair_false; exact Hpair | exact Hp].
- intros c Hc; apply in_app_or in Hc; destruct Hc as [Hc | [Hc | []]];
    [apply Hv; exact Hc | subst c; exact Hty].
- unfold is_own, uuid_eq in Hown; simpl in Hown.
  destruct auth_uid as [u |]; [ | discriminate].
  simpl in Hown; destruct (Z.eqb_spec u (n_user_id n));
    [congruence | discriminate].
Qed.

(** Bob's sighting, then Carol's call on the same report: the table holds
    the two rows, one for each of them. *)
Lemma confirmations_stay_unique_witness :
  insert (Some Scenario.carol) 1200%Z 71%Z
    [Scenario.alice; Scenario.bob; Scenario.carol] [Scenario.scooter_row]
    [Scenario.seen_by_bob_row] MoreScenario.called_by_carol
  = Ok [Scenario.seen_by_bob_row;
        with_defaults 1200%Z 71%Z MoreScenario.called_by_carol] /\
  confirmation_pairs_unique
    [Scenario.seen_by_bob_row;
     with_defaults 1200%Z 71%Z MoreScenario.called_by_carol] /\
  confirmation_types_valid
    [Scenario.seen_by_bob_row;
     with_defaults 1200%Z 71%Z MoreScenario.called_by_carol].
Proof.
assert (Hfirst :
  confirmation_pairs_unique [Scenario.seen_by_bob_row] /\
  confirmation_types_valid [Scenario.seen_by_bob_row]).
{ destruct (confirmations_stay_unique (Some Scenario.bob) 1100%Z 70%Z
              [Scenario.alice; Scenario.bob] [Scenario.scooter_row] []
              [Scenario.seen_by_bob_row] Scenario.seen_by_bob)
    as [H1 [H2 _]].
  - constructor.
  - intros c [].
  - reflexivity.
  - split; [exact H1 | exact H2]. }
destruct Hfirst as [Hpairs Htypes].
assert (E :
  insert (Some Scenario.carol) 1200%Z 71%Z
    [Scenario.alice; Scenario.bob; Scenario.carol] [Scenario.scooter_row]
    [Scenario.seen_by_bob_row] MoreScenario.called_by_carol
  = Ok [Scenario.seen_by_bob_row;
        with_defaults 1200%Z 71%Z MoreScenario.called_by_carol])
  by reflexivity.
split; [exact E | ].
destruct (confirmations_stay_unique _ _ _ _ _ _ _ _ Hpairs Htypes E)
  as [H1 [H2 _]].
split; [exact H1 | exact H2].
Defined.

End ConfirmationInvariants.

(** ** What the submission paths store *)

Section StoredReports.

Lemma report_has_id_false (i : UUID) (t : list Reports.row) :
  Reports.has_id i t = false -> ~ In i (map Reports.id t).
Proof.
unfold Reports.has_id; intros H Hin.
apply in_map_iff in Hin; destruct Hin as [r [Hr Hin]].
assert (E : existsb (fun x => Z.eqb (Reports.id x) i) t = true).
{ apply existsb_exists; exists r; split; [exact Hin | ].
  apply Z.eqb_eq; exact Hr. }
congruence.
Qed.

(** The three invariants of [reports] together. *)
Lemma insert_report_invariants (w : world) (returning : bool) (s s1 : store)
  (n : Reports.new_row) (r : Reports.row) :
  Supabase.insert_report w returning s n = Ok (r, s1) ->
  location_derived (reports s) /\ status_valid (reports s) /\
  report_ids_unique (reports s) ->
  location_derived (reports s1) /\ status_valid (reports s1) /\
  report_ids_unique (reports s1).
Proof.
unfold Supabase.insert_report.
destruct (insert_report_lost w); [discriminate | ].
destruct (Reports.insert _ _ _ _ _ _ _) as [[r0 t] | e] eqn:E;
  [ | discriminate].
intros H; inversion H; subst r0 s1; clear H.
apply insert_ok in E; destruct E as [Hr [Ht [_ [Hc [Hid _]]]]]; subst t.
intros [Hloc [Hst Hids]]; cbn [reports set_reports].
split; [ | split].
- intros x Hx; apply in_app_or in Hx; destruct Hx as [Hx | [Hx | []]];
    [apply Hloc; exact Hx | subst x r; reflexivity].
- intros x Hx; apply in_app_or in Hx; destruct Hx as [Hx | [Hx | []]];
    [apply Hst; exact Hx | ].
  subst x; unfold Reports.constraints in Hc; apply andb_prop in Hc.
  apply text_in_status; tauto.
- unfold report_ids_unique in *; rewrite map_app; simpl.
  apply Permutation_NoDup
    with (l := Reports.id r :: map Reports.id (reports s)).
  + apply Permutation_cons_append.
  + constructor; [apply report_has_id_false; exact Hid | exact Hids].
Qed.

(** X19.  On a store whose [reports] table has unique ids, points derived
    from [lon] and [lat] and statuses within the [CHECK], each of the three
    submission forms leaves such a table, whatever it is given and whatever
    fails on the way. *)
Theorem submissions_keep_report_invariants (w : world) (s : store)
  (c1 : TheftReportDialog.closure)
  (c2 : TheftReportForm.closure) (d2 : TheftReportForm.ReportFormData)
  (c3 : ReportStolenVehicle.closure)
  (d3 : ReportStolenVehicle.ReportFormData) :
  location_derived (reports s) ->
  status_valid (reports s) ->
  report_ids_unique (reports s) ->
  (forall s',
     s' = snd (TheftReportDialog.handleSubmit c1 w s) \/
     s' = snd (TheftReportForm.handleSubmit c2 w d2 s) \/
     s' = snd (ReportStolenVehicle.handleSubmit c3 w d3 s) ->
     location_derived (reports s') /\ status_valid (reports s') /\
     report_ids_unique (reports s')).
Proof.
intros Hloc Hst Hids s' [E | [E | E]]; subst s'.
- destruct (handleSubmit_cases c1 w s)
    as [[E | E] | [owner [lat [lon [report [_ [Hlat [Hlat0 [Hlon
         [Hlon0 [Hins E]]]]]]]]]]]; rewrite E; cbn [snd]; auto.
  assert (Hinv := insert_report_invariants _ _ _ _ _ _ Hins
                    (conj Hloc (conj Hst Hids))).
  destruct (sendAlertsToUsers_cases c1 w (Reports.id report)
              (set_reports s (reports s ++ [report])) lat lon
              Hlat Hlat0 Hlon Hlon0) as [[E2 _] | [_ [_ [_ E2]]]];
    rewrite E2; exact Hinv.
- unfold TheftReportForm.handleSubmit.
  destruct (TheftReportForm.reportSchema d2); [ | auto].
  unfold TheftReportForm.onSubmit.
  destruct (TheftReportForm.user c2); [ | auto].
  destruct (TheftReportForm.latitude c2); [ | auto].
  destruct (TheftReportForm.longitude c2); [ | auto].
  destruct (_ || _); [auto | ].
  destruct (Supabase.insert_report _ _ _ _) as [[rep s1] | e] eqn:E;
    [ | auto].
  exact (insert_report_invariants _ _ _ _ _ _ E (conj Hloc (conj Hst Hids))).
- rewrite (proj1 (stolen_vehicle_never_persists c3 w d3 s)); auto.
Qed.

Lemma submissions_keep_report_invariants_witness :
  location_derived
    (reports (snd (TheftReportDialog.handleSubmit Scenario.dialog_2km
                     Scenario.quiet_world Scenario.town))) /\
  report_ids_unique
    (reports (snd (TheftReportDialog.handleSubmit Scenario.dialog_2km
                     Scenario.quiet_world Scenario.town))).
Proof.
destruct (submissions_keep_report_invariants Scenario.quiet_world
            Scenario.town Scenario.dialog_2km Scenario.form
            Scenario.two_hours
            MoreScenario.stolen_form MoreScenario.stolen_data
            ltac:(intros r []) ltac:(intros r []) ltac:(constructor)
            _ (or_introl eq_refl)) as [H1 [_ H3]].
split; [exact H1 | exact H3].
Defined.

End StoredReports.

Section ValidatedForm.

Import TheftReportForm.

(** X20.  When the validated form ends in success it has stored exactly
    one report: with the radius of the form, between 500 and 5000; expiring
    the chosen number of hours, between 1 and 24, after the browser's clock;
    with the vehicle number of the form, which is not empty; pending, of
    category ['vehicle'], owned by the signed-in user, who is the caller the
    store saw; located at the browser's coordinates. *)
Theorem validated_form_stores_bounded_report (c : closure) (w : world)
  (data : ReportFormData) (s : store) :
  fst (handleSubmit c w data s) = Success ->
  exists r,
    reports (snd (handleSubmit c w data s)) = reports s ++ [r] /\
    Reports.radius_m r = radius data /\
    (500 <= Reports.radius_m r <= 5000)%Z /\
    Reports.expiry_at r = (Date_now w + Reports.hours (expiryHours data))%Z /\
    (Date_now w + Reports.hours 1 <= Reports.expiry_at r
     <= Date_now w + Reports.hours 24)%Z /\
    Reports.vehicle_no r = vehicleNo data /\
    Reports.vehicle_no r <> ""%string /\
    Reports.status r = "pending"%string /\
    Reports.category r = "vehicle"%string /\
    user c = Some (Reports.user_id r) /\
    auth_uid w = Some (Reports.user_id r) /\
    latitude c = Some (Reports.lat r) /\
    longitude c = Some (Reports.lon r) /\
    Reports.location r = Some (point (Reports.lon r) (Reports.lat r)) /\
    Reports.created_at r = now w.
Proof.
unfold handleSubmit.
destruct (reportSchema data) eqn:Hschema; [ | discriminate].
unfold onSubmit.
destruct (user c) as [uid |]; [ | discriminate].
destruct (latitude c) as [lat |]; [ | discriminate].
destruct (longitude c) as [lon |]; [ | discriminate].
destruct (_ || _); [discriminate | ].
destruct (Supabase.insert_report _ _ _ _) as [[rep s1] | e] eqn:E;
  [ | discriminate].
intros _; cbn [snd].
destruct (insert_report_ok _ _ _ _ _ _ E) as [Hs1 [Hrep [Hauth _]]].
unfold reportSchema in Hschema.
repeat (apply andb_prop in Hschema; destruct Hschema as [Hschema ?]).
repeat match goal with
       | H : (_ <=? _)%Z = true |- _ => apply Z.leb_le in H
       | H : (_ <=? _)%nat = true |- _ => apply Nat.leb_le in H
       end.
exists rep; subst s1; split; [reflexivity | ].
subst rep; cbn -[Z.mul Z.add]; unfold Reports.hours.
repeat split; try lia; try reflexivity.
- intros Hempty.
  match goal with H : (1 <= js_length (vehicleNo data))%nat |- _ =>
    rewrite Hempty in H; simpl in H; lia
  end.
- exact Hauth.
Qed.

Lemma validated_form_stores_bounded_report_witness :
  exists r,
    reports (snd (handleSubmit Scenario.form Scenario.quiet_world
                    Scenario.two_hours Scenario.empty_store))
    = reports Scenario.empty_store ++ [r] /\
    Reports.radius_m r = 1000%Z.
Proof.
destruct (validated_form_stores_bounded_report Scenario.form
            Scenario.quiet_world Scenario.two_hours Scenario.empty_store)
  as [r [H1 [H2 _]]].
- destruct valid_report_is_stored as [r [E _]]; rewrite E; reflexivity.
- exists r; split; [exact H1 | exact H2].
Defined.

End ValidatedForm.

Section SubmittedThenListed.

Import TheftReportDialog.

(** X21.  A report stored through the dialog is on the live map of any
    viewer whose query reaches the store within the two hours that follow,
    on store and browser clocks alike, and is off it from the moment the
    store's clock reaches two hours after the insert. *)
Theorem submitted_report_is_listed_for_two_hours (c : closure) (w : world)
  (s : store) (alertsSent : option nat) :
  fst (handleSubmit c w s) = Some (Submitted alertsSent) ->
  exists r,
    In r (reports (snd (handleSubmit c w s))) /\
    Reports.id r = report_uuid w /\
    user c = Some (Reports.user_id r) /\
    Reports.vehicle_no r = vehicleNo c /\
    Reports.expiry_at r = (now w + Reports.hours 2)%Z /\
    (forall w',
       select_lost w' = false ->
       (now w' < now w + Reports.hours 2)%Z ->
       (Date_now w' <= now w + Reports.hours 2)%Z ->
       exists l,
         LiveTheftMap.loadReports w' (snd (handleSubmit c w s)) = Some l /\
         In r l) /\
    (forall w' l,
       (now w + Reports.hours 2 <= now w')%Z ->
       LiveTheftMap.loadReports w' (snd (handleSubmit c w s)) = Some l ->
       ~ In r l).
Proof.
intros Hfst.
destruct (handleSubmit_cases c w s)
  as [[E | E] | [owner [lat [lon [report
       [Hu [Hlat [Hlat0 [Hlon [Hlon0 [Hins E]]]]]]]]]]];
  try (rewrite E in Hfst; discriminate).
destruct (insert_report_ok _ _ _ _ _ _ Hins) as [_ [Hrep _]].
assert (Hin : In report (reports (snd (handleSubmit c w s)))).
{ rewrite E; cbn [snd].
  destruct (sendAlertsToUsers_cases c w (Reports.id report)
              (set_reports s (reports s ++ [report])) lat lon
              Hlat Hlat0 Hlon Hlon0) as [[E2 _] | [_ [_ [_ E2]]]];
    rewrite E2; cbn [snd reports set_reports set_notification_alerts];
    apply in_or_app; right; left; reflexivity. }
assert (Hexp : Reports.expiry_at report = (now w + Reports.hours 2)%Z)
  by (subst report; reflexivity).
assert (Hcat : Reports.category report = "vehicle"%string)
  by (subst report; reflexivity).
exists report; split; [exact Hin | ].
split; [subst report; reflexivity | ].
split; [rewrite Hu; subst report; reflexivity | ].
split; [subst report; reflexivity | ].
split; [exact Hexp | ].
split.
- intros w' Hlost Hnow Hdate.
  destruct (LiveTheftMap.loadReports w' (snd (handleSubmit c w s)))
    as [l |] eqn:El.
  + exists l; split; [reflexivity | ].
    apply (LiveTheftMap_loadReports_In _ _ _ report El).
    rewrite Hexp; auto.
  + unfold LiveTheftMap.loadReports, Supabase.select_reports in El.
    rewrite Hlost in El; discriminate.
- intros w' l Hnow El Hl.
  apply (LiveTheftMap_loadReports_In _ _ _ report El) in Hl.
  destruct Hl as [_ [Hlt _]]; rewrite Hexp in Hlt; lia.
Qed.

Lemma submitted_report_is_listed_for_two_hours_witness :
  exists r,
    In r (reports (snd (handleSubmit Scenario.dialog_2km Scenario.quiet_world
                          Scenario.town))) /\
    Reports.id r = 50%Z.
Proof.
destruct (submitted_report_is_listed_for_two_hours Scenario.dialog_2km
            Scenario.quiet_world Scenario.town (Some 1%nat))
  as [r [H1 [H2 _]]].
- rewrite end_to_end; reflexivity.
- exists r; split; [exact H1 | exact H2].
Defined.

End SubmittedThenListed.

(** ** The local list of alerts; coordinates of zero *)

Section LocalList.

Import LiveNotifications.

Lemma unread_after_marking (nid : UUID) (v : timestamptz)
  (prev : list Alerts.row) :
  unreadCount
    (map (fun notif => if Z.eqb (Alerts.id notif) nid
                       then AlertsAccess.set_read_at (Some v) notif
                       else notif) prev) =
  length (filter (fun n => match Alerts.read_at n with
                           | None => negb (Z.eqb (Alerts.id n) nid)
                           | Some _ => false
                           end) prev).
Proof.
unfold unreadCount; induction prev as [| a prev IH]; simpl;
  [reflexivity | ].
destruct (Z.eqb (Alerts.id a) nid); simpl.
- destruct (Alerts.read_at a); simpl; exact IH.
- destruct (Alerts.read_at a); simpl; rewrite IH; reflexivity.
Qed.

Lemma alerts_has_id_map (f : Alerts.row -> Alerts.row) (i : UUID)
  (t : list Alerts.row) :
  (forall a, Alerts.id (f a) = Alerts.id a) ->
  Alerts.has_id i (map f t) = Alerts.has_id i t.
Proof.
intros Hf; unfold Alerts.has_id; induction t as [| a t IH]; simpl;
  [reflexivity | rewrite Hf, IH; reflexivity].
Qed.

Lemma alerts_ids_unique_map (f : Alerts.row -> Alerts.row)
  (t : list Alerts.row) :
  (forall a, Alerts.id (f a) = Alerts.id a) ->
  AlertsAccess.ids_unique (map f t) = AlertsAccess.ids_unique t.
Proof.
intros Hf; induction t as [| a t IH]; simpl; [reflexivity | ].
rewrite Hf, alerts_has_id_map, IH by assumption; reflexivity.
Qed.

(** On a table with unique ids, senders and distances set, an update of
    [read_at] alone is never refused. *)
Lemma alerts_mark_ok (auth_uid : option UUID) (now : timestamptz)
  (cond : Alerts.row -> bool) (v : option timestamptz)
  (t : list Alerts.row) :
  AlertsAccess.ids_unique t = true ->
  forallb Alerts.not_null t = true ->
  AlertsAccess.update auth_uid now cond (AlertsAccess.set_read_at v) t =
  Ok (AlertsAccess.apply_update auth_uid now cond
        (AlertsAccess.set_read_at v) t).
Proof.
intros Hids Hnn; unfold AlertsAccess.update.
assert (H1 : forallb (AlertsAccess.is_recipient auth_uid)
               (map (AlertsAccess.new_version now
                       (AlertsAccess.set_read_at v))
                  (filter (AlertsAccess.targeted auth_uid cond) t)) = true).
{ apply forallb_forall; intros a' Ha'.
  apply in_map_iff in Ha'; destruct Ha' as [a [Ha Hin]].
  apply filter_In in Hin; destruct Hin as [_ Ht].
  unfold AlertsAccess.targeted in Ht; apply andb_prop in Ht.
  subst a'; exact (proj2 Ht). }
assert (H2 : forallb Alerts.not_null
               (map (AlertsAccess.new_version now
                       (AlertsAccess.set_read_at v))
                  (filter (AlertsAccess.targeted auth_uid cond) t)) = true).
{ apply forallb_forall; intros a' Ha'.
  apply in_map_iff in Ha'; destruct Ha' as [a [Ha Hin]].
  apply filter_In in Hin; destruct Hin as [Hin _].
  rewrite forallb_forall in Hnn; subst a'; exact (Hnn a Hin). }
assert (H3 : AlertsAccess.ids_unique
               (AlertsAccess.apply_update auth_uid now cond
                  (AlertsAccess.set_read_at v) t) = true).
{ unfold AlertsAccess.apply_update; rewrite alerts_ids_unique_map;
    [exact Hids | ].
  intros a; destruct (AlertsAccess.targeted auth_uid cond a); reflexivity. }
rewrite H1, H2, H3; reflexivity.
Qed.

(** X22.  [markAsRead] never raises the count of unread alerts in the
    local list.  When the request is lost, list and store are left as they
    were.  When it reaches a store whose alerts have unique ids, senders
    and distances, every local alert with that id is read afterwards and the
    others are as before; this also holds when no stored alert with that
    id is addressed to the caller, in which case no stored row is written. *)
Theorem mark_as_read_local_list (notificationId : UUID) (q : request)
  (date1 date2 : timestamptz) (prev : list Alerts.row) (s : store) :
  (unreadCount (fst (markAsRead notificationId q date1 date2 prev s))
   <= unreadCount prev)%nat /\
  (req_lost q = true ->
   markAsRead notificationId q date1 date2 prev s = (prev, s)) /\
  (req_lost q = false ->
   AlertsAccess.ids_unique (notification_alerts s) = true ->
   forallb Alerts.not_null (notification_alerts s) = true ->
   fst (markAsRead notificationId q date1 date2 prev s) =
   map (fun notif => if Z.eqb (Alerts.id notif) notificationId
                     then AlertsAccess.set_read_at (Some date2) notif
                     else notif) prev /\
   ((forall a, In a (notification_alerts s) ->
               AlertsAccess.targeted (req_uid q)
                 (fun a => Z.eqb (Alerts.id a) notificationId) a = false) ->
    notification_alerts
      (snd (markAsRead notificationId q date1 date2 prev s))
    = notification_alerts s)).
Proof.
split; [ | split].
- unfold markAsRead.
  destruct (req_lost q); [apply Nat.le_refl | ].
  destruct (AlertsAccess.update _ _ _ _ _); [ | apply Nat.le_refl].
  cbn [fst]; rewrite unread_after_marking; unfold unreadCount.
  clear; induction prev as [| a prev IH]; simpl; [lia | ].
  destruct (Alerts.read_at a); simpl; [exact IH | ].
  destruct (negb _); simpl; lia.
- intros H; unfold markAsRead; rewrite H; reflexivity.
- intros Hlost Hids Hnn; unfold markAsRead; rewrite Hlost.
  rewrite alerts_mark_ok by assumption; cbn [fst snd].
  split; [reflexivity | ].
  intros Hnone; cbn [notification_alerts set_notification_alerts].
  unfold AlertsAccess.apply_update.
  rewrite <- (map_id (notification_alerts s)) at 2; apply map_ext_in.
  intros a Ha; rewrite (Hnone a Ha); reflexivity.
Qed.

Lemma mark_as_read_local_list_witness :
  (unreadCount
     (fst (markAsRead 60%Z MoreScenario.bob_request 2100%Z 2101%Z
             [Scenario.alert_for_bob] Scenario.town_after))
   <= unreadCount [Scenario.alert_for_bob])%nat.
Proof.
apply (mark_as_read_local_list 60%Z MoreScenario.bob_request 2100%Z 2101%Z
         [Scenario.alert_for_bob] Scenario.town_after).
Defined.

End LocalList.

Section ZeroCoordinates.

Lemma falsy_zero : falsy_number (Some 0%R) = true.
Proof.
unfold falsy_number; destruct (Req_dec_T 0 0); [reflexivity | ].
exfalso; auto.
Qed.

(** X23.  A latitude or a longitude of exactly 0 counts as no location in
    every component that reads the browser's position: the dialog neither
    stores a report nor shows a toast nor computes a count, the validated
    form and the stolen-vehicle form without a typed location ask for the
    location, and the profile section sends no update. *)
Theorem zero_coordinate_is_no_location (w : world) (q : request)
  (s : store) (c1 : TheftReportDialog.closure)
  (c2 : TheftReportForm.closure) (d2 : TheftReportForm.ReportFormData)
  (c3 : ReportStolenVehicle.closure)
  (d3 : ReportStolenVehicle.ReportFormData)
  (c4 : ProfileSection.closure) :
  (TheftReportDialog.latitude c1 = Some 0%R \/
   TheftReportDialog.longitude c1 = Some 0%R ->
   TheftReportDialog.handleSubmit c1 w s = (None, s) /\
   TheftReportDialogPreview.calculateUsersInRange c1 w s = None) /\
  (TheftReportForm.latitude c2 = Some 0%R \/
   TheftReportForm.longitude c2 = Some 0%R ->
   TheftReportForm.reportSchema d2 = true ->
   TheftReportForm.handleSubmit c2 w d2 s
   = (TheftReportForm.LocationRequired, s)) /\
  (ReportStolenVehicle.latitude c3 = Some 0%R \/
   ReportStolenVehicle.longitude c3 = Some 0%R ->
   ReportStolenVehicle.reportSchema d3 = true ->
   ReportStolenVehicle.useManualLocation c3 = false ->
   ReportStolenVehicle.user c3 <> None ->
   ReportStolenVehicle.handleSubmit c3 w d3 s
   = (ReportStolenVehicle.LocationRequired, s)) /\
  (ProfileSection.latitude c4 = Some 0%R \/
   ProfileSection.longitude c4 = Some 0%R ->
   ProfileSection.updateLocation c4 q s = (ProfileSection.LocationError, s)).
Proof.
split; [ | split; [ | split]].
- intros H.
  assert (F : falsy_number (TheftReportDialog.latitude c1) ||
              falsy_number (TheftReportDialog.longitude c1) = true).
  { destruct H as [H | H]; rewrite H, falsy_zero;
      [reflexivity | apply orb_true_r]. }
  unfold TheftReportDialog.handleSubmit,
    TheftReportDialogPreview.calculateUsersInRange; rewrite F.
  destruct (TheftReportDialog.user c1); split; reflexivity.
- intros H Hschema.
  assert (F : falsy_number (TheftReportForm.latitude c2) ||
              falsy_number (TheftReportForm.longitude c2) = true).
  { destruct H as [H | H]; rewrite H, falsy_zero;
      [reflexivity | apply orb_true_r]. }
  unfold TheftReportForm.handleSubmit, TheftReportForm.onSubmit.
  rewrite Hschema, F.
  destruct (TheftReportForm.user c2);
    destruct (TheftReportForm.latitude c2);
    destruct (TheftReportForm.longitude c2); reflexivity.
- intros H Hschema Hmanual Huser.
  assert (F : falsy_number (ReportStolenVehicle.latitude c3) ||
              falsy_number (ReportStolenVehicle.longitude c3) = true).
  { destruct H as [H | H]; rewrite H, falsy_zero;
      [reflexivity | apply orb_true_r]. }
  unfold ReportStolenVehicle.handleSubmit, ReportStolenVehicle.onSubmit.
  rewrite Hschema, Hmanual, F.
  destruct (ReportStolenVehicle.user c3); [reflexivity | contradiction].
- intros H.
  assert (F : falsy_number (ProfileSection.latitude c4) ||
              falsy_number (ProfileSection.longitude c4) = true).
  { destruct H as [H | H]; rewrite H, falsy_zero;
      [reflexivity | apply orb_true_r]. }
  unfold ProfileSection.updateLocation; rewrite F; reflexivity.
Qed.

End ZeroCoordinates.

(** ** The range query when [acos] raises *)

Section NumericError.

Import TheftReportDialog.

(** X24.  When [acos] raises on one of the profiles the range query
    evaluates it on, the query ends in an error for every radius.  The
    count on the submit button is then left as it was, and a submission
    whose report insert is accepted keeps the report, sends no alert and
    tells the user that 0 users were notified. *)
Theorem numeric_error_sends_no_alert (c : closure) (w : world)
  (s s1 : store) (owner : UUID) (lat lon : R) (report : Reports.row) :
  user c = Some owner ->
  latitude c = Some lat -> lat <> 0%R ->
  longitude c = Some lon -> lon <> 0%R ->
  Supabase.insert_report w true s (report_of c owner lat lon)
    = Ok (report, s1) ->
  RangeQuery.acos_raises (acos_out_of_range w) (acos_on_own_row w)
    (auth_uid w) (profiles s) lat lon = true ->
  (forall radius_meters,
     exists e,
       Supabase.rpc_get_users_in_range w s lat lon radius_meters = Err e) /\
  TheftReportDialogPreview.calculateUsersInRange c w s = None /\
  handleSubmit c w s = (Some (Submitted (Some 0%nat)), s1) /\
  reports s1 = reports s ++ [report] /\
  notification_alerts s1 = notification_alerts s.
Proof.
intros Hu Hlat Hlat0 Hlon Hlon0 Hins Hraise.
destruct (insert_report_ok _ _ _ _ _ _ Hins) as [Hs1 _].
assert (Hrpc : forall st radius_meters,
          profiles st = profiles s ->
          exists e,
            Supabase.rpc_get_users_in_range w st lat lon radius_meters
            = Err e).
{ intros st radius_meters Hp; unfold Supabase.rpc_get_users_in_range.
  destruct (rpc_lost w); [eexists; reflexivity | ].
  rewrite Hp, Hraise; eexists; reflexivity. }
split; [intros radius_meters; apply Hrpc; reflexivity | ].
split.
{ unfold TheftReportDialogPreview.calculateUsersInRange.
  rewrite Hlat, Hlon, !falsy_number_false by assumption; cbn [orb].
  destruct (Hrpc s (alertRadius c) eq_refl) as [e He]; rewrite He.
  reflexivity. }
split.
{ unfold handleSubmit.
  rewrite Hu, Hlat, Hlon, !falsy_number_false by assumption; cbn [orb].
  rewrite Hins; unfold sendAlertsToUsers.
  rewrite Hlat, Hlon, !falsy_number_false by assumption; cbn [orb].
  destruct (Hrpc s1 (alertRadius c)) as [e He];
    [subst s1; reflexivity | ].
  rewrite He; reflexivity. }
subst s1; split; reflexivity.
Qed.

(** Bob stands where Alice reports, and the rounding goes the wrong way:
    her report is stored, Bob gets no alert and the toast counts 0. *)
Lemma numeric_error_sends_no_alert_witness :
  RangeQuery.acos_raises
    (acos_out_of_range MoreScenario.rounding_world)
    (acos_on_own_row MoreScenario.rounding_world)
    (auth_uid MoreScenario.rounding_world)
    (profiles MoreScenario.crossing) 12.9 77.6 = true /\
  handleSubmit Scenario.dialog_2km MoreScenario.rounding_world
    MoreScenario.crossing
  = (Some (Submitted (Some 0%nat)),
     set_reports MoreScenario.crossing [Scenario.report_2km]).
Proof.
assert (Hraise :
  RangeQuery.acos_raises
    (acos_out_of_range MoreScenario.rounding_world)
    (acos_on_own_row MoreScenario.rounding_world)
    (auth_uid MoreScenario.rounding_world)
    (profiles MoreScenario.crossing) 12.9 77.6 = true).
{ unfold RangeQuery.acos_raises, MoreScenario.crossing,
    MoreScenario.rounding_world, MoreScenario.on_centre.
  cbn [profiles acos_out_of_range acos_on_own_row auth_uid existsb
       Profiles.location Scenario.alice_profile Scenario.profile_of
       MoreScenario.bob_on_centre Scenario.carol_profile point ST_SetSRID
       ST_MakePoint ST_X ST_Y].
  destruct (Req_dec_T 12.9 12.9) as [_ | H]; [ | contradiction H; reflexivity].
  destruct (Req_dec_T 77.6 77.6) as [_ | H]; [ | contradiction H; reflexivity].
  reflexivity. }
split; [exact Hraise | ].
apply (numeric_error_sends_no_alert Scenario.dialog_2km
         MoreScenario.rounding_world MoreScenario.crossing
         (set_reports MoreScenario.crossing [Scenario.report_2km])
         Scenario.alice 12.9%R 77.6%R Scenario.report_2km);
  try reflexivity; try (simpl; lra).
exact Hraise.
Defined.

End NumericError.
